(** * E-commerce admin API: inventory and order ledger

    A shallow embedding of [app/db/models.py], [app/db/crud.py] and the
    endpoints of [app/api/v1/endpoints] that sit on top of them, followed by
    the properties of the order engine and of the stock ledger.

    Conventions of the embedding:
    - Python [int] is [Z] (unbounded, as in Python).
    - [Decimal] money values (columns [DECIMAL(10, 2)]) are exact scaled
      integers: a [Decimal] is the number of hundredths, so that
      [price * quantity] and sums are exact, as they are for [decimal.Decimal].
    - A [datetime] is a pair (calendar day, microsecond within the day); a
      [date] is the calendar day alone.
    - A table is the list of its rows in insertion order together with its
      AUTO_INCREMENT counter; [query(...).filter(...).first()] is [find].
    - A SQLAlchemy [Session] (autocommit and autoflush off) is the committed
      database, the session's working copy (identity map plus pending rows)
      and the outcome of the commits still to come; [db.commit()] either
      publishes the working copy or raises and rolls the session back. *)

From Stdlib Require Import ZArith List String Bool Lia DecimalString Sorted.
Import ListNotations.
Open Scope Z_scope.

Set Implicit Arguments.

(** ** Scalars *)

Definition Decimal := Z.
Definition date := Z.
Definition datetime := (Z * Z)%type.

(** [datetime.time.min] and [datetime.time.max] as microseconds of the day. *)
Definition time_min : Z := 0.
Definition time_max : Z := 86399999999.

Definition combine (d : date) (t : Z) : datetime := (d, t).

(** Lexicographic comparison of two [datetime] values ([a <= b]). *)
Definition datetime_le (a b : datetime) : bool :=
  (fst a <? fst b) || ((fst a =? fst b) && (snd a <=? snd b)).

(** Python's [str(n)] on an [int]. *)
Definition str (n : Z) : string := NilZero.string_of_int (Z.to_int n).

Definition option_eqb {A} (eqb : A -> A -> bool) (x y : option A) : bool :=
  match x, y with
  | Some a, Some b => eqb a b
  | None, None => true
  | _, _ => false
  end.

(** Python truthiness of an [Optional[str]]: [None] and the empty string are
    falsy. *)
Definition truthy_str (s : option string) : bool :=
  match s with
  | Some s' => negb (String.eqb s' ""%string)
  | None => false
  end.

(** Python truthiness of an [Optional[int]]: [None] and [0] are falsy. *)
Definition truthy_int (n : option Z) : bool :=
  match n with
  | Some n' => negb (n' =? 0)
  | None => false
  end.

(** ** app/db/models.py *)

Module Category.
Record t := mk {
  id : Z;
  name : string;
  description : option string
}.
End Category.

Module Product.
Record t := mk {
  id : Z;
  name : string;
  description : option string;
  price : Decimal;
  category_id : Z;
  sku : option string;
  created_at : datetime;
  updated_at : datetime
}.

(** Equality on the mapped columns that [setattr] can touch. *)
Definition same_columns (a b : t) : bool :=
  String.eqb (name a) (name b)
  && option_eqb String.eqb (description a) (description b)
  && (price a =? price b)
  && (category_id a =? category_id b)
  && option_eqb String.eqb (sku a) (sku b).
End Product.

Module Inventory.
Record t := mk {
  id : Z;
  product_id : Z;
  quantity : Z;
  low_stock_threshold : Z;
  last_updated : datetime
}.
End Inventory.

Module InventoryLog.
Record t := mk {
  id : Z;
  product_id : Z;
  change_quantity : Z;
  new_quantity : Z;
  reason : option string;
  timestamp : datetime
}.
End InventoryLog.

Module Order.
Record t := mk {
  id : Z;
  order_date : datetime;
  customer_name : option string;
  status : string;
  total_amount : Decimal
}.
End Order.

Module OrderItem.
Record t := mk {
  id : Z;
  order_id : Z;
  product_id : Z;
  quantity : Z;
  price_at_sale : Decimal;
  subtotal : Decimal
}.
End OrderItem.

(** ** app/schemas *)

Module ProductCreate.
Record t := mk {
  name : string;
  description : option string;
  price : Decimal;
  category_id : Z;
  sku : option string;
  initial_quantity : Z;
  low_stock_threshold : option Z
}.
End ProductCreate.

(** [ProductUpdate.model_dump(exclude_unset=True)]: the fields the request
    set, in order, each with its value.  An explicit [null] for a column that
    is [nullable=False] is refused by the storage at commit and is covered
    by a failing commit. *)
Inductive ProductField :=
| set_name (v : string)
| set_description (v : option string)
| set_price (v : Decimal)
| set_category_id (v : Z)
| set_sku (v : option string).

Definition ProductUpdate := list ProductField.

Module InventoryUpdate.
Record t := mk {
  quantity_change : option Z;
  absolute_quantity : option Z;
  reason : option string;
  low_stock_threshold : option Z
}.
End InventoryUpdate.

Module OrderItemCreate.
Record t := mk {
  product_id : Z;
  quantity : Z
}.
End OrderItemCreate.

Module OrderCreate.
Record t := mk {
  customer_name : option string;
  items : list OrderItemCreate.t
}.
End OrderCreate.

(** ** The database *)

Record Table (R : Type) := mkTable {
  rows : list R;
  next_id : Z
}.

Definition empty_table (R : Type) : Table R := mkTable [] 1.

(** INSERT of a row whose primary key is drawn from the AUTO_INCREMENT
    counter. *)
Definition insert {R} (new : Z -> R) (t : Table R) : R * Table R :=
  let r := new (next_id t) in
  (r, mkTable (rows t ++ [r]) (next_id t + 1)).

(** UPDATE of the rows selected by [sel] (the primary key of a loaded
    object). *)
Definition update {R} (sel : R -> bool) (f : R -> R) (t : Table R) : Table R :=
  mkTable (map (fun r => if sel r then f r else r) (rows t)) (next_id t).

Record Database := mkDatabase {
  categories : Table Category.t;
  products : Table Product.t;
  inventory : Table Inventory.t;
  inventory_logs : Table InventoryLog.t;
  orders : Table Order.t;
  order_items : Table OrderItem.t
}.

Definition empty_db : Database :=
  mkDatabase (empty_table _) (empty_table _) (empty_table _)
             (empty_table _) (empty_table _) (empty_table _).

Definition with_products (t : Table Product.t) (d : Database) : Database :=
  mkDatabase (categories d) t (inventory d) (inventory_logs d) (orders d)
             (order_items d).

Definition with_inventory (t : Table Inventory.t) (d : Database) : Database :=
  mkDatabase (categories d) (products d) t (inventory_logs d) (orders d)
             (order_items d).

Definition with_inventory_logs (t : Table InventoryLog.t) (d : Database)
  : Database :=
  mkDatabase (categories d) (products d) (inventory d) t (orders d)
             (order_items d).

Definition with_orders (t : Table Order.t) (d : Database) : Database :=
  mkDatabase (categories d) (products d) (inventory d) (inventory_logs d) t
             (order_items d).

Definition with_order_items (t : Table OrderItem.t) (d : Database) : Database :=
  mkDatabase (categories d) (products d) (inventory d) (inventory_logs d)
             (orders d) t.

(** ** The session: state and exceptions *)

Inductive Exception :=
| ValueError (msg : string)
| DBAPIError
| AttributeError (msg : string)
| DetachedInstanceError.

Inductive Outcome (A : Type) :=
| Return (a : A)
| Raise (e : Exception).

Arguments Raise {A} e.

Record Session := mkSession {
  committed : Database;
  working : Database;
  storage : list bool;
  now : datetime
}.

Definition M (A : Type) := Session -> Outcome A * Session.

Definition ret {A} (a : A) : M A := fun s => (Return a, s).

Definition bind {A B} (m : M A) (k : A -> M B) : M B :=
  fun s =>
    match m s with
    | (Return a, s') => k a s'
    | (Raise e, s') => (Raise e, s')
    end.

Definition raise {A} (e : Exception) : M A := fun s => (Raise e, s).

Notation "x <- m ;; k" := (bind m (fun x => k))
  (at level 61, m at next level, right associativity).
Notation "' pat <- m ;; k" :=
  (bind m (fun x => match x with pat => k end))
  (at level 61, pat pattern, m at next level, right associativity).
Notation "m ;; k" := (bind m (fun _ => k))
  (at level 61, right associativity).

(** A SELECT: it reads the session's working copy. *)
Definition query {A} (q : Database -> A) : M A :=
  fun s => (Return (q (working s)), s).

(** A pending change of the session: visible to the session at once, to the
    others at commit. *)
Definition modify (f : Database -> Database) : M unit :=
  fun s => (Return tt, mkSession (committed s) (f (working s)) (storage s) (now s)).

Definition func_now : M datetime := fun s => (Return (now s), s).

(** [db.add(obj)] followed by the flush that gives [obj] its primary key. *)
Definition add {R} (tbl : Database -> Table R)
    (put : Table R -> Database -> Database) (new : Z -> R) : M R :=
  fun s =>
    let (r, t) := insert new (tbl (working s)) in
    (Return r, mkSession (committed s) (put t (working s)) (storage s) (now s)).

(** [db.commit()]: the next storage outcome decides.  On success the working
    copy becomes the committed database; on failure the exception leaves the
    transaction rolled back (the counters of the inserts it undoes are given
    back with it, which nothing below depends on).  Once the recorded
    outcomes are used up the storage is healthy. *)
Definition commit : M unit :=
  fun s =>
    match storage s with
    | false :: rest =>
        (Raise DBAPIError, mkSession (committed s) (committed s) rest (now s))
    | true :: rest =>
        (Return tt, mkSession (working s) (working s) rest (now s))
    | [] =>
        (Return tt, mkSession (working s) (working s) [] (now s))
    end.

(** [get_db]: a request opens a session on the committed database and closes
    it at the end, which drops whatever was not committed. *)
Definition open_session (d : Database) (st : list bool) (t : datetime) : Session :=
  mkSession d d st t.

Definition run {A} (m : M A) (d : Database) (st : list bool) (t : datetime)
  : Outcome A * Database :=
  let (r, s) := m (open_session d st t) in (r, committed s).

(** ** app/db/crud.py: catalog *)

Definition get_category (category_id : Z) (d : Database) : option Category.t :=
  find (fun c => Category.id c =? category_id) (rows (categories d)).

Definition get_product (product_id : Z) (d : Database) : option Product.t :=
  find (fun p => Product.id p =? product_id) (rows (products d)).

Definition get_product_by_sku (sku : string) (d : Database) : option Product.t :=
  find (fun p => option_eqb String.eqb (Product.sku p) (Some sku))
       (rows (products d)).

Definition get_inventory_by_product_id (product_id : Z) (d : Database)
  : option Inventory.t :=
  find (fun i => Inventory.product_id i =? product_id) (rows (inventory d)).

(** [create_product].  Whether its commits go through is the storage's
    word: a missing category or a SKU already in use makes the storage refuse
    the first commit (foreign key, unique index), so a run on a healthy
    storage stands for a call whose category exists and whose SKU is
    unused. *)
Definition create_product (product : ProductCreate.t) : M Product.t :=
  t <- func_now ;;
  db_product <- add products with_products
    (fun id => Product.mk id
       (ProductCreate.name product)
       (ProductCreate.description product)
       (ProductCreate.price product)
       (ProductCreate.category_id product)
       (ProductCreate.sku product)
       t t) ;;
  commit ;;
  db_inventory <- add inventory with_inventory
    (fun id => Inventory.mk id
       (Product.id db_product)
       (ProductCreate.initial_quantity product)
       (match ProductCreate.low_stock_threshold product with
        | Some n => n
        | None => 10
        end)
       t) ;;
  db_inventory_log <- add inventory_logs with_inventory_logs
    (fun id => InventoryLog.mk id
       (Product.id db_product)
       (ProductCreate.initial_quantity product)
       (ProductCreate.initial_quantity product)
       (Some "Initial stock"%string)
       t) ;;
  commit ;;
  ret db_product.

(** [setattr(db_product, key, value)]. *)
Definition setattr (p : Product.t) (f : ProductField) : Product.t :=
  match f with
  | set_name v =>
      Product.mk (Product.id p) v (Product.description p) (Product.price p)
        (Product.category_id p) (Product.sku p) (Product.created_at p)
        (Product.updated_at p)
  | set_description v =>
      Product.mk (Product.id p) (Product.name p) v (Product.price p)
        (Product.category_id p) (Product.sku p) (Product.created_at p)
        (Product.updated_at p)
  | set_price v =>
      Product.mk (Product.id p) (Product.name p) (Product.description p) v
        (Product.category_id p) (Product.sku p) (Product.created_at p)
        (Product.updated_at p)
  | set_category_id v =>
      Product.mk (Product.id p) (Product.name p) (Product.description p)
        (Product.price p) v (Product.sku p) (Product.created_at p)
        (Product.updated_at p)
  | set_sku v =>
      Product.mk (Product.id p) (Product.name p) (Product.description p)
        (Product.price p) (Product.category_id p) v (Product.created_at p)
        (Product.updated_at p)
  end.

(** The column default [onupdate=func.now()] of [updated_at]: it fires when
    the flush has a net change to write. *)
Definition touch (t : datetime) (old new : Product.t) : Product.t :=
  if Product.same_columns old new then old
  else Product.mk (Product.id new) (Product.name new) (Product.description new)
         (Product.price new) (Product.category_id new) (Product.sku new)
         (Product.created_at new) t.

Definition update_product (product_id : Z) (product_update : ProductUpdate)
  : M (option Product.t) :=
  db_product <- query (get_product product_id) ;;
  match db_product with
  | None => ret None
  | Some p =>
      t <- func_now ;;
      let p' := touch t p (fold_left setattr product_update p) in
      modify (fun d =>
        with_products
          (update (fun r => Product.id r =? Product.id p) (fun _ => p')
                  (products d)) d) ;;
      commit ;;
      ret (Some p')
  end.

(** ** app/db/crud.py: stock ledger *)

Definition update_inventory (product_id : Z) (inventory_update : InventoryUpdate.t)
  : M (option Inventory.t) :=
  db_inventory <- query (get_inventory_by_product_id product_id) ;;
  match db_inventory with
  | None => ret None
  | Some inv =>
      let original_quantity := Inventory.quantity inv in
      let log_reason :=
        match InventoryUpdate.reason inventory_update with
        | Some r => if truthy_str (Some r) then r else "Manual update"%string
        | None => "Manual update"%string
        end in
      let new_quantity :=
        match InventoryUpdate.quantity_change inventory_update with
        | Some c => original_quantity + c
        | None =>
            match InventoryUpdate.absolute_quantity inventory_update with
            | Some a => a
            | None => original_quantity
            end
        end in
      let new_quantity := if new_quantity <? 0 then 0 else new_quantity in
      let change_quantity := new_quantity - original_quantity in
      let threshold :=
        match InventoryUpdate.low_stock_threshold inventory_update with
        | Some n => n
        | None => Inventory.low_stock_threshold inv
        end in
      t <- func_now ;;
      let inv' :=
        Inventory.mk (Inventory.id inv) (Inventory.product_id inv)
                     new_quantity threshold t in
      modify (fun d =>
        with_inventory
          (update (fun r => Inventory.id r =? Inventory.id inv) (fun _ => inv')
                  (inventory d)) d) ;;
      (if negb (change_quantity =? 0)
          || truthy_int (InventoryUpdate.quantity_change inventory_update)
          || match InventoryUpdate.absolute_quantity inventory_update with
             | Some a => negb (a =? original_quantity)
             | None => false
             end
       then
         add inventory_logs with_inventory_logs
           (fun id => InventoryLog.mk id product_id change_quantity
                        new_quantity (Some log_reason) t) ;;
         ret tt
       else ret tt) ;;
      commit ;;
      ret (Some inv')
  end.

(** ** app/db/crud.py: order engine *)

(** The dictionaries collected in [order_items_to_create]. *)
Record item_info := mk_item_info {
  info_product_id : Z;
  info_quantity : Z;
  info_price_at_sale : Decimal;
  info_subtotal : Decimal
}.

(** The accumulators of the first loop: [total_order_amount],
    [order_items_to_create] and [inventory_updates_needed]. *)
Definition plan := (Decimal * list item_info * list (Z * Z * Z))%type.

Definition product_not_found (product_id : Z) : string :=
  ("Product with ID " ++ str product_id ++ " not found.")%string.

Definition not_enough_stock (name : string) (product_id available requested : Z)
  : string :=
  ("Not enough stock for product " ++ name ++ " (ID: " ++ str product_id
   ++ "). Available: " ++ str available ++ ", Requested: " ++ str requested)%string.

Fixpoint validate_items (items : list OrderItemCreate.t) (acc : plan) : M plan :=
  match items with
  | [] => ret acc
  | item_data :: rest =>
      let '(total_order_amount, order_items_to_create, inventory_updates_needed) :=
        acc in
      let pid := OrderItemCreate.product_id item_data in
      let qty := OrderItemCreate.quantity item_data in
      db_product <- query (get_product pid) ;;
      match db_product with
      | None => raise (ValueError (product_not_found pid))
      | Some p =>
          db_inventory <- query (get_inventory_by_product_id pid) ;;
          match db_inventory with
          | None =>
              raise (ValueError (not_enough_stock (Product.name p) pid 0 qty))
          | Some inv =>
              if Inventory.quantity inv <? qty then
                raise (ValueError
                         (not_enough_stock (Product.name p) pid
                                           (Inventory.quantity inv) qty))
              else
                let price_at_sale := Product.price p in
                let subtotal := price_at_sale * qty in
                validate_items rest
                  (total_order_amount + subtotal,
                   order_items_to_create
                     ++ [mk_item_info pid qty price_at_sale subtotal],
                   inventory_updates_needed
                     ++ [(pid, qty, Inventory.quantity inv)])
          end
      end
  end.

Fixpoint add_order_items (order_id : Z) (infos : list item_info) : M unit :=
  match infos with
  | [] => ret tt
  | item_info :: rest =>
      add order_items with_order_items
        (fun id => OrderItem.mk id order_id
                     (info_product_id item_info) (info_quantity item_info)
                     (info_price_at_sale item_info) (info_subtotal item_info)) ;;
      add_order_items order_id rest
  end.

Definition sale_reason (order_id : Z) : string :=
  ("Sale - Order ID: " ++ str order_id)%string.

Fixpoint deduct_inventory (order_id : Z) (updates : list (Z * Z * Z)) : M unit :=
  match updates with
  | [] => ret tt
  | (product_id, quantity_deducted, original_inv_qty) :: rest =>
      db_inventory <- query (get_inventory_by_product_id product_id) ;;
      match db_inventory with
      | Some inv =>
          t <- func_now ;;
          let new_inv_quantity := Inventory.quantity inv - quantity_deducted in
          modify (fun d =>
            with_inventory
              (update (fun r => Inventory.id r =? Inventory.id inv)
                 (fun _ => Inventory.mk (Inventory.id inv)
                             (Inventory.product_id inv) new_inv_quantity
                             (Inventory.low_stock_threshold inv) t)
                 (inventory d)) d) ;;
          add inventory_logs with_inventory_logs
            (fun id => InventoryLog.mk id product_id (- quantity_deducted)
                         new_inv_quantity (Some (sale_reason order_id)) t) ;;
          deduct_inventory order_id rest
      | None => deduct_inventory order_id rest
      end
  end.

(** The second half of [create_order], from "Create the Order record" on:
    the order row and its commit, then the order items, the stock deductions
    with their log entries, and the final commit. *)
Definition commit_order (order_data : OrderCreate.t) (validated : plan)
  : M Order.t :=
  let '(total_order_amount, order_items_to_create, inventory_updates_needed) :=
    validated in
  t <- func_now ;;
  db_order <- add orders with_orders
    (fun id => Order.mk id t (OrderCreate.customer_name order_data)
                 "completed"%string total_order_amount) ;;
  commit ;;
  add_order_items (Order.id db_order) order_items_to_create ;;
  deduct_inventory (Order.id db_order) inventory_updates_needed ;;
  commit ;;
  ret db_order.

Definition create_order (order_data : OrderCreate.t) : M Order.t :=
  validated <- validate_items (OrderCreate.items order_data) (0, [], []) ;;
  commit_order order_data validated.

Definition get_order (order_id : Z) (d : Database) : option Order.t :=
  find (fun o => Order.id o =? order_id) (rows (orders d)).

(** ** app/db/crud.py: reporting *)

(** [order_date >= combine(start_date, time.min)] and
    [order_date <= combine(end_date, time.max)]. *)
Definition in_period (start_date end_date : date) (order_date : datetime) : bool :=
  datetime_le (combine start_date time_min) order_date
  && datetime_le order_date (combine end_date time_max).

Definition sum_subtotals (l : list OrderItem.t) : Decimal :=
  fold_left (fun acc it => acc + OrderItem.subtotal it) l 0.

(** The rows of [OrderItem JOIN Order JOIN Product] (and [JOIN Category] when
    a category is asked for) that pass the filters.  The joins are on primary
    keys, so each order item meets at most one order and one product. *)
Definition revenue_rows (start_date end_date : date) (category_id : option Z)
    (d : Database) : list OrderItem.t :=
  filter
    (fun it =>
       match get_order (OrderItem.order_id it) d,
             get_product (OrderItem.product_id it) d with
       | Some o, Some p =>
           in_period start_date end_date (Order.order_date o)
           && (if truthy_int category_id then
                 match get_category (Product.category_id p) d with
                 | Some _ =>
                     option_eqb Z.eqb (Some (Product.category_id p)) category_id
                 | None => false
                 end
               else true)
       | _, _ => false
       end)
    (rows (order_items d)).

(** [query.scalar_one_or_none()], called on the ORM [Query] that
    [db.query(...)] returns.  [Query] has no attribute of that name (it is a
    method of [Result]), so the attribute lookup raises before any row is
    read. *)
Definition scalar_one_or_none (query : Database -> list OrderItem.t)
  : M (option Decimal) :=
  raise (AttributeError
           "'Query' object has no attribute 'scalar_one_or_none'").

(** [get_revenue_for_period]: the aggregate query is built, the category's
    name is looked up when a category is asked for, and the query is handed
    to [scalar_one_or_none]. *)
Definition get_revenue_for_period (start_date end_date : date)
    (category_id : option Z) : M (Decimal * option string) :=
  let query_ := revenue_rows start_date end_date category_id in
  category_name <-
    (if truthy_int category_id then
       match category_id with
       | Some cid =>
           cat <- query (get_category cid) ;;
           ret (match cat with
                | Some c => Some (Category.name c)
                | None => None
                end)
       | None => ret None
       end
     else ret None) ;;
  result <- scalar_one_or_none query_ ;;
  ret (match result with Some r => r | None => 0 end, category_name).

(** ** app/api/v1/endpoints *)

Record HTTPException := mkHTTPException {
  status_code : Z;
  detail : string
}.

Definition HTTP_400_BAD_REQUEST : Z := 400.
Definition HTTP_404_NOT_FOUND : Z := 404.
Definition HTTP_500_INTERNAL_SERVER_ERROR : Z := 500.

Definition Response (A : Type) := (HTTPException + A)%type.

Definition try_except {A} (body : M A) (handler : Exception -> M A) : M A :=
  fun s =>
    match body s with
    | (Raise e, s') => handler e s'
    | r => r
    end.

(** A request: the endpoint runs in its own session; an exception that no
    handler caught is the framework's plain 500. *)
Definition serve {A} (endpoint : M (Response A)) (d : Database)
    (st : list bool) (t : datetime) : Response A * Database :=
  match run endpoint d st t with
  | (Return r, d') => (r, d')
  | (Raise _, d') =>
      (inl (mkHTTPException HTTP_500_INTERNAL_SERVER_ERROR
              "Internal Server Error"), d')
  end.

Module products_api.

Definition create_product (product_in : ProductCreate.t)
  : M (Response Product.t) :=
  category <- query (get_category (ProductCreate.category_id product_in)) ;;
  match category with
  | None =>
      ret (inl (mkHTTPException HTTP_400_BAD_REQUEST
                  ("Category with ID "
                   ++ str (ProductCreate.category_id product_in)
                   ++ " not found.")%string))
  | Some _ =>
      existing_product_sku <-
        (if truthy_str (ProductCreate.sku product_in) then
           match ProductCreate.sku product_in with
           | Some sku => query (get_product_by_sku sku)
           | None => ret None
           end
         else ret None) ;;
      match existing_product_sku, ProductCreate.sku product_in with
      | Some _, Some sku =>
          ret (inl (mkHTTPException HTTP_400_BAD_REQUEST
                      ("Product with SKU '" ++ sku ++ "' already exists.")%string))
      | _, _ =>
          p <- create_product product_in ;;
          ret (inr p)
      end
  end.

End products_api.

Module inventory_api.

Record Inventory := mkInventory {
  record : Inventory.t;
  product : option Product.t;
  is_low_stock : bool
}.

Definition update_inventory_level (product_id : Z)
    (inventory_in : InventoryUpdate.t) : M (Response Inventory) :=
  db_product <- query (get_product product_id) ;;
  match db_product with
  | None =>
      ret (inl (mkHTTPException HTTP_404_NOT_FOUND
                  ("Product with ID " ++ str product_id ++ " not found.")%string))
  | Some _ =>
      match InventoryUpdate.quantity_change inventory_in,
            InventoryUpdate.absolute_quantity inventory_in,
            InventoryUpdate.low_stock_threshold inventory_in with
      | Some _, Some _, _ =>
          ret (inl (mkHTTPException HTTP_400_BAD_REQUEST
            "Provide either 'quantity_change' or 'absolute_quantity', not both."))
      | None, None, None =>
          ret (inl (mkHTTPException HTTP_400_BAD_REQUEST
            "No update operation specified. Provide 'quantity_change', 'absolute_quantity', or 'low_stock_threshold'."))
      | _, _, _ =>
          updated_inventory <- update_inventory product_id inventory_in ;;
          match updated_inventory with
          | None =>
              ret (inl (mkHTTPException HTTP_404_NOT_FOUND
                ("Inventory record not found for product ID " ++ str product_id
                 ++ ". This shouldn't happen if product exists.")%string))
          | Some inv =>
              p <- query (get_product (Inventory.product_id inv)) ;;
              ret (inr (mkInventory inv p
                          (Inventory.quantity inv
                           <=? Inventory.low_stock_threshold inv)))
          end
      end
  end.

End inventory_api.

Module orders_api.

Record OrderDetails := mkOrderDetails {
  order : Order.t;
  items : list (OrderItem.t * option Product.t)
}.

Definition unexpected : HTTPException :=
  mkHTTPException HTTP_500_INTERNAL_SERVER_ERROR
    "An unexpected error occurred while creating the order.".

Definition create_order (order_in : OrderCreate.t) : M (Response OrderDetails) :=
  try_except
    (created_order <- create_order order_in ;;
     db_order_details <- query (get_order (Order.id created_order)) ;;
     match db_order_details with
     | None => ret (inl unexpected)
     | Some o =>
         response_items <- query (fun d =>
           map (fun it => (it, get_product (OrderItem.product_id it) d))
               (filter (fun it => OrderItem.order_id it =? Order.id o)
                       (rows (order_items d)))) ;;
         ret (inr (mkOrderDetails o response_items))
     end)
    (fun e =>
       match e with
       | ValueError msg => ret (inl (mkHTTPException HTTP_400_BAD_REQUEST msg))
       | _ => ret (inl unexpected)
       end).

End orders_api.

Module sales_reports.

(** [percentage_change]: a [float], either the rounded percentage (kept as
    its number of hundredths) or [float('inf')]. *)
Inductive percentage :=
| percent (hundredths : Z)
| inf.

(** [round(x, 2)] of the quotient [n / d * 100] for [d > 0], rounding half
    to even; the argument is the quotient scaled to hundredths of a
    percent.  The quotient is taken exactly, which is what the 28-digit
    [decimal] context gives for any revenue below 10^20. *)
Definition round_half_even (n d : Z) : Z :=
  let q := n / d in
  let r := n mod d in
  if 2 * r <? d then q
  else if d <? 2 * r then q + 1
  else if Z.even q then q else q + 1.

Record RevenueComparisonResponse := mkRevenueComparisonResponse {
  period1_start_date : date;
  period1_end_date : date;
  period1_revenue : Decimal;
  period1_category_name : option string;
  period2_start_date : date;
  period2_end_date : date;
  period2_revenue : Decimal;
  period2_category_name : option string;
  difference : Decimal;
  percentage_change : percentage
}.

(** The date arguments are the results of [parse_date_or_none]. *)
Definition get_revenue_comparison_report
    (p1_start p1_end p2_start p2_end : option date)
    (category_id1 category_id2 : option Z)
  : M (Response RevenueComparisonResponse) :=
  match p1_start, p1_end, p2_start, p2_end with
  | Some p1s, Some p1e, Some p2s, Some p2e =>
      if (p1e <? p1s) || (p2e <? p2s) then
        ret (inl (mkHTTPException HTTP_400_BAD_REQUEST
               "Start date cannot be after end date for any period."))
      else
        let category_id2 :=
          match category_id1, category_id2 with
          | Some c1, None => Some c1
          | _, _ => category_id2
          end in
        try_except
          ('(rev1, cat1_name) <-
             get_revenue_for_period p1s p1e category_id1 ;;
           '(rev2, cat2_name) <-
             get_revenue_for_period p2s p2e category_id2 ;;
           let difference := rev2 - rev1 in
           let percentage_change :=
             if 0 <? rev1 then
               percent (round_half_even (difference * 10000) rev1)
             else if 0 <? rev2 then inf
             else percent 0 in
           ret (inr (mkRevenueComparisonResponse p1s p1e rev1 cat1_name
                       p2s p2e rev2 cat2_name difference percentage_change)))
          (fun _ =>
             ret (inl (mkHTTPException HTTP_500_INTERNAL_SERVER_ERROR
                         "Error processing revenue comparison.")))
  | _, _, _, _ =>
      ret (inl (mkHTTPException HTTP_400_BAD_REQUEST
             "All date parameters are required and must be valid (YYYY-MM-DD)."))
  end.

End sales_reports.

(** ** Vocabulary of the properties *)

(** The on-hand quantity of a product: that of its stock record, [0] when it
    has none (as [create_order] reports it). *)
Definition stock (product_id : Z) (d : Database) : Z :=
  match get_inventory_by_product_id product_id d with
  | Some inv => Inventory.quantity inv
  | None => 0
  end.

(** The audit trail of a product, oldest entry first. *)
Definition logs_of (product_id : Z) (d : Database) : list InventoryLog.t :=
  filter (fun l => InventoryLog.product_id l =? product_id)
         (rows (inventory_logs d)).

(** Replaying a run of log entries from the quantity [q]: every entry must
    record the quantity it produced ([new_quantity]) and the change that led
    to it from the quantity before ([change_quantity]); the result is the
    quantity after the last entry. *)
Fixpoint ledger (q : Z) (entries : list InventoryLog.t) : option Z :=
  match entries with
  | [] => Some q
  | e :: rest =>
      if InventoryLog.new_quantity e =? q + InventoryLog.change_quantity e
      then ledger (InventoryLog.new_quantity e) rest
      else None
  end.

(** Every product's audit trail, replayed from nothing, accounts for every
    change of its quantity and ends at the quantity on hand. *)
Definition audit_complete (d : Database) : Prop :=
  forall product_id, ledger 0 (logs_of product_id d) = Some (stock product_id d).

(** What one operation did to a product is exactly what it logged: the
    entries it appended replay from the old quantity to the new one. *)
Definition changes_logged (d d' : Database) : Prop :=
  forall product_id,
    exists appended,
      logs_of product_id d' = logs_of product_id d ++ appended
      /\ ledger (stock product_id d) appended = Some (stock product_id d')
      /\ (stock product_id d' <> stock product_id d -> appended <> []).

(** The entry [e] records that the quantity of [product_id] changed by
    [delta] and came to [resulting]. *)
Definition records (e : InventoryLog.t) (product_id delta resulting : Z) : Prop :=
  InventoryLog.product_id e = product_id
  /\ InventoryLog.change_quantity e = delta
  /\ InventoryLog.new_quantity e = resulting.

(** One entry per change.  [changes] are the changes of quantity applied one
    after the other, each a product and the delta applied to it, starting
    from the quantities [quantity]: there are exactly as many [entries], the
    n-th entry records the n-th change with its delta and the quantity it
    led to, and the quantities end at [final]. *)
Fixpoint recorded (quantity : Z -> Z) (changes : list (Z * Z))
    (entries : list InventoryLog.t) (final : Z -> Z) : Prop :=
  match changes, entries with
  | [], [] => forall p, final p = quantity p
  | (product_id, delta) :: changes', e :: entries' =>
      records e product_id delta (quantity product_id + delta)
      /\ recorded (fun p => if p =? product_id then quantity p + delta
                            else quantity p)
                  changes' entries' final
  | _, _ => False
  end.

(** Between [d] and [d'] the stock quantities went through exactly the
    [changes], and the log grew by exactly one entry for each of them. *)
Definition one_entry_per_change (changes : list (Z * Z)) (d d' : Database)
  : Prop :=
  exists entries,
    rows (inventory_logs d') = rows (inventory_logs d) ++ entries
    /\ recorded (fun p => stock p d) changes entries (fun p => stock p d').

(** One committed step of the system: a call of one of the three operations
    that touch stock, with any arguments, at any time, on any storage
    behaviour. *)
Inductive step : Database -> Database -> Prop :=
| step_create_product d product st t :
    step d (snd (run (create_product product) d st t))
| step_update_inventory d product_id inventory_update st t :
    step d (snd (run (update_inventory product_id inventory_update) d st t))
| step_create_order d order_data st t :
    step d (snd (run (create_order order_data) d st t)).

Inductive reachable : Database -> Prop :=
| reachable_empty : reachable empty_db
| reachable_step d d' : reachable d -> step d d' -> reachable d'.

(** Integrity of the stock tables that the operations maintain: one stock
    record per product, distinct primary keys below the counter, and no stock
    record for a product id that is still to be handed out. *)
Record stock_integrity (d : Database) : Prop := mk_stock_integrity {
  unique_product_id : NoDup (map Inventory.product_id (rows (inventory d)));
  unique_inventory_id : NoDup (map Inventory.id (rows (inventory d)));
  inventory_id_below :
    forall i, In i (map Inventory.id (rows (inventory d))) ->
              i < next_id (inventory d);
  product_id_below :
    forall i, In i (map Inventory.product_id (rows (inventory d))) ->
              i < next_id (products d)
}.

(** The units sold of a product: the quantities taken by the log entries
    that sales wrote. *)
Definition is_sale (l : InventoryLog.t) : bool :=
  match InventoryLog.reason l with
  | Some r => String.prefix "Sale - Order ID: " r
  | None => false
  end.

Definition units_sold (product_id : Z) (d : Database) : Z :=
  fold_left (fun acc l => acc - InventoryLog.change_quantity l)
            (filter is_sale (logs_of product_id d)) 0.

(** Two requests in flight at once: both run their validation loop on the
    same committed state before either writes, then each runs the rest of
    [create_order]; the second one's writes start from what the first one
    committed. *)
Definition after_validation (order_data : OrderCreate.t)
    (validated : Outcome plan) (d : Database) (t : datetime)
  : Outcome Order.t * Database :=
  match validated with
  | Return p => run (commit_order order_data p) d [] t
  | Raise e => (Raise e, d)
  end.

Definition concurrent_orders (a b : OrderCreate.t) (d : Database) (t : datetime)
  : Outcome Order.t * Outcome Order.t * Database :=
  let validated_a := fst (run (validate_items (OrderCreate.items a) (0, [], [])) d [] t) in
  let validated_b := fst (run (validate_items (OrderCreate.items b) (0, [], [])) d [] t) in
  let (result_a, d1) := after_validation a validated_a d t in
  let (result_b, d2) := after_validation b validated_b d1 t in
  (result_a, result_b, d2).

(** The order lines that [create_order] writes for a request: one per item,
    priced from the product table it validated against. *)
Definition line_of (d : Database) (order_id : Z) (item : OrderItemCreate.t)
    (line : OrderItem.t) : Prop :=
  OrderItem.order_id line = order_id
  /\ OrderItem.product_id line = OrderItemCreate.product_id item
  /\ OrderItem.quantity line = OrderItemCreate.quantity item
  /\ (exists p, get_product (OrderItemCreate.product_id item) d = Some p
                /\ OrderItem.price_at_sale line = Product.price p)
  /\ OrderItem.subtotal line = OrderItem.price_at_sale line * OrderItem.quantity line.

(** A line of a request that the validation loop refuses, with the message
    it raises. *)
Inductive refused (d : Database) (item : OrderItemCreate.t) : string -> Prop :=
| refused_product :
    get_product (OrderItemCreate.product_id item) d = None ->
    refused d item (product_not_found (OrderItemCreate.product_id item))
| refused_no_record p :
    get_product (OrderItemCreate.product_id item) d = Some p ->
    get_inventory_by_product_id (OrderItemCreate.product_id item) d = None ->
    refused d item
      (not_enough_stock (Product.name p) (OrderItemCreate.product_id item) 0
                        (OrderItemCreate.quantity item))
| refused_stock p inv :
    get_product (OrderItemCreate.product_id item) d = Some p ->
    get_inventory_by_product_id (OrderItemCreate.product_id item) d = Some inv ->
    Inventory.quantity inv < OrderItemCreate.quantity item ->
    refused d item
      (not_enough_stock (Product.name p) (OrderItemCreate.product_id item)
                        (Inventory.quantity inv) (OrderItemCreate.quantity item)).

(** A bad line, as the specification words it: it names a missing product,
    or asks for more than is available (nothing is available without a
    record). *)
Definition bad_line (d : Database) (item : OrderItemCreate.t) : Prop :=
  get_product (OrderItemCreate.product_id item) d = None
  \/ get_inventory_by_product_id (OrderItemCreate.product_id item) d = None
  \/ stock (OrderItemCreate.product_id item) d < OrderItemCreate.quantity item.

(** The rows that [add_order_items] inserts when the order-item counter
    stands at [first_id]. *)
Fixpoint order_lines (order_id first_id : Z) (infos : list item_info)
  : list OrderItem.t :=
  match infos with
  | [] => []
  | i :: rest =>
      OrderItem.mk first_id order_id (info_product_id i) (info_quantity i)
                   (info_price_at_sale i) (info_subtotal i)
      :: order_lines order_id (first_id + 1) rest
  end.

(** What the validation loop records for a line it accepts. *)
Definition info_of (d : Database) (item : OrderItemCreate.t) (i : item_info)
  : Prop :=
  info_product_id i = OrderItemCreate.product_id item
  /\ info_quantity i = OrderItemCreate.quantity item
  /\ (exists p, get_product (OrderItemCreate.product_id item) d = Some p
                /\ info_price_at_sale i = Product.price p)
  /\ info_subtotal i = info_price_at_sale i * info_quantity i.

(** ** The writes of [create_order], as functions of the database

    The effect of each stretch of [commit_order] on the working copy; the
    lemmas [add_order_items_effect], [deduct_inventory_effect] and
    [commit_order_run] show that the code computes exactly these. *)

(** The order row that [commit_order] inserts. *)
Definition new_order (order_data : OrderCreate.t) (total : Decimal)
    (t : datetime) (d : Database) : Order.t :=
  Order.mk (next_id (orders d)) t (OrderCreate.customer_name order_data)
           "completed"%string total.

Definition order_inserted (order_data : OrderCreate.t) (total : Decimal)
    (t : datetime) (d : Database) : Database :=
  with_orders (mkTable (rows (orders d) ++ [new_order order_data total t d])
                       (next_id (orders d) + 1)) d.

Definition lines_inserted (order_id : Z) (infos : list item_info) (d : Database)
  : Database :=
  with_order_items
    (mkTable (rows (order_items d)
              ++ order_lines order_id (next_id (order_items d)) infos)
             (next_id (order_items d) + Z.of_nat (List.length infos))) d.

(** One round of the deduction loop. *)
Definition sell (order_id : Z) (t : datetime) (d : Database) (u : Z * Z * Z)
  : Database :=
  let '(product_id, quantity_deducted, _) := u in
  match get_inventory_by_product_id product_id d with
  | Some inv =>
      let new_inv_quantity := Inventory.quantity inv - quantity_deducted in
      with_inventory_logs
        (mkTable (rows (inventory_logs d)
                  ++ [InventoryLog.mk (next_id (inventory_logs d)) product_id
                        (- quantity_deducted) new_inv_quantity
                        (Some (sale_reason order_id)) t])
                 (next_id (inventory_logs d) + 1))
        (with_inventory
           (update (fun r => Inventory.id r =? Inventory.id inv)
              (fun _ => Inventory.mk (Inventory.id inv) (Inventory.product_id inv)
                          new_inv_quantity (Inventory.low_stock_threshold inv) t)
              (inventory d)) d)
  | None => d
  end.

(** Everything a validated order writes once both commits went through. *)
Definition order_written (order_data : OrderCreate.t) (validated : plan)
    (t : datetime) (d : Database) : Database :=
  let '(total, infos, updates) := validated in
  fold_left (sell (next_id (orders d)) t) updates
    (lines_inserted (next_id (orders d)) infos
       (order_inserted order_data total t d)).

(** The writes of [create_product]: the product row of its first commit,
    then the stock record and the log entry of its second. *)
Definition new_product (product : ProductCreate.t) (t : datetime) (d : Database)
  : Product.t :=
  Product.mk (next_id (products d))
    (ProductCreate.name product) (ProductCreate.description product)
    (ProductCreate.price product) (ProductCreate.category_id product)
    (ProductCreate.sku product) t t.

Definition product_inserted (product : ProductCreate.t) (t : datetime)
    (d : Database) : Database :=
  with_products (mkTable (rows (products d) ++ [new_product product t d])
                         (next_id (products d) + 1)) d.

Definition product_written (product : ProductCreate.t) (t : datetime)
    (d : Database) : Database :=
  with_inventory_logs
    (mkTable (rows (inventory_logs d)
              ++ [InventoryLog.mk (next_id (inventory_logs d))
                    (next_id (products d))
                    (ProductCreate.initial_quantity product)
                    (ProductCreate.initial_quantity product)
                    (Some "Initial stock"%string) t])
             (next_id (inventory_logs d) + 1))
    (with_inventory
       (mkTable (rows (inventory d)
                 ++ [Inventory.mk (next_id (inventory d)) (next_id (products d))
                       (ProductCreate.initial_quantity product)
                       (match ProductCreate.low_stock_threshold product with
                        | Some n => n
                        | None => 10
                        end) t])
                (next_id (inventory d) + 1))
       (product_inserted product t d)).

(** The stock tables are sound when the audit trail is complete and the
    stock records are well keyed. *)
Definition sound (d : Database) : Prop :=
  audit_complete d /\ stock_integrity d.

(** The audit log only grows. *)
Definition log_extended (d d' : Database) : Prop :=
  exists appended,
    rows (inventory_logs d') = rows (inventory_logs d) ++ appended.

(** ** Sample data *)

Definition widget : ProductCreate.t :=
  ProductCreate.mk "Widget" None 1250 1 None 10 None.

Definition tools : Category.t := Category.mk 1 "Tools" None.

(** A catalog with one category and nothing else. *)
Definition catalog_db : Database :=
  mkDatabase (mkTable [tools] 2) (empty_table _) (empty_table _)
             (empty_table _) (empty_table _) (empty_table _).

(** The catalog after [widget] was registered with 10 units. *)
Definition stocked_db : Database :=
  snd (serve (products_api.create_product widget) catalog_db [] (19000, 0)).

(** A product row whose stock record was never written. *)
Definition gadget : Product.t :=
  Product.mk 2 "Gadget" None 400 1 None (19000, 0) (19000, 0).

Definition unstocked_db : Database :=
  with_products (mkTable (rows (products stocked_db) ++ [gadget]) 3) stocked_db.

(** Eight widgets at 12.50 sold on day 19010: a revenue of 100.00. *)
Definition eight_widgets : OrderCreate.t :=
  OrderCreate.mk (Some "Ada"%string) [OrderItemCreate.mk 1 8].

Definition sold_db : Database :=
  snd (serve (orders_api.create_order eight_widgets) stocked_db [] (19010, 0)).

(** A product registered with 3 units in an empty database. *)
Definition three_units_db : Database :=
  snd (run (create_product (ProductCreate.mk "Bolt" None 25 1 None 3 None))
           empty_db [] (19000, 0)).

(** An order with one good line and one line for a product that does not
    exist. *)
Definition mixed_order : OrderCreate.t :=
  OrderCreate.mk None [OrderItemCreate.mk 1 2; OrderItemCreate.mk 99 1].

(** An order whose first line names a missing product and whose second line
    names [gadget], which has no stock record. *)
Definition missing_then_unstocked : OrderCreate.t :=
  OrderCreate.mk None [OrderItemCreate.mk 99 1; OrderItemCreate.mk 2 1].

(** An order whose first line is fine and whose second line names [gadget]. *)
Definition widget_then_unstocked : OrderCreate.t :=
  OrderCreate.mk None [OrderItemCreate.mk 1 2; OrderItemCreate.mk 2 1].

(** One order asking twice for 6 of the 10 widgets, and two orders asking
    for 6 each. *)
Definition six_widgets : OrderCreate.t :=
  OrderCreate.mk None [OrderItemCreate.mk 1 6].

Definition twice_six_widgets : OrderCreate.t :=
  OrderCreate.mk None [OrderItemCreate.mk 1 6; OrderItemCreate.mk 1 6].

(** A short history from the empty database: a product registered with 10
    units, 8 of them sold, then a manual correction of -5 that is clamped. *)
Definition history_db : Database :=
  snd (run (update_inventory 1 (InventoryUpdate.mk (Some (-5)) None None None))
         (snd (run (create_order eight_widgets)
                 (snd (run (create_product widget) empty_db [] (19000, 0)))
                 [] (19010, 0)))
         [] (19020, 0)).

(** A catalog with two products that carry different SKUs. *)
Definition labelled_db : Database :=
  with_products
    (mkTable [Product.mk 1 "Widget" None 1250 1 (Some "W-1"%string)
                (19000, 0) (19000, 0);
              Product.mk 2 "Gadget" None 400 1 (Some "G-2"%string)
                (19000, 0) (19000, 0)] 3)
    catalog_db.

(** ** app/db/crud.py: pagination *)

Module Paginated.
Record t (A : Type) := mk {
  total_items : Z;
  items : list A;
  page : Z;
  page_size : Z;
  num_pages : Z
}.
End Paginated.

(** [query.offset(offset).limit(limit).all()] on a query that yields [rows],
    for an offset and a limit that the storage accepts (neither negative). *)
Definition offset_limit {A} (offset limit : Z) (rows : list A) : list A :=
  firstn (Z.to_nat limit) (skipn (Z.to_nat offset) rows).

(** [get_paginated_items], on the rows the query yields.  [None] stands for
    the calls that raise: a page size of 0 divides by zero, and a negative
    LIMIT or OFFSET (page size below 0, page below 1) is refused by the
    storage. *)
Definition get_paginated_items {A} (query : list A) (page page_size : Z)
  : option (Paginated.t A) :=
  if (page <? 1) || (page_size <? 1) then None
  else
    let total_items := Z.of_nat (List.length query) in
    let items := offset_limit ((page - 1) * page_size) page_size query in
    let num_pages := (total_items + page_size - 1) / page_size in
    Some (Paginated.mk total_items items page page_size num_pages).

(** The items of one page, nothing when the call raises. *)
Definition page_items {A} (query : list A) (page page_size : Z) : list A :=
  match get_paginated_items query page page_size with
  | Some r => Paginated.items r
  | None => []
  end.

(** ** app/db/crud.py: the rest of the catalog *)

Module CategoryCreate.
Record t := mk {
  name : string;
  description : option string
}.
End CategoryCreate.

(** [CategoryUpdate.model_dump(exclude_unset=True)], as for products. *)
Inductive CategoryField :=
| set_category_name (v : string)
| set_category_description (v : option string).

Definition CategoryUpdate := list CategoryField.

Definition with_categories (t : Table Category.t) (d : Database) : Database :=
  mkDatabase t (products d) (inventory d) (inventory_logs d) (orders d)
             (order_items d).

(** DELETE of the rows selected by [sel] (the primary key of a loaded
    object). *)
Definition delete_rows {R} (sel : R -> bool) (t : Table R) : Table R :=
  mkTable (filter (fun r => negb (sel r)) (rows t)) (next_id t).

(** [db.rollback()]: the pending changes are dropped. *)
Definition rollback : M unit :=
  fun s => (Return tt, mkSession (committed s) (committed s) (storage s) (now s)).

(** [func.lower(Category.name) == func.lower(name)]; [lower] is the
    storage's LOWER function. *)
Definition get_category_by_name (lower : string -> string) (name : string)
    (d : Database) : option Category.t :=
  find (fun c => String.eqb (lower (Category.name c)) (lower name))
       (rows (categories d)).

Definition create_category (category : CategoryCreate.t) : M Category.t :=
  db_category <- add categories with_categories
    (fun id => Category.mk id (CategoryCreate.name category)
                 (CategoryCreate.description category)) ;;
  commit ;;
  ret db_category.

Definition set_category_attr (c : Category.t) (f : CategoryField) : Category.t :=
  match f with
  | set_category_name v => Category.mk (Category.id c) v (Category.description c)
  | set_category_description v => Category.mk (Category.id c) (Category.name c) v
  end.

Definition update_category (category_id : Z) (category_update : CategoryUpdate)
  : M (option Category.t) :=
  db_category <- query (get_category category_id) ;;
  match db_category with
  | None => ret None
  | Some c =>
      let c' := fold_left set_category_attr category_update c in
      modify (fun d =>
        with_categories
          (update (fun r => Category.id r =? Category.id c) (fun _ => c')
                  (categories d)) d) ;;
      commit ;;
      ret (Some c')
  end.

Definition delete_category (category_id : Z) : M (option Category.t) :=
  db_category <- query (get_category category_id) ;;
  match db_category with
  | None => ret None
  | Some c =>
      modify (fun d =>
        with_categories
          (delete_rows (fun r => Category.id r =? Category.id c) (categories d))
          d) ;;
      commit ;;
      ret (Some c)
  end.

(** [delete_product]: the stock record goes with the product, in one
    transaction; whatever the delete or its commit raises is swallowed,
    rolled back and answered with [None]. *)
Definition delete_product (product_id : Z) : M (option Product.t) :=
  db_product <- query (get_product product_id) ;;
  match db_product with
  | None => ret None
  | Some p =>
      db_inventory <- query (get_inventory_by_product_id product_id) ;;
      match db_inventory with
      | Some inv =>
          modify (fun d =>
            with_inventory
              (delete_rows (fun r => Inventory.id r =? Inventory.id inv)
                           (inventory d)) d)
      | None => ret tt
      end ;;
      try_except
        (modify (fun d =>
           with_products
             (delete_rows (fun r => Product.id r =? Product.id p) (products d))
             d) ;;
         commit ;;
         ret (Some p))
        (fun _ => rollback ;; ret None)
  end.

(** ** app/api/v1/endpoints: the rest of the catalog *)

(** [product_in.category_id] and [product_in.sku]: the value the request
    set, [None] when it set none. *)
Definition field_category_id (product_in : ProductUpdate) : option Z :=
  fold_left (fun acc f => match f with set_category_id v => Some v | _ => acc end)
            product_in None.

Definition field_sku (product_in : ProductUpdate) : option string :=
  fold_left (fun acc f => match f with set_sku v => v | _ => acc end)
            product_in None.

(** [category_in.name]. *)
Definition field_name (category_in : CategoryUpdate) : option string :=
  fold_left (fun acc f => match f with set_category_name v => Some v | _ => acc end)
            category_in None.

Module products_router.

Definition read_product (product_id : Z) : M (Response Product.t) :=
  db_product <- query (get_product product_id) ;;
  match db_product with
  | None => ret (inl (mkHTTPException HTTP_404_NOT_FOUND "Product not found"))
  | Some p => ret (inr p)
  end.

Definition update_product (product_id : Z) (product_in : ProductUpdate)
  : M (Response (option Product.t)) :=
  db_product <- query (get_product product_id) ;;
  match db_product with
  | None => ret (inl (mkHTTPException HTTP_404_NOT_FOUND "Product not found"))
  | Some p =>
      category_missing <-
        match field_category_id product_in with
        | Some cid =>
            if negb (cid =? Product.category_id p) then
              category <- query (get_category cid) ;;
              ret (match category with
                   | Some _ => None
                   | None => Some cid
                   end)
            else ret None
        | None => ret None
        end ;;
      match category_missing with
      | Some cid =>
          ret (inl (mkHTTPException HTTP_400_BAD_REQUEST
                      ("Category with ID " ++ str cid
                       ++ " not found for update.")%string))
      | None =>
          sku_taken <-
            match field_sku product_in with
            | Some sku =>
                if truthy_str (Some sku)
                   && negb (option_eqb String.eqb (Some sku) (Product.sku p))
                then
                  existing_product_sku <- query (get_product_by_sku sku) ;;
                  ret (match existing_product_sku with
                       | Some e => negb (Product.id e =? product_id)
                       | None => false
                       end)
                else ret false
            | None => ret false
            end ;;
          if sku_taken then
            ret (inl (mkHTTPException HTTP_400_BAD_REQUEST
                        ("Product with SKU '"
                         ++ match field_sku product_in with
                            | Some sku => sku
                            | None => ""
                            end
                         ++ "' already exists.")%string))
          else
            updated_product <- update_product product_id product_in ;;
            ret (inr updated_product)
      end
  end.

(** [response_model=product_schemas.Product] applied to the instance that
    [crud.delete_product] hands back.  Its row is deleted and committed, so
    the instance is detached; the schema requires [category], which this
    request never loaded and which a detached instance cannot load. *)
Definition respond_with_deleted (p : Product.t) : M (Response Product.t) :=
  raise DetachedInstanceError.

Definition delete_product (product_id : Z) : M (Response Product.t) :=
  db_product_to_delete <- query (get_product product_id) ;;
  match db_product_to_delete with
  | None => ret (inl (mkHTTPException HTTP_404_NOT_FOUND "Product not found"))
  | Some _ =>
      deleted_product <- delete_product product_id ;;
      match deleted_product with
      | None =>
          ret (inl (mkHTTPException HTTP_400_BAD_REQUEST
                      ("Could not delete product ID " ++ str product_id
                       ++ ". It might be referenced in existing orders. Check server logs for details.")%string))
      | Some p => respond_with_deleted p
      end
  end.

End products_router.

Module categories_api.

Definition create_category (lower : string -> string)
    (category_in : CategoryCreate.t) : M (Response Category.t) :=
  db_category <-
    query (get_category_by_name lower (CategoryCreate.name category_in)) ;;
  match db_category with
  | Some _ =>
      ret (inl (mkHTTPException HTTP_400_BAD_REQUEST
                  ("Category with name '" ++ CategoryCreate.name category_in
                   ++ "' already exists.")%string))
  | None =>
      c <- create_category category_in ;;
      ret (inr c)
  end.

Definition read_category (category_id : Z) : M (Response Category.t) :=
  db_category <- query (get_category category_id) ;;
  match db_category with
  | None => ret (inl (mkHTTPException HTTP_404_NOT_FOUND "Category not found"))
  | Some c => ret (inr c)
  end.

Definition update_category (lower : string -> string) (category_id : Z)
    (category_in : CategoryUpdate) : M (Response (option Category.t)) :=
  db_category <- query (get_category category_id) ;;
  match db_category with
  | None => ret (inl (mkHTTPException HTTP_404_NOT_FOUND "Category not found"))
  | Some c =>
      name_taken <-
        match field_name category_in with
        | Some name =>
            if truthy_str (Some name)
               && negb (String.eqb name (Category.name c))
            then
              existing_category <- query (get_category_by_name lower name) ;;
              ret (match existing_category with
                   | Some e => negb (Category.id e =? category_id)
                   | None => false
                   end)
            else ret false
        | None => ret false
        end ;;
      if name_taken then
        ret (inl (mkHTTPException HTTP_400_BAD_REQUEST
                    ("Category name '"
                     ++ match field_name category_in with
                        | Some name => name
                        | None => ""
                        end
                     ++ "' already taken.")%string))
      else
        updated_category <- update_category category_id category_in ;;
        ret (inr updated_category)
  end.

Definition delete_category (category_id : Z) : M (Response Category.t) :=
  products_in_category <-
    query (fun d => find (fun p => Product.category_id p =? category_id)
                         (rows (products d))) ;;
  match products_in_category with
  | Some p =>
      ret (inl (mkHTTPException HTTP_400_BAD_REQUEST
                  ("Cannot delete category. It is currently associated with product(s) like '"
                   ++ Product.name p ++ "'. Reassign products first.")%string))
  | None =>
      db_category <- delete_category category_id ;;
      match db_category with
      | None =>
          ret (inl (mkHTTPException HTTP_404_NOT_FOUND "Category not found"))
      | Some c => ret (inr c)
      end
  end.

End categories_api.

Module orders_router.

Definition read_order (order_id : Z) : M (Response orders_api.OrderDetails) :=
  db_order <- query (get_order order_id) ;;
  match db_order with
  | None => ret (inl (mkHTTPException HTTP_404_NOT_FOUND "Order not found"))
  | Some o =>
      response_items <- query (fun d =>
        map (fun it => (it, get_product (OrderItem.product_id it) d))
            (filter (fun it => OrderItem.order_id it =? Order.id o)
                    (rows (order_items d)))) ;;
      ret (inr (orders_api.mkOrderDetails o response_items))
  end.

End orders_router.

(** ** app/db/crud.py and app/api/v1/endpoints/inventory.py: the stock listing *)

(** [ORDER BY inventory.product_id]: a stable insertion sort.  The order of
    rows with the same key is the storage's choice; stock records have
    distinct product ids wherever [stock_integrity] holds. *)
Fixpoint insert_by_product_id (x : Inventory.t) (l : list Inventory.t)
  : list Inventory.t :=
  match l with
  | [] => [x]
  | y :: rest =>
      if Inventory.product_id x <=? Inventory.product_id y then x :: y :: rest
      else y :: insert_by_product_id x rest
  end.

Definition order_by_product_id (l : list Inventory.t) : list Inventory.t :=
  fold_right insert_by_product_id [] l.

(** [db.query(Inventory).join(Product)] and its filters: the stock records
    whose product exists, then the optional filters in the order of the
    code. *)
Definition inventory_status_query (low_stock : option bool)
    (product_id category_id : option Z) (d : Database) : list Inventory.t :=
  let query :=
    filter (fun i => match get_product (Inventory.product_id i) d with
                     | Some _ => true
                     | None => false
                     end)
           (rows (inventory d)) in
  let query :=
    match product_id with
    | Some pid => filter (fun i => Inventory.product_id i =? pid) query
    | None => query
    end in
  let query :=
    match category_id with
    | Some cid =>
        filter (fun i => match get_product (Inventory.product_id i) d with
                         | Some p => Product.category_id p =? cid
                         | None => false
                         end)
               query
    | None => query
    end in
  match low_stock with
  | Some true =>
      filter (fun i => Inventory.quantity i <=? Inventory.low_stock_threshold i)
             query
  | Some false =>
      filter (fun i => Inventory.low_stock_threshold i <? Inventory.quantity i)
             query
  | None => query
  end.

Definition get_all_inventory_status (skip limit : Z) (low_stock : option bool)
    (product_id category_id : option Z) (d : Database) : list Inventory.t :=
  offset_limit skip limit
    (order_by_product_id
       (inventory_status_query low_stock product_id category_id d)).

Module inventory_router.

(** The response schema [Inventory]: the record, its product through the
    relationship, and the low-stock flag. *)
Record InventoryStatus := mkInventoryStatus {
  record : Inventory.t;
  product : option Product.t;
  is_low_stock : bool
}.

Definition read_inventory_status (skip limit : Z) (low_stock : option bool)
    (product_id category_id : option Z) : M (Response (list InventoryStatus)) :=
  inventory_list <-
    query (get_all_inventory_status skip limit low_stock product_id category_id) ;;
  response_list <- query (fun d =>
    map (fun inv_item =>
           mkInventoryStatus inv_item
             (get_product (Inventory.product_id inv_item) d)
             (Inventory.quantity inv_item
              <=? Inventory.low_stock_threshold inv_item))
        inventory_list) ;;
  ret (inr response_list).

End inventory_router.

(** ** app/db/crud.py: the periods of the revenue summary *)

(** [datetime.date] as the calendar has it, for the arithmetic that
    [get_revenue_summary] does on the period starts. *)
Module calendar.

Record t := mk {
  year : Z;
  month : Z;
  day : Z
}.

Definition MAXYEAR : Z := 9999.

Definition is_leap (y : Z) : bool :=
  (y mod 4 =? 0) && (negb (y mod 100 =? 0) || (y mod 400 =? 0)).

Definition days_in_month (y m : Z) : Z :=
  if m =? 2 then (if is_leap y then 29 else 28)
  else if (m =? 4) || (m =? 6) || (m =? 9) || (m =? 11) then 30
  else 31.

Definition valid (d : t) : Prop :=
  1 <= year d <= MAXYEAR /\ 1 <= month d <= 12
  /\ 1 <= day d <= days_in_month (year d) (month d).

(** The next and the previous day; [None] past [date.max] or before
    [date.min], where the arithmetic raises [OverflowError]. *)
Definition tomorrow (d : t) : option t :=
  if day d <? days_in_month (year d) (month d)
  then Some (mk (year d) (month d) (day d + 1))
  else if month d <? 12 then Some (mk (year d) (month d + 1) 1)
  else if year d <? MAXYEAR then Some (mk (year d + 1) 1 1)
  else None.

Definition yesterday (d : t) : option t :=
  if 1 <? day d then Some (mk (year d) (month d) (day d - 1))
  else if 1 <? month d
  then Some (mk (year d) (month d - 1) (days_in_month (year d) (month d - 1)))
  else if 1 <? year d then Some (mk (year d - 1) 12 31)
  else None.

Fixpoint repeat_day (step : t -> option t) (n : nat) (d : t) : option t :=
  match n with
  | O => Some d
  | S n' =>
      match step d with
      | Some d' => repeat_day step n' d'
      | None => None
      end
  end.

(** [d + datetime.timedelta(days=n)]. *)
Definition add_days (d : t) (n : Z) : option t :=
  if 0 <=? n then repeat_day tomorrow (Z.to_nat n) d
  else repeat_day yesterday (Z.to_nat (- n)) d.

End calendar.

(** The loop of [get_revenue_summary] over the rows of its query: the end
    of the period that starts at [ps].  [None] stands for the
    [OverflowError] of the date arithmetic. *)
Definition period_end (period : string) (ps : calendar.t) : option calendar.t :=
  if String.eqb period "weekly" then calendar.add_days ps 6
  else if String.eqb period "monthly" then
    match calendar.add_days
            (calendar.mk (calendar.year ps) (calendar.month ps) 28) 4 with
    | Some next_month =>
        calendar.add_days next_month (- calendar.day next_month)
    | None => None
    end
  else if String.eqb period "annually" then
    Some (calendar.mk (calendar.year ps) 12 31)
  else Some ps.

(** ** Vocabulary of the further properties *)

(** The units of a product that the lines of a request ask for, all lines
    together. *)
Definition units_ordered (product_id : Z) (items : list OrderItemCreate.t) : Z :=
  fold_right
    (fun item acc =>
       if OrderItemCreate.product_id item =? product_id
       then OrderItemCreate.quantity item + acc
       else acc)
    0 items.

(** Integrity of the order tables: order ids are distinct and below the
    counter, and every order item belongs to an order that exists. *)
Record order_integrity (d : Database) : Prop := mk_order_integrity {
  order_ids_unique : NoDup (map Order.id (rows (orders d)));
  order_ids_below :
    forall i, In i (map Order.id (rows (orders d))) -> i < next_id (orders d);
  lines_have_order :
    forall it, In it (rows (order_items d)) ->
               get_order (OrderItem.order_id it) d <> None
}.

(** No two products share a SKU, the empty SKU apart (the endpoints treat it
    as no SKU). *)
Definition sku_unique (d : Database) : Prop :=
  forall p1 p2,
    In p1 (rows (products d)) -> In p2 (rows (products d)) ->
    truthy_str (Product.sku p1) = true ->
    Product.sku p1 = Product.sku p2 ->
    Product.id p1 = Product.id p2.

(** A request to one of the product endpoints that write, with any
    arguments, at any time, on any storage behaviour. *)
Inductive product_request : Database -> Database -> Prop :=
| request_create_product d product_in st t :
    product_request d
      (snd (serve (products_api.create_product product_in) d st t))
| request_update_product d product_id product_in st t :
    product_request d
      (snd (serve (products_router.update_product product_id product_in) d st t))
| request_delete_product d product_id st t :
    product_request d
      (snd (serve (products_router.delete_product product_id) d st t)).

(** Every product's category exists. *)
Definition products_have_category (d : Database) : Prop :=
  forall p, In p (rows (products d)) ->
            get_category (Product.category_id p) d <> None.

(** A request to one of the category endpoints that write. *)
Inductive category_request (lower : string -> string)
  : Database -> Database -> Prop :=
| request_create_category d category_in st t :
    category_request lower d
      (snd (serve (categories_api.create_category lower category_in) d st t))
| request_update_category d category_id category_in st t :
    category_request lower d
      (snd (serve (categories_api.update_category lower category_id category_in)
                  d st t))
| request_delete_category d category_id st t :
    category_request lower d
      (snd (serve (categories_api.delete_category category_id) d st t)).

(** No two categories share a name up to case, the empty name apart (the
    update endpoint lets it through unchecked). *)
Definition category_names_unique (lower : string -> string) (d : Database)
  : Prop :=
  forall c1 c2,
    In c1 (rows (categories d)) -> In c2 (rows (categories d)) ->
    Category.name c1 <> ""%string -> Category.name c2 <> ""%string ->
    lower (Category.name c1) = lower (Category.name c2) ->
    Category.id c1 = Category.id c2.

(** A step of a careful history: the initial quantity of a new product is
    not negative (the request schema's bound), and the lines of an order name
    pairwise distinct products. *)
Inductive careful_step : Database -> Database -> Prop :=
| careful_create_product d product st t :
    0 <= ProductCreate.initial_quantity product ->
    careful_step d (snd (run (create_product product) d st t))
| careful_update_inventory d product_id inventory_update st t :
    careful_step d
      (snd (run (update_inventory product_id inventory_update) d st t))
| careful_create_order d order_data st t :
    NoDup (map OrderItemCreate.product_id (OrderCreate.items order_data)) ->
    careful_step d (snd (run (create_order order_data) d st t)).

Inductive careful_history : Database -> Prop :=
| careful_empty : careful_history empty_db
| careful_next d d' : careful_history d -> careful_step d d' -> careful_history d'.

(** No stock record has a negative quantity. *)
Definition no_negative_stock (d : Database) : Prop :=
  forall inv, In inv (rows (inventory d)) -> 0 <= Inventory.quantity inv.

(** * Properties *)

Unset Implicit Arguments.

(** ** The session monad *)

Lemma bind_Return {A B} (m : M A) (k : A -> M B) s a s' :
  m s = (Return a, s') -> bind m k s = k a s'.
Proof. intros H; unfold bind; now rewrite H. Qed.

Lemma bind_Raise {A B} (m : M A) (k : A -> M B) s e s' :
  m s = (Raise e, s') -> bind m k s = (Raise e, s').
Proof. intros H; unfold bind; now rewrite H. Qed.

(** ** Reporting *)

(** C9.  Revenue comparison: for every pair of well-ordered date ranges,
    and whatever the category filters, the database and the storage, the
    endpoint answers 500 "Error processing revenue comparison." and writes
    nothing.  The first call of [get_revenue_for_period] raises at
    [query.scalar_one_or_none()], so no total, no difference and no
    percentage change is ever computed; the sentinel branch for a first
    total of 0 is never reached. *)
Theorem revenue_comparison_always_fails :
  forall p1s p1e p2s p2e c1 c2 d st t,
    p1s <= p1e -> p2s <= p2e ->
    serve (sales_reports.get_revenue_comparison_report
             (Some p1s) (Some p1e) (Some p2s) (Some p2e) c1 c2) d st t
    = (inl (mkHTTPException HTTP_500_INTERNAL_SERVER_ERROR
              "Error processing revenue comparison."), d).
Proof.
  intros p1s p1e p2s p2e c1 c2 d st t H1 H2.
  unfold serve, run, sales_reports.get_revenue_comparison_report.
  assert (E : (p1e <? p1s) || (p2e <? p2s) = false).
  { apply orb_false_iff; split; apply Z.ltb_ge; assumption. }
  rewrite E.
  assert (R : forall a b c s,
            exists e, get_revenue_for_period a b c s = (Raise e, s)).
  { intros a b c s. unfold get_revenue_for_period, scalar_one_or_none.
    destruct c as [cid|]; cbn [truthy_int].
    - destruct (negb (cid =? 0)); unfold bind, query, ret, raise;
        eexists; reflexivity.
    - unfold bind, ret, raise. eexists; reflexivity. }
  destruct (R p1s p1e c1 (open_session d st t)) as [e He].
  unfold try_except. erewrite bind_Raise by exact He.
  reflexivity.
Qed.

Lemma revenue_comparison_always_fails_witness :
  serve (sales_reports.get_revenue_comparison_report
           (Some 18000) (Some 18010) (Some 19000) (Some 19020) None None)
        sold_db [] (19030, 0)
  = (inl (mkHTTPException 500 "Error processing revenue comparison."), sold_db).
Proof.
  apply (revenue_comparison_always_fails 18000 18010 19000 19020 None None
           sold_db [] (19030, 0)); lia.
Defined.

(** ** Catalog *)

(** C8.  Price snapshot stability: whatever [update_product] is asked to
    change, and whether or not its commit goes through, the order and
    order-item tables are left exactly as they were, so every committed
    line keeps its [price_at_sale] and [subtotal] and every order its
    [total_amount]. *)
Theorem price_snapshot_stability :
  forall product_id product_update d st t,
    order_items (snd (run (update_product product_id product_update) d st t))
    = order_items d
    /\ orders (snd (run (update_product product_id product_update) d st t))
       = orders d.
Proof.
  intros pid upd d st t.
  unfold run, update_product, bind, query, func_now, modify, commit, ret.
  cbn [open_session working committed storage now].
  case (get_product pid d); [intros p|]; cbn [snd committed].
  - destruct st as [|[|] st]; cbn [snd committed with_products orders order_items];
      split; reflexivity.
  - split; reflexivity.
Qed.

(** The price change itself does happen: the frame property above is not
    about a no-op. *)
Example update_product_changes_price :
  let d' := snd (run (update_product 1 [set_price 1999]) sold_db [] (19020, 0)) in
  option_map Product.price (get_product 1 sold_db) = Some 1250
  /\ option_map Product.price (get_product 1 d') = Some 1999
  /\ map OrderItem.price_at_sale (rows (order_items d')) = [1250]
  /\ map OrderItem.subtotal (rows (order_items d')) = [10000]
  /\ map Order.total_amount (rows (orders d')) = [10000].
Proof. vm_compute. repeat split. Qed.

(** ** Stock ledger: manual adjustment *)

(** The session re-reads an updated stock record under the same product. *)
Lemma find_updated_record :
  forall (l : list Inventory.t) pid inv inv',
    find (fun i => Inventory.product_id i =? pid) l = Some inv ->
    Inventory.product_id inv' = pid ->
    find (fun i => Inventory.product_id i =? pid)
         (map (fun r => if Inventory.id r =? Inventory.id inv then inv' else r) l)
    = Some inv'.
Proof.
  intros l pid inv inv' Hfind Hpid.
  induction l as [|r l IH]; simpl in *; [discriminate|].
  destruct (Inventory.product_id r =? pid) eqn:Er.
  - injection Hfind as ->.
    rewrite Z.eqb_refl. simpl. rewrite Hpid, Z.eqb_refl. reflexivity.
  - destruct (Inventory.id r =? Inventory.id inv).
    + simpl. rewrite Hpid, Z.eqb_refl. reflexivity.
    + simpl. rewrite Er. apply IH, Hfind.
Qed.

Lemma find_some_product_id :
  forall (l : list Inventory.t) pid inv,
    find (fun i => Inventory.product_id i =? pid) l = Some inv ->
    Inventory.product_id inv = pid.
Proof.
  intros l pid inv H. apply find_some in H. destruct H as [_ H].
  now apply Z.eqb_eq.
Qed.

(** C5.  Manual-adjustment clamp: on an existing stock record and a healthy
    storage, [update_inventory] returns the record (it does not raise), the
    stored quantity is the requested target clamped at 0, hence never
    negative; and when the target is below zero the quantity is 0 and the
    operation appends one log entry whose [change_quantity] is the change
    actually applied and whose [new_quantity] is 0. *)
Theorem manual_adjustment_clamp :
  forall d product_id u st t inv,
    get_inventory_by_product_id product_id d = Some inv ->
    hd true st = true ->
    let target :=
      match InventoryUpdate.quantity_change u with
      | Some c => Inventory.quantity inv + c
      | None =>
          match InventoryUpdate.absolute_quantity u with
          | Some a => a
          | None => Inventory.quantity inv
          end
      end in
    exists inv' d',
      run (update_inventory product_id u) d st t = (Return (Some inv'), d')
      /\ get_inventory_by_product_id product_id d' = Some inv'
      /\ Inventory.quantity inv' = Z.max 0 target
      /\ 0 <= Inventory.quantity inv'
      /\ (target < 0 ->
          Inventory.quantity inv' = 0
          /\ exists e,
               rows (inventory_logs d') = rows (inventory_logs d) ++ [e]
               /\ InventoryLog.product_id e = product_id
               /\ InventoryLog.change_quantity e
                  = Inventory.quantity inv' - Inventory.quantity inv
               /\ InventoryLog.new_quantity e = 0).
Proof.
  intros d pid u st t inv Hinv Hst target.
  pose proof (find_some_product_id _ _ _ Hinv) as Hpid.
  unfold run, update_inventory, bind, query.
  cbn [open_session working]. rewrite Hinv.
  fold target.
  set (new_quantity := if target <? 0 then 0 else target).
  assert (Hnew : new_quantity = Z.max 0 target).
  { unfold new_quantity. destruct (Z.ltb_spec target 0); lia. }
  set (logged := negb (new_quantity - Inventory.quantity inv =? 0) || _ || _).
  assert (Hlogged : target < 0 -> logged = true).
  { intros Hneg. unfold logged.
    destruct (Z.eqb_spec (new_quantity - Inventory.quantity inv) 0) as [E|E];
      [|reflexivity].
    simpl. subst target.
    destruct (InventoryUpdate.quantity_change u) as [c|]; simpl.
    - destruct (Z.eqb_spec c 0); [lia | reflexivity].
    - destruct (InventoryUpdate.absolute_quantity u) as [a|]; simpl.
      + destruct (Z.eqb_spec a (Inventory.quantity inv)); [lia | reflexivity].
      + lia. }
  unfold func_now, modify, add, insert, commit, ret.
  cbn [committed working storage now].
  destruct logged eqn:L;
    (destruct st as [|[|] st]; [| |discriminate Hst]);
    cbn [committed working storage now fst snd];
    eexists; eexists; (split; [reflexivity|]);
    (split; [unfold get_inventory_by_product_id; cbn;
             apply find_updated_record; [exact Hinv | exact Hpid]|]);
    cbn [Inventory.quantity];
    (split; [exact Hnew|]); (split; [lia|]);
    intros Hneg; try (discriminate (Hlogged Hneg));
    (split; [lia|]);
    eexists; (split; [cbn; reflexivity|]); cbn; repeat split; lia.
Qed.

Lemma manual_adjustment_clamp_witness :
  exists inv' d',
    stock 1 three_units_db = 3
    /\ run (update_inventory 1 (InventoryUpdate.mk (Some (-10)) None None None))
           three_units_db [] (19001, 0)
       = (Return (Some inv'), d')
    /\ Inventory.quantity inv' = 0
    /\ map InventoryLog.change_quantity (logs_of 1 d') = [3; -3]
    /\ map InventoryLog.new_quantity (logs_of 1 d') = [3; 0].
Proof.
  destruct (@manual_adjustment_clamp three_units_db 1
              (InventoryUpdate.mk (Some (-10)) None None None)
              [] (19001, 0)
              (Inventory.mk 1 1 3 10 (19000, 0)))
    as (inv' & d' & Hrun & _ & Hq & _ & _); [reflexivity | reflexivity |].
  exists inv', d'.
  split; [reflexivity|].
  split; [exact Hrun|].
  split; [exact Hq|].
  vm_compute in Hrun. injection Hrun as _ <-.
  split; reflexivity.
Defined.

(** ** Order engine: the validation pass *)

Ltac step_validation :=
  unfold bind, query, raise; cbn beta iota.

(** The validation loop only reads. *)
Lemma validate_items_session :
  forall items acc s, snd (validate_items items acc s) = s.
Proof.
  induction items as [|item rest IH]; intros [[total infos] updates] s.
  - reflexivity.
  - simpl. step_validation.
    destruct (get_product _ (working s)); [|reflexivity].
    destruct (get_inventory_by_product_id _ (working s)); [|reflexivity].
    destruct (_ <? _); [reflexivity|].
    apply IH.
Qed.

(** A line that passes leaves the loop running on the remaining lines. *)
Lemma validate_items_good_line :
  forall item rest total infos updates s,
    ~ bad_line (working s) item ->
    exists p inv,
      get_product (OrderItemCreate.product_id item) (working s) = Some p
      /\ get_inventory_by_product_id (OrderItemCreate.product_id item) (working s)
         = Some inv
      /\ OrderItemCreate.quantity item <= Inventory.quantity inv
      /\ validate_items (item :: rest) (total, infos, updates) s
         = validate_items rest
             (total + Product.price p * OrderItemCreate.quantity item,
              infos ++ [mk_item_info (OrderItemCreate.product_id item)
                          (OrderItemCreate.quantity item) (Product.price p)
                          (Product.price p * OrderItemCreate.quantity item)],
              updates ++ [(OrderItemCreate.product_id item,
                           OrderItemCreate.quantity item,
                           Inventory.quantity inv)]) s.
Proof.
  intros item rest total infos updates s Hgood.
  unfold bad_line, stock in Hgood.
  simpl. step_validation.
  destruct (get_product _ (working s)) as [p|]; [|tauto].
  destruct (get_inventory_by_product_id _ (working s)) as [inv|]; [|tauto].
  exists p, inv.
  destruct (Z.ltb_spec (Inventory.quantity inv) (OrderItemCreate.quantity item));
    [tauto|].
  repeat split; trivial.
Qed.

(** A request without a bad line passes the loop. *)
Lemma validate_items_all_good :
  forall items acc s,
    (forall x, In x items -> ~ bad_line (working s) x) ->
    exists validated, validate_items items acc s = (Return validated, s).
Proof.
  induction items as [|item rest IH]; intros [[total infos] updates] s Hgood.
  - eexists; reflexivity.
  - destruct (validate_items_good_line item rest total infos updates s)
      as (p & inv & _ & _ & _ & ->); [apply Hgood; left; reflexivity|].
    apply IH. intros x Hx; apply Hgood; right; exact Hx.
Qed.

(** The first line that fails stops the loop with its own message. *)
Lemma validate_items_first_refusal :
  forall before item after acc s,
    (forall x, In x before -> ~ bad_line (working s) x) ->
    bad_line (working s) item ->
    exists msg,
      refused (working s) item msg
      /\ validate_items (before ++ item :: after) acc s
         = (Raise (ValueError msg), s).
Proof.
  induction before as [|b before IH]; intros item after [[total infos] updates] s
    Hbefore Hbad.
  - simpl. step_validation. unfold bad_line, stock in Hbad.
    destruct (get_product _ (working s)) as [p|] eqn:Ep.
    + destruct (get_inventory_by_product_id _ (working s)) as [inv|] eqn:Ei.
      * destruct (Z.ltb_spec (Inventory.quantity inv)
                             (OrderItemCreate.quantity item)) as [Hlt|Hge].
        -- eexists; split; [eapply refused_stock; eassumption | reflexivity].
        -- exfalso. destruct Hbad as [H|[H|H]]; try discriminate; lia.
      * eexists; split; [eapply refused_no_record; eassumption | reflexivity].
    + eexists; split; [apply refused_product; assumption | reflexivity].
  - destruct (@validate_items_good_line b (before ++ item :: after)
                total infos updates s) as (p & inv & _ & _ & _ & E).
    { apply Hbefore; left; reflexivity. }
    rewrite <- app_comm_cons, E.
    apply IH; [|assumption].
    intros x Hx; apply Hbefore; right; assumption.
Qed.

(** Among the lines of a request with a bad line, one is the first. *)
Lemma first_bad_line :
  forall d (items : list OrderItemCreate.t),
    (exists item, In item items /\ bad_line d item) ->
    exists before item after,
      items = before ++ item :: after
      /\ (forall x, In x before -> ~ bad_line d x)
      /\ bad_line d item.
Proof.
  intros d items. induction items as [|a items IH]; intros (item & Hin & Hbad).
  - destruct Hin.
  - assert (Hdec : bad_line d a \/ ~ bad_line d a).
    { unfold bad_line.
      destruct (get_product (OrderItemCreate.product_id a) d);
        [|left; left; reflexivity].
      destruct (get_inventory_by_product_id (OrderItemCreate.product_id a) d);
        [|left; right; left; reflexivity].
      destruct (Z.lt_ge_cases (stock (OrderItemCreate.product_id a) d)
                              (OrderItemCreate.quantity a)).
      - left; right; right; assumption.
      - right; intros [H'|[H'|H']]; try discriminate; lia. }
    destruct Hdec as [Ha|Ha].
    + exists [], a, items. repeat split; [intros x []|assumption].
    + destruct Hin as [->|Hin]; [contradiction|].
      destruct IH as (before & it & after & -> & Hb & Hi);
        [exists item; split; assumption|].
      exists (a :: before), it, after. repeat split; [|assumption].
      intros x [<-|Hx]; [assumption | apply Hb, Hx].
Qed.

(** Once validation has raised, [create_order] and its endpoint stop there,
    with nothing written. *)
Lemma create_order_refused :
  forall order_data d st t msg,
    validate_items (OrderCreate.items order_data) (0, [], [])
                   (open_session d st t)
    = (Raise (ValueError msg), open_session d st t) ->
    run (create_order order_data) d st t = (Raise (ValueError msg), d)
    /\ serve (orders_api.create_order order_data) d st t
       = (inl (mkHTTPException HTTP_400_BAD_REQUEST msg), d).
Proof.
  intros od d st t msg H.
  assert (R : create_order od (open_session d st t)
              = (Raise (ValueError msg), open_session d st t)).
  { unfold create_order. apply bind_Raise, H. }
  split.
  - unfold run. rewrite R. reflexivity.
  - unfold serve, run, orders_api.create_order, try_except.
    erewrite bind_Raise by exact R. reflexivity.
Qed.

(** C2.  A request with a line that names a missing product or asks for more
    than is in stock is rejected as a whole: [create_order] raises the
    [ValueError] of one of its refused lines (the endpoint answers 400 with
    that message) and the database is what it was: no order, no order item,
    no log entry, no quantity changed. *)
Theorem create_order_rejects_bad_line :
  forall order_data d st t,
    (exists item, In item (OrderCreate.items order_data) /\ bad_line d item) ->
    exists item msg,
      In item (OrderCreate.items order_data)
      /\ refused d item msg
      /\ run (create_order order_data) d st t = (Raise (ValueError msg), d)
      /\ serve (orders_api.create_order order_data) d st t
         = (inl (mkHTTPException HTTP_400_BAD_REQUEST msg), d).
Proof.
  intros od d st t Hbad.
  destruct (first_bad_line _ _ Hbad) as (before & item & after & Hsplit & Hb & Hi).
  destruct (@validate_items_first_refusal before item after (0, [], [])
              (open_session d st t) Hb Hi) as (msg & Hmsg & Hval).
  exists item, msg.
  split; [rewrite Hsplit; apply in_elt|].
  split; [exact Hmsg|].
  apply create_order_refused. rewrite Hsplit. exact Hval.
Qed.

Lemma create_order_rejects_bad_line_witness :
  run (create_order mixed_order) stocked_db [] (19005, 0)
  = (Raise (ValueError "Product with ID 99 not found."), stocked_db)
  /\ serve (orders_api.create_order mixed_order) stocked_db [] (19005, 0)
     = (inl (mkHTTPException 400 "Product with ID 99 not found."), stocked_db).
Proof.
  destruct (@create_order_rejects_bad_line mixed_order stocked_db [] (19005, 0))
    as (item & msg & Hin & Hmsg & Hrun & Hserve).
  - exists (OrderItemCreate.mk 99 1). split; [simpl; tauto|].
    left; reflexivity.
  - assert (E : msg = "Product with ID 99 not found."%string).
    { vm_compute in Hrun. congruence. }
    rewrite E in Hrun, Hserve. split; assumption.
Defined.

(** C10, counterexample.  A request containing a line for a product without
    a stock record is not always answered with the not-enough-stock error
    reporting 0 available: the loop stops at the first line it refuses, here
    the one naming a product that does not exist. *)
Lemma unstocked_line_masked_by_earlier_line :
  In (OrderItemCreate.mk 2 1) (OrderCreate.items missing_then_unstocked)
  /\ get_product 2 unstocked_db = Some gadget
  /\ get_inventory_by_product_id 2 unstocked_db = None
  /\ run (create_order missing_then_unstocked) unstocked_db [] (19005, 0)
     = (Raise (ValueError "Product with ID 99 not found."), unstocked_db)
  /\ ~ (exists name product_id requested,
          fst (run (create_order missing_then_unstocked) unstocked_db []
                   (19005, 0))
          = Raise (ValueError (not_enough_stock name product_id 0 requested))).
Proof.
  split; [simpl; tauto|].
  split; [reflexivity|].
  split; [reflexivity|].
  split; [vm_compute; reflexivity|].
  intros (name & pid & requested & H).
  vm_compute in H. discriminate H.
Qed.

(** C10 (as amended).  A request containing a line whose product exists but
    has no stock record is always rejected with a [ValueError] and nothing
    written; and when every line before it passes validation, the error is
    the not-enough-stock one for that line, reporting 0 available. *)
Theorem create_order_without_stock_record :
  forall order_data d st t item p,
    In item (OrderCreate.items order_data) ->
    get_product (OrderItemCreate.product_id item) d = Some p ->
    get_inventory_by_product_id (OrderItemCreate.product_id item) d = None ->
    (exists msg,
        run (create_order order_data) d st t = (Raise (ValueError msg), d))
    /\ (forall before after,
          OrderCreate.items order_data = before ++ item :: after ->
          (forall x, In x before -> ~ bad_line d x) ->
          run (create_order order_data) d st t
          = (Raise (ValueError
                      (not_enough_stock (Product.name p)
                         (OrderItemCreate.product_id item) 0
                         (OrderItemCreate.quantity item))), d)).
Proof.
  intros od d st t item p Hin Hp Hinv.
  assert (Hbad : bad_line d item) by (right; left; exact Hinv).
  split.
  - destruct (first_bad_line d (OrderCreate.items od))
      as (before & it & after & Hsplit & Hb & Hi);
      [exists item; split; assumption|].
    destruct (validate_items_first_refusal before it after (0, [], [])
                (open_session d st t) Hb Hi) as (msg & _ & Hval).
    rewrite <- Hsplit in Hval.
    exists msg. apply create_order_refused, Hval.
  - intros before after Hsplit Hbefore.
    destruct (validate_items_first_refusal before item after (0, [], [])
                (open_session d st t) Hbefore Hbad) as (msg & Hmsg & Hval).
    rewrite <- Hsplit in Hval.
    apply create_order_refused in Hval. destruct Hval as [Hrun _].
    rewrite Hrun.
    inversion Hmsg as [Hnone | p' Hp' _ | p' inv' _ Hinv' _]; cbn in *.
    + rewrite Hp in Hnone; discriminate.
    + rewrite Hp in Hp'; injection Hp' as <-; reflexivity.
    + rewrite Hinv in Hinv'; discriminate.
Qed.

Lemma create_order_without_stock_record_witness :
  run (create_order widget_then_unstocked) unstocked_db [] (19005, 0)
  = (Raise (ValueError
       "Not enough stock for product Gadget (ID: 2). Available: 0, Requested: 1"),
     unstocked_db).
Proof.
  refine (proj2 (create_order_without_stock_record widget_then_unstocked
                   unstocked_db [] (19005, 0) (OrderItemCreate.mk 2 1) gadget
                   _ _ _)
                [OrderItemCreate.mk 1 2] [] _ _).
  - simpl; tauto.
  - reflexivity.
  - reflexivity.
  - reflexivity.
  - intros x [<-|[]] [H|[H|H]]; vm_compute in H; discriminate H.
Defined.

(** ** Order engine: the commit *)

Lemma session_eta :
  forall s, mkSession (committed s) (working s) (storage s) (now s) = s.
Proof. intros []; reflexivity. Qed.

Lemma lines_inserted_nil :
  forall order_id d, lines_inserted order_id [] d = d.
Proof.
  intros oid [c p i l o [r n]]. unfold lines_inserted, with_order_items; simpl.
  now rewrite app_nil_r, Z.add_0_r.
Qed.

Lemma add_order_items_effect :
  forall order_id infos s,
    add_order_items order_id infos s
    = (Return tt,
       mkSession (committed s) (lines_inserted order_id infos (working s))
                 (storage s) (now s)).
Proof.
  intros oid infos. induction infos as [|i rest IH]; intros s.
  - simpl. unfold ret. now rewrite lines_inserted_nil, session_eta.
  - simpl. unfold bind, add, insert. cbn beta iota.
    rewrite IH. cbn [committed working storage now].
    unfold lines_inserted, with_order_items.
    cbn [order_items rows next_id categories products inventory inventory_logs
         orders List.length order_lines].
    rewrite <- app_assoc. simpl app.
    replace (next_id (order_items (working s)) + 1 + Z.of_nat (List.length rest))
      with (next_id (order_items (working s)) + Z.of_nat (S (List.length rest)))
      by lia.
    reflexivity.
Qed.

Lemma deduct_inventory_effect :
  forall order_id updates s,
    deduct_inventory order_id updates s
    = (Return tt,
       mkSession (committed s)
                 (fold_left (sell order_id (now s)) updates (working s))
                 (storage s) (now s)).
Proof.
  intros oid updates. induction updates as [|[[pid q] orig] rest IH]; intros s.
  - simpl. unfold ret. now rewrite session_eta.
  - simpl. unfold bind at 1. unfold query. cbn beta iota.
    destruct (get_inventory_by_product_id pid (working s)) as [inv|] eqn:E.
    + unfold bind, func_now, modify, add, insert. cbn beta iota.
      rewrite IH. cbn [committed working storage now]. reflexivity.
    + apply IH.
Qed.

(** The three ways [commit_order] can end, by the outcome of its two
    commits. *)
Lemma commit_order_run :
  forall order_data total infos updates d st t,
    run (commit_order order_data (total, infos, updates)) d st t
    = match st with
      | false :: _ => (Raise DBAPIError, d)
      | _ :: false :: _ =>
          (Raise DBAPIError, order_inserted order_data total t d)
      | _ =>
          (Return (new_order order_data total t d),
           order_written order_data (total, infos, updates) t d)
      end.
Proof.
  intros od total infos updates d st t.
  unfold run, commit_order, open_session.
  destruct st as [|[|] st];
    cbn [bind func_now add insert commit working committed storage now];
    try reflexivity;
    (erewrite bind_Return by apply add_order_items_effect);
    (erewrite bind_Return by apply deduct_inventory_effect);
    cbn [Order.id working committed storage now];
    try (destruct st as [|[|] st]);
    cbn [bind commit ret working committed storage now];
    reflexivity.
Qed.

(** [create_order] is its validation pass followed by [commit_order] on the
    same database. *)
Lemma create_order_run :
  forall order_data d st t,
    run (create_order order_data) d st t
    = match fst (validate_items (OrderCreate.items order_data) (0, [], [])
                                (open_session d st t)) with
      | Return validated => run (commit_order order_data validated) d st t
      | Raise e => (Raise e, d)
      end.
Proof.
  intros od d st t. unfold run at 1, create_order, bind.
  pose proof (validate_items_session (OrderCreate.items od) (0, [], [])
                (open_session d st t)) as Hs.
  destruct (validate_items _ _ _) as [[validated|e] s']; simpl in Hs; subst s'.
  - reflexivity.
  - reflexivity.
Qed.

(** The sale deduction of one line: the record found for the product goes
    from its current quantity to that quantity less the quantity sold, with
    no further check, and one log entry says so. *)
Lemma sell_effect :
  forall order_id t d product_id quantity original inv,
    get_inventory_by_product_id product_id d = Some inv ->
    stock product_id (sell order_id t d (product_id, quantity, original))
    = Inventory.quantity inv - quantity
    /\ exists entry,
         rows (inventory_logs (sell order_id t d (product_id, quantity, original)))
         = rows (inventory_logs d) ++ [entry]
         /\ InventoryLog.product_id entry = product_id
         /\ InventoryLog.change_quantity entry = - quantity
         /\ InventoryLog.new_quantity entry = Inventory.quantity inv - quantity
         /\ InventoryLog.reason entry = Some (sale_reason order_id).
Proof.
  intros oid t d pid q orig inv Hinv.
  unfold sell. rewrite Hinv. split.
  - unfold stock, get_inventory_by_product_id. cbn.
    erewrite find_updated_record; [reflexivity | exact Hinv |].
    cbn. apply (find_some_product_id _ _ _ Hinv).
  - eexists. split; [cbn; reflexivity|]. cbn. repeat split.
Qed.

(** When the first commit already fails, nothing of the order is written. *)
Lemma create_order_first_commit_fails :
  forall order_data d st t,
    (forall item, In item (OrderCreate.items order_data) -> ~ bad_line d item) ->
    run (create_order order_data) d (false :: st) t = (Raise DBAPIError, d).
Proof.
  intros od d st t Hgood.
  destruct (validate_items_all_good (OrderCreate.items od) (0, [], [])
              (open_session d (false :: st) t) Hgood)
    as ([[total infos] updates] & Hval).
  rewrite create_order_run, Hval. cbn [fst]. apply commit_order_run.
Qed.

(** ** Order engine: pricing *)

Lemma validate_items_accepts :
  forall items total infos updates s total' infos' updates' s',
    validate_items items (total, infos, updates) s
    = (Return (total', infos', updates'), s') ->
    exists new_infos,
      infos' = infos ++ new_infos
      /\ total' = fold_left (fun acc i => acc + info_subtotal i) new_infos total
      /\ Forall2 (info_of (working s)) items new_infos.
Proof.
  induction items as [|item rest IH];
    intros total infos updates s total' infos' updates' s' H.
  - injection H as <- <- <- <-. exists []. rewrite app_nil_r.
    repeat split. constructor.
  - simpl in H. unfold bind, query, raise in H. cbn beta iota in H.
    destruct (get_product _ (working s)) as [p|] eqn:Ep; [|discriminate H].
    destruct (get_inventory_by_product_id _ (working s)) as [inv|];
      [|discriminate H].
    destruct (_ <? _); [discriminate H|].
    apply IH in H. destruct H as (more & -> & -> & Hmore).
    eexists (_ :: more). rewrite <- app_assoc. simpl.
    repeat split. constructor; [|exact Hmore].
    repeat split; simpl; trivial. exists p; split; [exact Ep | reflexivity].
Qed.

Lemma order_lines_of_infos :
  forall d order_id items infos,
    Forall2 (info_of d) items infos ->
    forall first_id,
      Forall2 (line_of d order_id) items (order_lines order_id first_id infos).
Proof.
  intros d oid items infos H. induction H as [|item i items infos Hi _ IH];
    intros n; simpl; constructor; [|apply IH].
  destruct Hi as (Hp & Hq & Hprice & Hsub).
  unfold line_of; simpl. rewrite Hp, Hq. repeat split; trivial.
  now rewrite <- Hq.
Qed.

Lemma order_lines_subtotals :
  forall order_id infos first_id acc,
    fold_left (fun a it => a + OrderItem.subtotal it)
              (order_lines order_id first_id infos) acc
    = fold_left (fun a i => a + info_subtotal i) infos acc.
Proof.
  intros oid infos. induction infos as [|i rest IH]; intros n acc; simpl.
  - reflexivity.
  - apply IH.
Qed.

(** The deduction loop stays out of the catalog and of the order tables. *)
Lemma sell_frame :
  forall order_id t u d,
    orders (sell order_id t d u) = orders d
    /\ order_items (sell order_id t d u) = order_items d
    /\ products (sell order_id t d u) = products d
    /\ categories (sell order_id t d u) = categories d.
Proof.
  intros oid t [[pid q] orig] d. unfold sell.
  destruct (get_inventory_by_product_id pid d); repeat split.
Qed.

Lemma sales_frame :
  forall order_id t updates d,
    orders (fold_left (sell order_id t) updates d) = orders d
    /\ order_items (fold_left (sell order_id t) updates d) = order_items d
    /\ products (fold_left (sell order_id t) updates d) = products d
    /\ categories (fold_left (sell order_id t) updates d) = categories d.
Proof.
  intros oid t updates. induction updates as [|u rest IH]; intros d; simpl.
  - repeat split.
  - destruct (IH (sell oid t d u)) as (-> & -> & -> & ->). apply sell_frame.
Qed.

(** C7.  Pricing: when [create_order] succeeds it has appended one order
    line per requested item, in order; each line carries the product's price
    as found in the database the request was validated against, a subtotal
    equal to price times quantity, and the order's [total_amount] is the sum
    of the subtotals of these lines.  The order itself is appended with
    status "completed". *)
Theorem order_pricing :
  forall order_data d st t o d',
    run (create_order order_data) d st t = (Return o, d') ->
    exists lines,
      rows (order_items d') = rows (order_items d) ++ lines
      /\ Forall2 (line_of d (Order.id o)) (OrderCreate.items order_data) lines
      /\ Order.total_amount o = sum_subtotals lines
      /\ rows (orders d') = rows (orders d) ++ [o]
      /\ Order.status o = "completed"%string.
Proof.
  intros od d st t o d' H.
  rewrite create_order_run in H.
  destruct (validate_items _ _ _) as [[[[total infos] updates]|e] s'] eqn:V;
    cbn [fst] in H; [|discriminate H].
  apply validate_items_accepts in V. destruct V as (lines & Hinfos & Htotal & Hall).
  simpl in Hinfos, Hall. subst infos.
  rewrite commit_order_run in H.
  assert (Hok : (Return (new_order od total t d),
                 order_written od (total, lines, updates) t d) = (Return o, d')).
  { destruct st as [|[|] [|[|] st]]; (exact H || discriminate H). }
  clear H. injection Hok as <- <-.
  exists (order_lines (next_id (orders d)) (next_id (order_items d)) lines).
  unfold order_written.
  destruct (sales_frame (next_id (orders d)) t updates
              (lines_inserted (next_id (orders d)) lines
                 (order_inserted od total t d))) as (Ho & Hi & _ & _).
  rewrite Ho, Hi. cbn.
  split; [reflexivity|].
  split; [apply order_lines_of_infos, Hall|].
  split; [|split; reflexivity].
  unfold sum_subtotals. rewrite order_lines_subtotals. exact Htotal.
Qed.

Lemma order_pricing_witness :
  exists lines,
    rows (order_items sold_db) = rows (order_items stocked_db) ++ lines
    /\ Forall2 (line_of stocked_db 1) (OrderCreate.items eight_widgets) lines
    /\ sum_subtotals lines = 10000.
Proof.
  destruct (order_pricing eight_widgets stocked_db [] (19010, 0)
              (Order.mk 1 (19010, 0) (Some "Ada"%string) "completed" 10000)
              sold_db eq_refl)
    as (lines & Hrows & Hlines & Htotal & _).
  exists lines. repeat split; [exact Hrows | exact Hlines|].
  symmetry; exact Htotal.
Defined.

(** ** Order engine: atomicity of the commit *)

(** What the endpoint answers when [crud.create_order] raised. *)
Lemma orders_endpoint_error :
  forall order_data d st t e d',
    run (create_order order_data) d st t = (Raise e, d') ->
    serve (orders_api.create_order order_data) d st t
    = (inl match e with
           | ValueError msg => mkHTTPException HTTP_400_BAD_REQUEST msg
           | _ => orders_api.unexpected
           end, d').
Proof.
  intros od d st t e d'.
  unfold serve, run, orders_api.create_order, try_except, bind.
  destruct (create_order od (open_session d st t)) as [[o|e'] s'];
    intros H; [discriminate H|].
  injection H as -> <-. destruct e; reflexivity.
Qed.

(** C3.  The commit of an order is not one transaction.  For every request
    that passes validation, when the first [db.commit()] goes through and
    the second fails, an internal error is reported (500 at the endpoint)
    but the order row, inserted with status "completed", stays committed,
    with no order item, no stock deduction and no log entry. *)
Theorem order_row_survives_failed_commit :
  forall order_data d st t,
    (forall item, In item (OrderCreate.items order_data) -> ~ bad_line d item) ->
    exists o d',
      run (create_order order_data) d (true :: false :: st) t
      = (Raise DBAPIError, d')
      /\ serve (orders_api.create_order order_data) d (true :: false :: st) t
         = (inl orders_api.unexpected, d')
      /\ rows (orders d') = rows (orders d) ++ [o]
      /\ Order.status o = "completed"%string
      /\ order_items d' = order_items d
      /\ inventory d' = inventory d
      /\ inventory_logs d' = inventory_logs d.
Proof.
  intros od d st t Hgood.
  destruct (validate_items_all_good (OrderCreate.items od) (0, [], [])
              (open_session d (true :: false :: st) t) Hgood)
    as ([[total infos] updates] & Hval).
  assert (Hrun : run (create_order od) d (true :: false :: st) t
                 = (Raise DBAPIError, order_inserted od total t d)).
  { rewrite create_order_run, Hval. cbn [fst]. apply commit_order_run. }
  exists (new_order od total t d), (order_inserted od total t d).
  split; [exact Hrun|].
  split; [apply (orders_endpoint_error _ _ _ _ _ _ Hrun)|].
  repeat split.
Qed.

Lemma order_row_survives_failed_commit_witness :
  exists o,
    serve (orders_api.create_order eight_widgets) stocked_db [true; false]
          (19010, 0)
    = (inl orders_api.unexpected,
       with_orders (mkTable [o] 2) stocked_db)
    /\ Order.total_amount o = 10000.
Proof.
  destruct (order_row_survives_failed_commit eight_widgets stocked_db []
              (19010, 0))
    as (o & d' & Hrun & Hserve & _).
  - intros item [<-|[]] [H|[H|H]]; vm_compute in H; discriminate H.
  - vm_compute in Hrun. injection Hrun as <-.
    eexists. split; [exact Hserve | reflexivity].
Defined.

(** ** Catalog: product creation *)

(** With both commits through, [create_product] has written the product, its
    stock record and the "Initial stock" log entry. *)
Lemma create_product_success :
  forall product d t,
    exists p inv entry,
      run (create_product product) d [] t
      = (Return p,
         with_inventory_logs
           (mkTable (rows (inventory_logs d) ++ [entry])
                    (next_id (inventory_logs d) + 1))
           (with_inventory
              (mkTable (rows (inventory d) ++ [inv]) (next_id (inventory d) + 1))
              (with_products
                 (mkTable (rows (products d) ++ [p]) (next_id (products d) + 1))
                 d)))
      /\ Product.id p = next_id (products d)
      /\ Product.price p = ProductCreate.price product
      /\ Inventory.product_id inv = Product.id p
      /\ Inventory.quantity inv = ProductCreate.initial_quantity product
      /\ InventoryLog.product_id entry = Product.id p
      /\ InventoryLog.change_quantity entry = ProductCreate.initial_quantity product
      /\ InventoryLog.new_quantity entry = ProductCreate.initial_quantity product
      /\ InventoryLog.reason entry = Some "Initial stock"%string.
Proof.
  intros product d t. do 3 eexists.
  split; [reflexivity|]. cbn. repeat split.
Qed.

(** C6.  Product creation is not one transaction.  For every call whose
    category exists and whose SKU is unused, when the first [db.commit()]
    goes through and the second fails, the caller gets an error while the
    product row stays committed without its stock record and without its
    "Initial stock" log entry. *)
Theorem product_row_survives_failed_commit :
  forall product_in d st t c,
    get_category (ProductCreate.category_id product_in) d = Some c ->
    (forall sku, ProductCreate.sku product_in = Some sku ->
                 get_product_by_sku sku d = None) ->
    exists p d',
      serve (products_api.create_product product_in) d (true :: false :: st) t
      = (inl (mkHTTPException HTTP_500_INTERNAL_SERVER_ERROR
                "Internal Server Error"), d')
      /\ rows (products d') = rows (products d) ++ [p]
      /\ Product.name p = ProductCreate.name product_in
      /\ Product.price p = ProductCreate.price product_in
      /\ inventory d' = inventory d
      /\ inventory_logs d' = inventory_logs d.
Proof.
  intros product_in d st t c Hcat Hsku.
  unfold serve, run, products_api.create_product, open_session.
  unfold bind at 1. unfold query at 1. cbn [working]. rewrite Hcat.
  assert (Hexisting :
            (if truthy_str (ProductCreate.sku product_in)
             then match ProductCreate.sku product_in with
                  | Some sku => query (get_product_by_sku sku)
                  | None => ret None
                  end
             else ret None) (mkSession d d (true :: false :: st) t)
            = (Return None, mkSession d d (true :: false :: st) t)).
  { destruct (ProductCreate.sku product_in) as [sku|] eqn:E; simpl.
    - destruct (negb _); [|reflexivity].
      unfold query; cbn [working]. now rewrite (Hsku sku eq_refl).
    - reflexivity. }
  erewrite bind_Return by exact Hexisting.
  cbn beta iota.
  cbn. do 2 eexists. split; [reflexivity|]. cbn. repeat split.
Qed.

Lemma product_row_survives_failed_commit_witness :
  exists p d',
    serve (products_api.create_product widget) catalog_db [true; false] (19000, 0)
    = (inl (mkHTTPException 500 "Internal Server Error"), d')
    /\ rows (products d') = [p]
    /\ rows (inventory d') = []
    /\ rows (inventory_logs d') = [].
Proof.
  destruct (product_row_survives_failed_commit widget catalog_db []
              (19000, 0) tools)
    as (p & d' & Hserve & Hp & _ & _ & Hinv & Hlog).
  - reflexivity.
  - intros sku H; discriminate H.
  - exists p, d'. split; [exact Hserve|].
    split; [exact Hp|]. rewrite Hinv, Hlog. split; reflexivity.
Defined.

(** ** Order engine: oversell *)

(** C1.  The stock check does not prevent overselling.  Against 10 widgets:
    one order with two lines of 6 passes the check line by line and is
    committed, selling 12 and leaving -2 on hand; and two requests of 6 that
    both validate before either writes are both committed, again selling 12
    of the 10. *)
Theorem oversell :
  stock 1 stocked_db = 10
  /\ units_sold 1 stocked_db = 0
  /\ (exists o d',
        run (create_order twice_six_widgets) stocked_db [] (19010, 0)
        = (Return o, d')
        /\ units_sold 1 d' = 12
        /\ stock 1 d' = -2)
  /\ (exists oa ob d',
        concurrent_orders six_widgets six_widgets stocked_db (19010, 0)
        = (Return oa, Return ob, d')
        /\ units_sold 1 d' = 12
        /\ stock 1 d' = -2).
Proof.
  split; [reflexivity|].
  split; [reflexivity|].
  split.
  - do 2 eexists. split; [vm_compute; reflexivity|].
    split; vm_compute; reflexivity.
  - do 3 eexists. split; [vm_compute; reflexivity|].
    split; vm_compute; reflexivity.
Qed.

(** ** Stock ledger: audit completeness *)

Lemma ledger_app :
  forall l1 l2 q,
    ledger q (l1 ++ l2)
    = match ledger q l1 with
      | Some q' => ledger q' l2
      | None => None
      end.
Proof.
  induction l1 as [|e l1 IH]; intros l2 q; simpl.
  - reflexivity.
  - destruct (_ =? _); [apply IH | reflexivity].
Qed.

Lemma filter_all :
  forall (A : Type) (f : A -> bool) (l : list A),
    (forall x, In x l -> f x = true) -> filter f l = l.
Proof.
  induction l as [|a l IH]; intros H; simpl.
  - reflexivity.
  - rewrite (H a (or_introl eq_refl)). f_equal. apply IH.
    intros x Hx; apply H; right; exact Hx.
Qed.

Lemma filter_none :
  forall (A : Type) (f : A -> bool) (l : list A),
    (forall x, In x l -> f x = false) -> filter f l = [].
Proof.
  induction l as [|a l IH]; intros H; simpl.
  - reflexivity.
  - rewrite (H a (or_introl eq_refl)). apply IH.
    intros x Hx; apply H; right; exact Hx.
Qed.

(** A key without duplicates identifies its row. *)
Lemma unique_key :
  forall (A : Type) (key : A -> Z) (l : list A) (a b : A),
    NoDup (map key l) -> In a l -> In b l -> key a = key b -> a = b.
Proof.
  induction l as [|x l IH]; intros a b Hnd Ha Hb Hk; [destruct Ha|].
  simpl in Hnd. inversion Hnd as [|k ks Hnotin Hnd']; subst.
  destruct Ha as [<-|Ha], Hb as [<-|Hb]; trivial.
  - exfalso; apply Hnotin. rewrite Hk. apply in_map, Hb.
  - exfalso; apply Hnotin. rewrite <- Hk. apply in_map, Ha.
  - apply IH; assumption.
Qed.

Lemma find_not_in :
  forall (l : list Inventory.t) p,
    ~ In p (map Inventory.product_id l) ->
    find (fun i => Inventory.product_id i =? p) l = None.
Proof.
  induction l as [|r l IH]; intros p H; simpl.
  - reflexivity.
  - destruct (Z.eqb_spec (Inventory.product_id r) p) as [E|E].
    + exfalso; apply H; left; exact E.
    + apply IH. intros Hin; apply H; right; exact Hin.
Qed.

Lemma find_app_other :
  forall (l : list Inventory.t) r p,
    Inventory.product_id r <> p ->
    find (fun i => Inventory.product_id i =? p) (l ++ [r])
    = find (fun i => Inventory.product_id i =? p) l.
Proof.
  induction l as [|x l IH]; intros r p H; simpl.
  - destruct (Z.eqb_spec (Inventory.product_id r) p); [contradiction|reflexivity].
  - destruct (_ =? _); [reflexivity | apply IH, H].
Qed.

Lemma find_app_new :
  forall (l : list Inventory.t) r,
    ~ In (Inventory.product_id r) (map Inventory.product_id l) ->
    find (fun i => Inventory.product_id i =? Inventory.product_id r) (l ++ [r])
    = Some r.
Proof.
  induction l as [|x l IH]; intros r H; simpl.
  - now rewrite Z.eqb_refl.
  - destruct (Z.eqb_spec (Inventory.product_id x) (Inventory.product_id r)) as [E|E].
    + exfalso; apply H; left; exact E.
    + apply IH. intros Hin; apply H; right; exact Hin.
Qed.

Section StockUpdate.

(** The UPDATE of one loaded stock record [inv] into [inv'], which keeps its
    primary key and its product, on rows where that key is [inv]'s alone. *)
Variables inv inv' : Inventory.t.
Hypothesis same_id : Inventory.id inv' = Inventory.id inv.
Hypothesis same_product : Inventory.product_id inv' = Inventory.product_id inv.

Variable l : list Inventory.t.
Hypothesis only_inv :
  forall r, In r l -> Inventory.id r = Inventory.id inv -> r = inv.

Lemma update_keeps_ids :
  map Inventory.id
      (map (fun r => if Inventory.id r =? Inventory.id inv then inv' else r) l)
  = map Inventory.id l.
Proof.
  rewrite map_map. apply map_ext_in.
  intros r Hr. destruct (Z.eqb_spec (Inventory.id r) (Inventory.id inv)) as [E|E].
  - congruence.
  - reflexivity.
Qed.

Lemma update_keeps_products :
  map Inventory.product_id
      (map (fun r => if Inventory.id r =? Inventory.id inv then inv' else r) l)
  = map Inventory.product_id l.
Proof.
  rewrite map_map. apply map_ext_in.
  intros r Hr. destruct (Z.eqb_spec (Inventory.id r) (Inventory.id inv)) as [E|E].
  - rewrite (only_inv r Hr E). exact same_product.
  - reflexivity.
Qed.

Lemma find_other_record :
  forall p,
    Inventory.product_id inv <> p ->
    find (fun i => Inventory.product_id i =? p)
         (map (fun r => if Inventory.id r =? Inventory.id inv then inv' else r) l)
    = find (fun i => Inventory.product_id i =? p) l.
Proof.
  intros p Hp.
  induction l as [|r rest IH]; simpl; [reflexivity|].
  assert (IH' : find (fun i => Inventory.product_id i =? p)
                  (map (fun r0 => if Inventory.id r0 =? Inventory.id inv
                                  then inv' else r0) rest)
                = find (fun i => Inventory.product_id i =? p) rest).
  { apply IH. intros x Hx; apply only_inv; right; exact Hx. }
  destruct (Z.eqb_spec (Inventory.id r) (Inventory.id inv)) as [E|E].
  - rewrite (only_inv r (or_introl eq_refl) E), same_product.
    destruct (Z.eqb_spec (Inventory.product_id inv) p); [contradiction|].
    exact IH'.
  - destruct (Inventory.product_id r =? p); [reflexivity | exact IH'].
Qed.

End StockUpdate.

Lemma NoDup_snoc :
  forall (l : list Z) x, NoDup l -> ~ In x l -> NoDup (l ++ [x]).
Proof.
  induction l as [|a l IH]; intros x Hnd Hx; simpl.
  - constructor; [intros [] | constructor].
  - inversion Hnd as [|a' l' Ha Hl]; subst. constructor.
    + rewrite in_app_iff. intros [H|[H|[]]]; [contradiction|].
      apply Hx; left; symmetry; exact H.
    + apply IH; [exact Hl|]. intros H; apply Hx; right; exact H.
Qed.

(** Soundness only looks at the stock tables and at the product counter. *)
Lemma sound_frame :
  forall d d',
    sound d ->
    inventory d' = inventory d ->
    inventory_logs d' = inventory_logs d ->
    next_id (products d) <= next_id (products d') ->
    sound d'.
Proof.
  intros d d' [Haudit [Hup Hui Hib Hpb]] Hinv Hlogs Hnext. split.
  - intros p. specialize (Haudit p).
    unfold logs_of, stock, get_inventory_by_product_id in *.
    rewrite Hinv, Hlogs. exact Haudit.
  - constructor; rewrite Hinv; trivial.
    intros i Hi. specialize (Hpb i Hi). lia.
Qed.

(** A change of one stock record together with log entries that replay it
    keeps the stock tables sound. *)
Lemma sound_change :
  forall d d' pid inv inv' entries,
    sound d ->
    get_inventory_by_product_id pid d = Some inv ->
    Inventory.id inv' = Inventory.id inv ->
    Inventory.product_id inv' = Inventory.product_id inv ->
    rows (inventory d')
    = map (fun r => if Inventory.id r =? Inventory.id inv then inv' else r)
          (rows (inventory d)) ->
    next_id (inventory d') = next_id (inventory d) ->
    rows (inventory_logs d') = rows (inventory_logs d) ++ entries ->
    (forall e, In e entries -> InventoryLog.product_id e = pid) ->
    ledger (Inventory.quantity inv) entries = Some (Inventory.quantity inv') ->
    next_id (products d) <= next_id (products d') ->
    sound d'.
Proof.
  intros d d' pid inv inv' entries [Haudit [Hup Hui Hib Hpb]]
         Hinv Hid Hprod Hrows Hnext Hlogs Hentries Hledger Hproducts.
  pose proof (find_some_product_id _ _ _ Hinv) as Hpid.
  assert (Hin : In inv (rows (inventory d))) by (apply find_some in Hinv; tauto).
  assert (Honly : forall r, In r (rows (inventory d)) ->
                            Inventory.id r = Inventory.id inv -> r = inv).
  { intros r Hr E. apply (unique_key _ Inventory.id (rows (inventory d)));
      assumption. }
  split.
  - intros p. specialize (Haudit p).
    unfold logs_of, stock, get_inventory_by_product_id in *.
    rewrite Hlogs, filter_app, ledger_app, Haudit, Hrows.
    destruct (Z.eq_dec pid p) as [<-|Hp].
    + rewrite filter_all
        by (intros e He; apply Z.eqb_eq, Hentries, He).
      rewrite (find_updated_record _ pid inv inv' Hinv)
        by (rewrite Hprod; exact Hpid).
      rewrite Hinv. exact Hledger.
    + rewrite filter_none
        by (intros e He; apply Z.eqb_neq; rewrite (Hentries e He); exact Hp).
      rewrite (find_other_record inv inv' Hprod _ Honly) by congruence.
      reflexivity.
  - constructor; rewrite Hrows.
    + rewrite (update_keeps_products inv inv' Hprod _ Honly); assumption.
    + rewrite (update_keeps_ids inv inv' Hid); assumption.
    + rewrite (update_keeps_ids inv inv' Hid), Hnext; assumption.
    + rewrite (update_keeps_products inv inv' Hprod _ Honly).
      intros i Hi. specialize (Hpb i Hi). lia.
Qed.

(** A new product's stock record and its first log entry keep them sound. *)
Lemma sound_new_stock :
  forall d d' inv e,
    sound d ->
    rows (inventory d') = rows (inventory d) ++ [inv] ->
    next_id (inventory d') = next_id (inventory d) + 1 ->
    Inventory.id inv = next_id (inventory d) ->
    Inventory.product_id inv = next_id (products d) ->
    next_id (products d') = next_id (products d) + 1 ->
    rows (inventory_logs d') = rows (inventory_logs d) ++ [e] ->
    InventoryLog.product_id e = Inventory.product_id inv ->
    InventoryLog.change_quantity e = Inventory.quantity inv ->
    InventoryLog.new_quantity e = Inventory.quantity inv ->
    sound d'.
Proof.
  intros d d' inv e [Haudit [Hup Hui Hib Hpb]]
         Hrows Hnext Hid Hprod Hproducts Hlogs He Hchange Hnew.
  assert (Hfresh : ~ In (Inventory.product_id inv)
                        (map Inventory.product_id (rows (inventory d)))).
  { intros H. apply Hpb in H. lia. }
  split.
  - intros p. specialize (Haudit p).
    unfold logs_of, stock, get_inventory_by_product_id in *.
    rewrite Hlogs, filter_app, ledger_app, Haudit, Hrows. simpl.
    rewrite He.
    destruct (Z.eqb_spec (Inventory.product_id inv) p) as [<-|Hp].
    + rewrite (find_not_in _ _ Hfresh), (find_app_new _ _ Hfresh).
      simpl. rewrite Hnew, Hchange, Z.eqb_refl. reflexivity.
    + rewrite find_app_other by exact Hp. reflexivity.
  - constructor; rewrite Hrows, map_app; simpl.
    + apply NoDup_snoc; assumption.
    + apply NoDup_snoc; [assumption|]. intros H. apply Hib in H. lia.
    + intros i Hi. rewrite in_app_iff in Hi. destruct Hi as [Hi|[<-|[]]].
      * apply Hib in Hi. lia.
      * lia.
    + intros i Hi. rewrite in_app_iff in Hi. destruct Hi as [Hi|[<-|[]]].
      * apply Hpb in Hi. lia.
      * lia.
Qed.

Lemma log_extended_refl :
  forall d d', inventory_logs d' = inventory_logs d -> log_extended d d'.
Proof. intros d d' H. exists []. now rewrite H, app_nil_r. Qed.

Lemma log_extended_trans :
  forall d1 d2 d3,
    log_extended d1 d2 -> log_extended d2 d3 -> log_extended d1 d3.
Proof.
  intros d1 d2 d3 [l1 H1] [l2 H2]. exists (l1 ++ l2).
  now rewrite H2, H1, app_assoc.
Qed.

Lemma sell_sound :
  forall order_id t u d,
    sound d ->
    sound (sell order_id t d u) /\ log_extended d (sell order_id t d u).
Proof.
  intros oid t [[pid q] orig] d Hd. unfold sell.
  destruct (get_inventory_by_product_id pid d) as [inv|] eqn:E.
  - split.
    + eapply (sound_change d _ pid inv);
        [exact Hd | exact E | | | cbn; reflexivity | reflexivity
         | cbn; reflexivity | | | cbn; lia].
      * reflexivity.
      * reflexivity.
      * intros e [<-|[]]; reflexivity.
      * simpl. replace (Inventory.quantity inv + - q)
          with (Inventory.quantity inv - q) by lia.
        rewrite Z.eqb_refl. reflexivity.
    + eexists. cbn. reflexivity.
  - split; [exact Hd | apply log_extended_refl; reflexivity].
Qed.

Lemma sales_sound :
  forall order_id t updates d,
    sound d ->
    sound (fold_left (sell order_id t) updates d)
    /\ log_extended d (fold_left (sell order_id t) updates d).
Proof.
  intros oid t updates. induction updates as [|u rest IH]; intros d Hd; simpl.
  - split; [exact Hd | apply log_extended_refl; reflexivity].
  - destruct (sell_sound oid t u d Hd) as [Hs Hl].
    destruct (IH _ Hs) as [Hs' Hl'].
    split; [exact Hs' | eapply log_extended_trans; eassumption].
Qed.

Lemma create_order_sound :
  forall order_data d st t,
    sound d ->
    sound (snd (run (create_order order_data) d st t))
    /\ log_extended d (snd (run (create_order order_data) d st t)).
Proof.
  intros od d st t Hd. rewrite create_order_run.
  destruct (fst _) as [[[total infos] updates]|e]; cbn [snd].
  - rewrite commit_order_run.
    assert (H1 : sound (order_inserted od total t d)).
    { apply (sound_frame d); trivial; reflexivity. }
    assert (H2 : sound (lines_inserted (next_id (orders d)) infos
                          (order_inserted od total t d))).
    { apply (sound_frame d); trivial; reflexivity. }
    destruct (sales_sound (next_id (orders d)) t updates _ H2) as [H3 H4].
    destruct st as [|[|] [|[|] st]]; cbn [snd]; unfold order_written;
      (split; [assumption|]);
      try (apply log_extended_refl; reflexivity);
      (eapply log_extended_trans; [|exact H4]);
      apply log_extended_refl; reflexivity.
  - split; [exact Hd | apply log_extended_refl; reflexivity].
Qed.

(** The three ways [create_product] can end, by the outcome of its two
    commits. *)
Lemma create_product_run :
  forall product d st t,
    run (create_product product) d st t
    = match st with
      | false :: _ => (Raise DBAPIError, d)
      | _ :: false :: _ => (Raise DBAPIError, product_inserted product t d)
      | _ => (Return (new_product product t d), product_written product t d)
      end.
Proof.
  intros product d st t. unfold run, create_product, open_session.
  destruct st as [|[|] [|[|] st]];
    cbn [bind func_now add insert commit ret working committed storage now];
    reflexivity.
Qed.

Lemma create_product_sound :
  forall product d st t,
    sound d ->
    sound (snd (run (create_product product) d st t))
    /\ log_extended d (snd (run (create_product product) d st t)).
Proof.
  intros product d st t Hd. rewrite create_product_run.
  assert (H1 : sound (product_inserted product t d)).
  { apply (sound_frame d); trivial; try reflexivity.
    unfold product_inserted, with_products; cbn [products next_id]. lia. }
  assert (H2 : sound (product_written product t d)).
  { eapply (sound_new_stock d); try exact Hd; reflexivity. }
  assert (L2 : log_extended d (product_written product t d)).
  { eexists. unfold product_written, with_inventory_logs.
    cbn [inventory_logs rows]. reflexivity. }
  destruct st as [|[|] [|[|] st]]; cbn [snd];
    (split; [assumption|]); try exact L2;
    apply log_extended_refl; reflexivity.
Qed.

Lemma update_inventory_sound :
  forall product_id u d st t,
    sound d ->
    sound (snd (run (update_inventory product_id u) d st t))
    /\ log_extended d (snd (run (update_inventory product_id u) d st t)).
Proof.
  intros pid u d st t Hd.
  unfold run, update_inventory, bind, query. cbn [open_session working].
  destruct (get_inventory_by_product_id pid d) as [inv|] eqn:Hinv;
    [|split; [exact Hd | apply log_extended_refl; reflexivity]].
  set (target := match InventoryUpdate.quantity_change u with
                 | Some c => Inventory.quantity inv + c
                 | None => match InventoryUpdate.absolute_quantity u with
                           | Some a => a
                           | None => Inventory.quantity inv
                           end
                 end).
  set (new_quantity := if target <? 0 then 0 else target).
  destruct (negb (new_quantity - Inventory.quantity inv =? 0) || _ || _) eqn:L;
    unfold func_now, modify, add, insert, commit, ret;
    (destruct st as [|[|] st]);
    cbn [committed working storage now fst snd];
    try (split; [exact Hd | apply log_extended_refl; reflexivity]).
  - split; [|eexists; cbn; reflexivity].
    eapply (sound_change d _ pid inv);
      [exact Hd | exact Hinv | | | cbn; reflexivity | reflexivity
       | cbn; reflexivity | | | cbn; lia].
    + reflexivity.
    + reflexivity.
    + intros e [<-|[]]; reflexivity.
    + simpl. replace (Inventory.quantity inv
                      + (new_quantity - Inventory.quantity inv))
        with new_quantity by lia.
      rewrite Z.eqb_refl. reflexivity.
  - split; [|eexists; cbn; reflexivity].
    eapply (sound_change d _ pid inv);
      [exact Hd | exact Hinv | | | cbn; reflexivity | reflexivity
       | cbn; reflexivity | | | cbn; lia].
    + reflexivity.
    + reflexivity.
    + intros e [<-|[]]; reflexivity.
    + simpl. replace (Inventory.quantity inv
                      + (new_quantity - Inventory.quantity inv))
        with new_quantity by lia.
      rewrite Z.eqb_refl. reflexivity.
  - assert (E : new_quantity = Inventory.quantity inv).
    { apply orb_false_iff in L. destruct L as [L _].
      apply orb_false_iff in L. destruct L as [L _].
      apply negb_false_iff, Z.eqb_eq in L. lia. }
    split; [|apply log_extended_refl; reflexivity].
    eapply (sound_change d _ pid inv _ []);
      [exact Hd | exact Hinv | | | cbn; reflexivity | reflexivity
       | cbn; now rewrite app_nil_r | | | cbn; lia].
    + reflexivity.
    + reflexivity.
    + intros e [].
    + simpl. now rewrite E.
  - assert (E : new_quantity = Inventory.quantity inv).
    { apply orb_false_iff in L. destruct L as [L _].
      apply orb_false_iff in L. destruct L as [L _].
      apply negb_false_iff, Z.eqb_eq in L. lia. }
    split; [|apply log_extended_refl; reflexivity].
    eapply (sound_change d _ pid inv _ []);
      [exact Hd | exact Hinv | | | cbn; reflexivity | reflexivity
       | cbn; now rewrite app_nil_r | | | cbn; lia].
    + reflexivity.
    + reflexivity.
    + intros e [].
    + simpl. now rewrite E.
Qed.

Lemma step_sound :
  forall d d', step d d' -> sound d -> sound d' /\ log_extended d d'.
Proof.
  intros d d' Hstep Hd. destruct Hstep.
  - apply create_product_sound, Hd.
  - apply update_inventory_sound, Hd.
  - apply create_order_sound, Hd.
Qed.

Lemma empty_db_sound : sound empty_db.
Proof.
  split.
  - intros p. reflexivity.
  - constructor; simpl; try constructor; intros i [].
Qed.

Lemma reachable_sound : forall d, reachable d -> sound d.
Proof.
  intros d H. induction H as [|d d' _ IH Hstep].
  - exact empty_db_sound.
  - apply (step_sound d d' Hstep IH).
Qed.

(** Between two sound states whose log only grew, the entries appended for a
    product replay exactly its change of quantity. *)
Lemma sound_changes_logged :
  forall d d',
    sound d -> sound d' -> log_extended d d' -> changes_logged d d'.
Proof.
  intros d d' [Ha _] [Ha' _] [extra Hextra] p.
  exists (filter (fun l => InventoryLog.product_id l =? p) extra).
  assert (Hlogs : logs_of p d'
                  = logs_of p d
                    ++ filter (fun l => InventoryLog.product_id l =? p) extra).
  { unfold logs_of. rewrite Hextra. apply filter_app. }
  assert (Hledger : ledger (stock p d)
                      (filter (fun l => InventoryLog.product_id l =? p) extra)
                    = Some (stock p d')).
  { specialize (Ha' p). rewrite Hlogs, ledger_app, (Ha p) in Ha'. exact Ha'. }
  split; [exact Hlogs|]. split; [exact Hledger|].
  intros Hne Hnil. rewrite Hnil in Hledger. simpl in Hledger.
  injection Hledger as E. apply Hne. symmetry; exact E.
Qed.

(** *** One entry per change *)

Lemma find_snoc :
  forall (A : Type) (f : A -> bool) (l : list A) x,
    find f (l ++ [x])
    = match find f l with
      | Some y => Some y
      | None => if f x then Some x else None
      end.
Proof.
  intros A f l x. induction l as [|a l IH]; simpl.
  - reflexivity.
  - destruct (f a); [reflexivity | exact IH].
Qed.

(** What the validation loop hands to the deduction loop: one entry per
    line, each line having passed the check. *)
Lemma validate_items_updates :
  forall items total infos updates s total' infos' updates' s',
    validate_items items (total, infos, updates) s
    = (Return (total', infos', updates'), s') ->
    updates'
    = updates
      ++ map (fun item => (OrderItemCreate.product_id item,
                           OrderItemCreate.quantity item,
                           stock (OrderItemCreate.product_id item) (working s)))
             items
    /\ (forall item, In item items -> ~ bad_line (working s) item).
Proof.
  induction items as [|item rest IH];
    intros total infos updates s total' infos' updates' s' H.
  - injection H as <- <- <- <-. rewrite app_nil_r. split; [reflexivity|].
    intros item [].
  - simpl in H. unfold bind, query, raise in H. cbn beta iota in H.
    destruct (get_product _ (working s)) as [p|] eqn:Ep; [|discriminate H].
    destruct (get_inventory_by_product_id _ (working s)) as [inv|] eqn:Ei;
      [|discriminate H].
    destruct (Z.ltb_spec (Inventory.quantity inv) (OrderItemCreate.quantity item))
      as [Hlt|Hge]; [discriminate H|].
    apply IH in H. destruct H as [-> Hrest]. split.
    + rewrite <- app_assoc. simpl. unfold stock. rewrite Ei. reflexivity.
    + intros x [<-|Hx]; [|apply Hrest, Hx].
      unfold bad_line, stock. rewrite Ep, Ei.
      intros [H|[H|H]]; try discriminate; lia.
Qed.

(** One round of the deduction loop, on stock records with distinct primary
    keys: the product's quantity goes down by the quantity sold, the other
    products keep theirs, and no record appears or disappears. *)
Lemma sell_stock :
  forall order_id t d product_id quantity original,
    NoDup (map Inventory.id (rows (inventory d))) ->
    get_inventory_by_product_id product_id d <> None ->
    let d1 := sell order_id t d (product_id, quantity, original) in
    NoDup (map Inventory.id (rows (inventory d1)))
    /\ (forall p, stock p d1
                  = if product_id =? p then stock p d - quantity else stock p d)
    /\ (forall p, get_inventory_by_product_id p d <> None ->
                  get_inventory_by_product_id p d1 <> None).
Proof.
  intros oid t d pid q orig Hids Hsome d1. subst d1. unfold sell.
  destruct (get_inventory_by_product_id pid d) as [inv|] eqn:Hinv;
    [clear Hsome | contradiction].
  pose proof (find_some_product_id _ _ _ Hinv) as Hpid.
  assert (Hin : In inv (rows (inventory d))).
  { unfold get_inventory_by_product_id in Hinv. apply find_some in Hinv. tauto. }
  assert (Honly : forall r, In r (rows (inventory d)) ->
                            Inventory.id r = Inventory.id inv -> r = inv).
  { intros r Hr E. apply (unique_key _ Inventory.id (rows (inventory d)));
      assumption. }
  set (inv' := Inventory.mk (Inventory.id inv) (Inventory.product_id inv)
                 (Inventory.quantity inv - q)
                 (Inventory.low_stock_threshold inv) t).
  assert (Hfind : forall p,
            get_inventory_by_product_id p
              (with_inventory_logs
                 (mkTable (rows (inventory_logs d)
                           ++ [InventoryLog.mk (next_id (inventory_logs d)) pid
                                 (- q) (Inventory.quantity inv - q)
                                 (Some (sale_reason oid)) t])
                          (next_id (inventory_logs d) + 1))
                 (with_inventory
                    (update (fun r => Inventory.id r =? Inventory.id inv)
                            (fun _ => inv') (inventory d)) d))
            = if pid =? p then Some inv'
              else get_inventory_by_product_id p d).
  { intros p. unfold get_inventory_by_product_id. cbn.
    destruct (Z.eqb_spec pid p) as [<-|Hne].
    - apply (find_updated_record _ pid inv inv' Hinv). exact Hpid.
    - apply (find_other_record inv inv' eq_refl _ Honly). congruence. }
  split; [|split].
  - cbn. rewrite (update_keeps_ids inv inv' eq_refl). exact Hids.
  - intros p. unfold stock. rewrite Hfind.
    destruct (Z.eqb_spec pid p) as [<-|Hne]; [|reflexivity].
    rewrite Hinv. reflexivity.
  - intros p Hp. rewrite Hfind. destruct (pid =? p); [discriminate | exact Hp].
Qed.

Lemma recorded_ext :
  forall changes entries (q q' final : Z -> Z),
    (forall p, q p = q' p) ->
    recorded q changes entries final -> recorded q' changes entries final.
Proof.
  induction changes as [|[pid delta] changes IH]; intros entries q q' final Hq;
    destruct entries as [|e entries]; cbn [recorded]; trivial.
  - intros H p. rewrite <- Hq. apply H.
  - intros [Hrec Hrest]. split.
    + rewrite <- Hq. exact Hrec.
    + apply (IH entries (fun p => if p =? pid then q p + delta else q p));
        [|exact Hrest].
      intros p. cbv beta. rewrite Hq. reflexivity.
Qed.

Lemma no_change_logged :
  forall d d',
    inventory d' = inventory d -> inventory_logs d' = inventory_logs d ->
    one_entry_per_change [] d d'.
Proof.
  intros d d' Hi Hl. exists []. rewrite Hl, app_nil_r. split; [reflexivity|].
  intros p. unfold stock, get_inventory_by_product_id. rewrite Hi. reflexivity.
Qed.

Lemma product_written_stock :
  forall product t d p,
    get_inventory_by_product_id (next_id (products d)) d = None ->
    stock p (product_written product t d)
    = if p =? next_id (products d)
      then stock p d + ProductCreate.initial_quantity product
      else stock p d.
Proof.
  intros product t d p Hnone.
  unfold stock at 1, get_inventory_by_product_id.
  cbn [product_written product_inserted with_inventory_logs with_inventory
       with_products inventory rows products next_id].
  rewrite find_snoc. cbn [Inventory.product_id Inventory.quantity].
  fold (get_inventory_by_product_id p d).
  rewrite (Z.eqb_sym (next_id (products d)) p).
  destruct (Z.eqb_spec p (next_id (products d))) as [->|E].
  - unfold stock. rewrite Hnone. cbn. lia.
  - unfold stock. destruct (get_inventory_by_product_id p d); reflexivity.
Qed.

(** [create_product]: the stock record starts from nothing and its one
    entry says so. *)
Lemma create_product_logged :
  forall product d st t,
    stock_integrity d ->
    one_entry_per_change [] d (snd (run (create_product product) d st t))
    \/ one_entry_per_change
         [(next_id (products d), ProductCreate.initial_quantity product)]
         d (snd (run (create_product product) d st t)).
Proof.
  intros product d st t Hint. rewrite create_product_run.
  assert (Hnone : get_inventory_by_product_id (next_id (products d)) d = None).
  { apply find_not_in. intros Hin.
    pose proof (product_id_below Hint _ Hin). lia. }
  assert (Hwritten :
    one_entry_per_change
      [(next_id (products d), ProductCreate.initial_quantity product)]
      d (product_written product t d)).
  { eexists. split; [cbn; reflexivity|]. cbn [recorded]. split.
    - repeat split. cbn. unfold stock. rewrite Hnone. lia.
    - intros p. apply product_written_stock, Hnone. }
  destruct st as [|[|] [|[|] st]]; cbn [snd];
    try (right; exact Hwritten); left; apply no_change_logged; reflexivity.
Qed.

(** The quantities after the UPDATE of one stock record. *)
Lemma stock_after_update :
  forall d d' product_id inv inv' p,
    get_inventory_by_product_id product_id d = Some inv ->
    NoDup (map Inventory.id (rows (inventory d))) ->
    Inventory.product_id inv' = Inventory.product_id inv ->
    rows (inventory d')
    = map (fun r => if Inventory.id r =? Inventory.id inv then inv' else r)
          (rows (inventory d)) ->
    stock p d' = if p =? product_id then Inventory.quantity inv' else stock p d.
Proof.
  intros d d' pid inv inv' p Hinv Hids Hprod Hrows.
  pose proof (find_some_product_id _ _ _ Hinv) as Hpid.
  assert (Hin : In inv (rows (inventory d))).
  { unfold get_inventory_by_product_id in Hinv. apply find_some in Hinv. tauto. }
  assert (Honly : forall r, In r (rows (inventory d)) ->
                            Inventory.id r = Inventory.id inv -> r = inv).
  { intros r Hr E. apply (unique_key _ Inventory.id (rows (inventory d)));
      assumption. }
  unfold stock, get_inventory_by_product_id. rewrite Hrows.
  destruct (Z.eqb_spec p pid) as [->|Hne].
  - erewrite find_updated_record; [reflexivity | exact Hinv | congruence].
  - rewrite (find_other_record inv inv' Hprod _ Honly); [reflexivity|].
    congruence.
Qed.

(** [update_inventory]: whatever it changes of the quantity, it logs once. *)
Lemma update_inventory_logged :
  forall product_id u d st t,
    stock_integrity d ->
    one_entry_per_change [] d
      (snd (run (update_inventory product_id u) d st t))
    \/ one_entry_per_change
         [(product_id,
           stock product_id (snd (run (update_inventory product_id u) d st t))
           - stock product_id d)]
         d (snd (run (update_inventory product_id u) d st t)).
Proof.
  intros pid u d st t Hint.
  unfold run, update_inventory, bind, query, open_session. cbn [working].
  destruct (get_inventory_by_product_id pid d) as [inv|] eqn:Hinv;
    [|left; apply no_change_logged; reflexivity].
  assert (Hstock : stock pid d = Inventory.quantity inv)
    by (unfold stock; rewrite Hinv; reflexivity).
  set (target := match InventoryUpdate.quantity_change u with
                 | Some c => Inventory.quantity inv + c
                 | None => match InventoryUpdate.absolute_quantity u with
                           | Some a => a
                           | None => Inventory.quantity inv
                           end
                 end).
  set (new_quantity := if target <? 0 then 0 else target).
  set (inv' := Inventory.mk (Inventory.id inv) (Inventory.product_id inv)
                 new_quantity
                 (match InventoryUpdate.low_stock_threshold u with
                  | Some n => n
                  | None => Inventory.low_stock_threshold inv
                  end) t).
  assert (Hafter :
    forall d', rows (inventory d')
               = map (fun r => if Inventory.id r =? Inventory.id inv
                               then inv' else r) (rows (inventory d)) ->
               forall p, stock p d' = if p =? pid then new_quantity
                                      else stock p d).
  { intros d' Hrows p.
    apply (stock_after_update d d' pid inv inv' p Hinv
             (unique_inventory_id Hint) eq_refl Hrows). }
  destruct (negb (new_quantity - Inventory.quantity inv =? 0) || _ || _) eqn:L;
    unfold func_now, modify, add, insert, commit, ret;
    (destruct st as [|[|] st]);
    cbn [committed working storage now fst snd];
    try (left; apply no_change_logged; reflexivity).
  - right. eexists. split; [cbn; reflexivity|].
    match goal with
    | |- recorded _ _ _ (fun p => stock p ?D) =>
        pose proof (Hafter D eq_refl) as HD
    end.
    rewrite (HD pid), Z.eqb_refl.
    cbn [recorded]. split.
    + repeat split; cbn; lia.
    + intros p. rewrite (HD p).
      destruct (Z.eqb_spec p pid) as [->|]; [lia | reflexivity].
  - right. eexists. split; [cbn; reflexivity|].
    match goal with
    | |- recorded _ _ _ (fun p => stock p ?D) =>
        pose proof (Hafter D eq_refl) as HD
    end.
    rewrite (HD pid), Z.eqb_refl.
    cbn [recorded]. split.
    + repeat split; cbn; lia.
    + intros p. rewrite (HD p).
      destruct (Z.eqb_spec p pid) as [->|]; [lia | reflexivity].
  - assert (E : new_quantity = Inventory.quantity inv).
    { apply orb_false_iff in L. destruct L as [L _].
      apply orb_false_iff in L. destruct L as [L _].
      apply negb_false_iff, Z.eqb_eq in L. lia. }
    left. exists []. split; [cbn; now rewrite app_nil_r|].
    match goal with
    | |- recorded _ _ _ (fun p => stock p ?D) =>
        pose proof (Hafter D eq_refl) as HD
    end.
    intros p. rewrite (HD p).
    destruct (Z.eqb_spec p pid) as [->|]; [congruence | reflexivity].
  - assert (E : new_quantity = Inventory.quantity inv).
    { apply orb_false_iff in L. destruct L as [L _].
      apply orb_false_iff in L. destruct L as [L _].
      apply negb_false_iff, Z.eqb_eq in L. lia. }
    left. exists []. split; [cbn; now rewrite app_nil_r|].
    match goal with
    | |- recorded _ _ _ (fun p => stock p ?D) =>
        pose proof (Hafter D eq_refl) as HD
    end.
    intros p. rewrite (HD p).
    destruct (Z.eqb_spec p pid) as [->|]; [congruence | reflexivity].
Qed.

(** The deduction loop of [create_order]: one entry per line, in the order
    of the lines, each with the line's quantity taken off what was there. *)
Lemma sales_recorded :
  forall order_id t (original : OrderItemCreate.t -> Z) items d,
    NoDup (map Inventory.id (rows (inventory d))) ->
    (forall item, In item items ->
       get_inventory_by_product_id (OrderItemCreate.product_id item) d <> None) ->
    exists entries,
      rows (inventory_logs
              (fold_left (sell order_id t)
                 (map (fun item => (OrderItemCreate.product_id item,
                                    OrderItemCreate.quantity item,
                                    original item)) items) d))
      = rows (inventory_logs d) ++ entries
      /\ recorded (fun p => stock p d)
           (map (fun item => (OrderItemCreate.product_id item,
                              - OrderItemCreate.quantity item)) items)
           entries
           (fun p => stock p
              (fold_left (sell order_id t)
                 (map (fun item => (OrderItemCreate.product_id item,
                                    OrderItemCreate.quantity item,
                                    original item)) items) d)).
Proof.
  intros oid t original items.
  induction items as [|item rest IH]; intros d Hids Hrec.
  - exists []. cbn [map fold_left recorded]. rewrite app_nil_r.
    split; reflexivity.
  - cbn [map fold_left].
    set (pid := OrderItemCreate.product_id item).
    set (q := OrderItemCreate.quantity item).
    destruct (get_inventory_by_product_id pid d) as [inv|] eqn:Hinv;
      [|exfalso; apply (Hrec item (or_introl eq_refl)); exact Hinv].
    destruct (sell_effect oid t d pid q (original item) inv Hinv)
      as (_ & entry & Hlog & Hpid & Hchange & Hnew & _).
    destruct (sell_stock oid t d pid q (original item) Hids
                ltac:(rewrite Hinv; discriminate))
      as (Hids1 & Hstock1 & Hrec1).
    destruct (IH (sell oid t d (pid, q, original item)) Hids1
                ltac:(intros x Hx; apply Hrec1, Hrec; right; exact Hx))
      as (entries & Hlogs & Hrest).
    exists (entry :: entries). split.
    + rewrite Hlogs, Hlog, <- app_assoc. reflexivity.
    + cbn [recorded]. split.
      * repeat split; try assumption.
        rewrite Hnew. unfold stock. rewrite Hinv. lia.
      * refine (recorded_ext _ _ _ _ _ _ Hrest).
        intros p. cbv beta. rewrite (Hstock1 p), (Z.eqb_sym pid p).
        destruct (p =? pid); [lia | reflexivity].
Qed.

(** [create_order]: nothing, or one entry for each line. *)
Lemma create_order_logged :
  forall order_data d st t,
    stock_integrity d ->
    one_entry_per_change [] d (snd (run (create_order order_data) d st t))
    \/ one_entry_per_change
         (map (fun item => (OrderItemCreate.product_id item,
                            - OrderItemCreate.quantity item))
              (OrderCreate.items order_data))
         d (snd (run (create_order order_data) d st t)).
Proof.
  intros od d st t Hint. rewrite create_order_run.
  pose proof (validate_items_session (OrderCreate.items od) (0, [], [])
                (open_session d st t)) as Hs.
  destruct (validate_items _ _ _) as [[[[total infos] updates]|e] s'] eqn:V;
    cbn [fst snd] in Hs |- *; [|left; apply no_change_logged; reflexivity].
  subst s'. rewrite commit_order_run.
  apply validate_items_updates in V. cbn [app working open_session] in V.
  destruct V as [-> Hgood].
  assert (Hwritten :
    one_entry_per_change
      (map (fun item => (OrderItemCreate.product_id item,
                         - OrderItemCreate.quantity item))
           (OrderCreate.items od))
      d (order_written od
           (total, infos,
            map (fun item => (OrderItemCreate.product_id item,
                              OrderItemCreate.quantity item,
                              stock (OrderItemCreate.product_id item) d))
                (OrderCreate.items od)) t d)).
  { unfold order_written.
    destruct (sales_recorded (next_id (orders d)) t
                (fun item => stock (OrderItemCreate.product_id item) d)
                (OrderCreate.items od)
                (lines_inserted (next_id (orders d)) infos
                   (order_inserted od total t d)))
      as (entries & Hlogs & Hrec).
    - exact (unique_inventory_id Hint).
    - intros item Hitem H. apply (Hgood item Hitem). right; left. exact H.
    - exists entries. split; [exact Hlogs | exact Hrec]. }
  destruct st as [|[|] [|[|] st]]; cbn [snd];
    try (right; exact Hwritten); left; apply no_change_logged; reflexivity.
Qed.

(** C4.  Audit completeness: in every state reachable from the empty
    database by [create_product], [update_inventory] and [create_order]
    calls (any arguments, any commit failing), each product's log entries
    replay, from nothing, every change of its stock quantity and end at the
    quantity on hand.  Every further call changes quantities and appends
    entries one for one: [create_product] either changes nothing or brings
    the new product from nothing to its initial quantity with exactly one
    entry; [update_inventory] either leaves every quantity and the log as
    they were or appends exactly one entry, for its product, with the change
    applied and the quantity reached; [create_order] either changes nothing
    or appends exactly one entry for each line, in the order of the lines,
    each with the line's quantity taken off and the quantity that left.
    As this holds of every committed state, a quantity change and its log
    entry are always committed together. *)
Theorem audit_completeness :
  forall d,
    reachable d ->
    audit_complete d
    /\ (forall d', step d d' -> audit_complete d' /\ changes_logged d d')
    /\ (forall product st t,
          let d' := snd (run (create_product product) d st t) in
          one_entry_per_change [] d d'
          \/ one_entry_per_change
               [(next_id (products d), ProductCreate.initial_quantity product)]
               d d')
    /\ (forall product_id inventory_update st t,
          let d' :=
            snd (run (update_inventory product_id inventory_update) d st t) in
          one_entry_per_change [] d d'
          \/ one_entry_per_change
               [(product_id, stock product_id d' - stock product_id d)] d d')
    /\ (forall order_data st t,
          let d' := snd (run (create_order order_data) d st t) in
          one_entry_per_change [] d d'
          \/ one_entry_per_change
               (map (fun item => (OrderItemCreate.product_id item,
                                  - OrderItemCreate.quantity item))
                    (OrderCreate.items order_data))
               d d').
Proof.
  intros d Hd. pose proof (reachable_sound d Hd) as Hs.
  split; [apply Hs|]. split.
  { intros d' Hstep. destruct (step_sound d d' Hstep Hs) as [Hs' Hl].
    split; [apply Hs' | apply sound_changes_logged; assumption]. }
  destruct Hs as [_ Hint].
  split; [|split].
  - intros product st t. apply create_product_logged, Hint.
  - intros pid u st t. apply update_inventory_logged, Hint.
  - intros od st t. apply create_order_logged, Hint.
Qed.

Lemma audit_completeness_witness :
  ledger 0 (logs_of 1 history_db) = Some (stock 1 history_db)
  /\ map InventoryLog.change_quantity (logs_of 1 history_db) = [10; -8; -2]
  /\ map InventoryLog.new_quantity (logs_of 1 history_db) = [10; 2; 0]
  /\ stock 1 history_db = 0
  /\ one_entry_per_change [(1, -2)]
       (snd (run (create_order eight_widgets)
               (snd (run (create_product widget) empty_db [] (19000, 0)))
               [] (19010, 0)))
       history_db.
Proof.
  assert (Hsold : reachable
            (snd (run (create_order eight_widgets)
                    (snd (run (create_product widget) empty_db [] (19000, 0)))
                    [] (19010, 0)))).
  { apply (reachable_step
             (reachable_step reachable_empty
                (step_create_product empty_db widget [] (19000, 0)))
             (step_create_order _ eight_widgets [] (19010, 0))). }
  assert (Hreach : reachable history_db).
  { unfold history_db.
    apply (reachable_step Hsold
             (step_update_inventory _ 1
                (InventoryUpdate.mk (Some (-5)) None None None) [] (19020, 0))). }
  destruct (audit_completeness history_db Hreach) as [Haudit _].
  split; [exact (Haudit 1)|].
  split; [reflexivity|]. split; [reflexivity|]. split; [reflexivity|].
  destruct (audit_completeness _ Hsold) as (_ & _ & _ & Hadjust & _).
  destruct (Hadjust 1 (InventoryUpdate.mk (Some (-5)) None None None)
              [] (19020, 0)) as [Hnone|Hone].
  - exfalso. destruct Hnone as [[|e entries] [_ Hrec]].
    + specialize (Hrec 1). vm_compute in Hrec. discriminate Hrec.
    + exact Hrec.
  - exact Hone.
Defined.

(** * Further properties of the code *)

(** ** Pagination *)

Lemma offset_limit_length :
  forall (A : Type) (rows : list A) offset limit,
    0 <= offset -> 0 <= limit ->
    Z.of_nat (List.length (offset_limit offset limit rows))
    = Z.min limit (Z.max 0 (Z.of_nat (List.length rows) - offset)).
Proof.
  intros A rows offset limit Ho Hl. unfold offset_limit.
  rewrite length_firstn, length_skipn. lia.
Qed.

(** The number of pages is the number of rows divided by the page size,
    rounded up. *)
Lemma num_pages_ceiling :
  forall total page_size,
    0 <= total -> 1 <= page_size ->
    (((total + page_size - 1) / page_size) - 1) * page_size < total
      \/ (total = 0 /\ (total + page_size - 1) / page_size = 0).
Proof.
  intros total s Ht Hs.
  pose proof (Z.mul_div_le (total + s - 1) s ltac:(lia)) as H1.
  destruct (Z.eq_dec total 0) as [->|Hne].
  - right. split; [reflexivity|]. apply Z.div_small. lia.
  - left. nia.
Qed.

Lemma num_pages_enough :
  forall total page_size,
    0 <= total -> 1 <= page_size ->
    total <= ((total + page_size - 1) / page_size) * page_size.
Proof.
  intros total s Ht Hs.
  pose proof (Z.mul_succ_div_gt (total + s - 1) s ltac:(lia)) as H2. nia.
Qed.

(** X1.  Page sizes: for a page number and a page size of at least 1,
    [get_paginated_items] answers; it reports the number of rows of the
    query; the page holds [page_size] rows, or what is left of the query
    after the pages before it, or nothing; and [num_pages] is the least
    number of pages of that size that hold all the rows. *)
Theorem pagination_sizes :
  forall (A : Type) (query : list A) page page_size,
    1 <= page -> 1 <= page_size ->
    exists r,
      get_paginated_items query page page_size = Some r
      /\ Paginated.total_items r = Z.of_nat (List.length query)
      /\ Z.of_nat (List.length (Paginated.items r))
         = Z.min page_size
             (Z.max 0 (Paginated.total_items r - (page - 1) * page_size))
      /\ Paginated.total_items r <= Paginated.num_pages r * page_size
      /\ (forall n, 0 <= n -> Paginated.total_items r <= n * page_size ->
                    Paginated.num_pages r <= n).
Proof.
  intros A query page s Hp Hs. unfold get_paginated_items.
  destruct (Z.ltb_spec page 1); [lia|].
  destruct (Z.ltb_spec s 1); [lia|]. cbn [orb].
  eexists. split; [reflexivity|].
  cbn [Paginated.total_items Paginated.items Paginated.num_pages].
  split; [reflexivity|].
  split; [apply offset_limit_length; nia|].
  split; [apply num_pages_enough; lia|].
  intros n Hn Hfit.
  destruct (num_pages_ceiling (Z.of_nat (List.length query)) s)
    as [Hc|[Hzero ->]]; try lia.
  nia.
Qed.

Lemma pagination_sizes_witness :
  exists r,
    get_paginated_items [1; 2; 3; 4; 5; 6; 7] 3 3 = Some r
    /\ Paginated.total_items r = 7
    /\ Paginated.items r = [7]
    /\ Paginated.num_pages r = 3.
Proof.
  destruct (pagination_sizes Z [1; 2; 3; 4; 5; 6; 7] 3 3) as (r & Hr & _);
    [lia | lia |].
  exists r. split; [exact Hr|].
  vm_compute in Hr. injection Hr as <-. repeat split.
Defined.

(** Consecutive chunks of [s] rows, enough of them, rebuild the list. *)
Lemma chunks_cover :
  forall (A : Type) (s n : nat) (l : list A),
    (List.length l <= n * s)%nat ->
    flat_map (fun k => firstn s (skipn (k * s) l)) (seq 0 n) = l.
Proof.
  intros A s n. induction n as [|n IH]; intros l Hlen.
  - destruct l; [reflexivity | simpl in Hlen; lia].
  - cbn [seq flat_map]. rewrite <- seq_shift, flat_map_concat_map, map_map.
    rewrite <- flat_map_concat_map.
    rewrite (flat_map_ext _ (fun k => firstn s (skipn (k * s) (skipn s l)))).
    + rewrite IH by (rewrite length_skipn; lia).
      cbn [Nat.mul skipn]. apply firstn_skipn.
    + intros k. rewrite skipn_skipn. do 2 f_equal. lia.
Qed.

Lemma page_items_chunk :
  forall (A : Type) (query : list A) (k : nat) page_size,
    1 <= page_size ->
    page_items query (Z.of_nat k + 1) page_size
    = firstn (Z.to_nat page_size) (skipn (k * Z.to_nat page_size) query).
Proof.
  intros A query k s Hs. unfold page_items, get_paginated_items.
  destruct (Z.ltb_spec (Z.of_nat k + 1) 1); [lia|].
  destruct (Z.ltb_spec s 1); [lia|].
  cbn [orb Paginated.items]. unfold offset_limit. do 2 f_equal. nia.
Qed.

(** X2.  Pages cover the query: for a page size of at least 1, the pages 1
    to [num_pages], one after the other, are exactly the rows of the query,
    each row once and in the query's order. *)
Theorem pagination_covers :
  forall (A : Type) (query : list A) page_size r,
    1 <= page_size ->
    get_paginated_items query 1 page_size = Some r ->
    flat_map (fun k => page_items query (Z.of_nat k + 1) page_size)
             (seq 0 (Z.to_nat (Paginated.num_pages r)))
    = query.
Proof.
  intros A query s r Hs Hr.
  unfold get_paginated_items in Hr.
  destruct (Z.ltb_spec s 1); [lia|]. cbn [Z.ltb Z.compare orb] in Hr.
  injection Hr as <-. cbn [Paginated.num_pages].
  rewrite (flat_map_ext _
             (fun k => firstn (Z.to_nat s) (skipn (k * Z.to_nat s) query)))
    by (intros k; apply page_items_chunk; exact Hs).
  apply chunks_cover.
  pose proof (num_pages_enough (Z.of_nat (List.length query)) s
                ltac:(lia) Hs) as Hfit.
  nia.
Qed.

Lemma pagination_covers_witness :
  flat_map (fun k => page_items [1; 2; 3; 4; 5; 6; 7] (Z.of_nat k + 1) 3)
           (seq 0 3)
  = [1; 2; 3; 4; 5; 6; 7].
Proof.
  exact (pagination_covers Z [1; 2; 3; 4; 5; 6; 7] 3
           (Paginated.mk 7 [1; 2; 3] 1 3 3) ltac:(lia) eq_refl).
Defined.

(** X3.  Which pages hold rows: for a page number and a page size of at
    least 1, the page is non-empty exactly when its number is at most
    [num_pages]; any later page comes back empty rather than as an error. *)
Theorem pagination_last_page :
  forall (A : Type) (query : list A) page page_size r,
    1 <= page -> 1 <= page_size ->
    get_paginated_items query page page_size = Some r ->
    (Paginated.items r <> [] <-> page <= Paginated.num_pages r).
Proof.
  intros A query page s r Hp Hs Hr.
  unfold get_paginated_items in Hr.
  destruct (Z.ltb_spec page 1); [lia|].
  destruct (Z.ltb_spec s 1); [lia|]. cbn [orb] in Hr.
  injection Hr as <-. cbn [Paginated.items Paginated.num_pages].
  set (total := Z.of_nat (List.length query)).
  pose proof (offset_limit_length A query ((page - 1) * s) s
                ltac:(nia) ltac:(lia)) as Hlen.
  fold total in Hlen.
  pose proof (num_pages_enough total s ltac:(lia) Hs) as Hfit.
  pose proof (num_pages_ceiling total s ltac:(lia) Hs) as Hceil.
  assert (Hoff : 0 <= (page - 1) * s) by nia.
  set (offset := (page - 1) * s) in *.
  split.
  - intros Hne.
    assert (Hpos : 0 < Z.of_nat (List.length (offset_limit offset s query))).
    { destruct (offset_limit offset s query); [contradiction | simpl; lia]. }
    assert (Hleft : offset < total) by lia.
    apply Z.lt_succ_r. unfold offset in Hleft.
    apply (Z.mul_lt_mono_pos_r s); lia.
  - intros Hle Hnil. rewrite Hnil in Hlen. simpl in Hlen.
    assert (Hleft : total <= offset) by lia.
    destruct Hceil as [Hc|[Hzero E]]; [|lia].
    unfold offset in Hleft.
    assert (Hmul : (((total + s - 1) / s) - 1) * s < (page - 1) * s) by lia.
    apply Z.mul_lt_mono_pos_r in Hmul; lia.
Qed.

Lemma pagination_last_page_witness :
  page_items [1; 2; 3; 4; 5; 6; 7] 3 3 = [7]
  /\ page_items [1; 2; 3; 4; 5; 6; 7] 4 3 = []
  /\ ~ (4 <= 3).
Proof.
  pose proof (pagination_last_page Z [1; 2; 3; 4; 5; 6; 7] 4 3
                (Paginated.mk 7 [] 4 3 3) ltac:(lia) ltac:(lia) eq_refl) as H.
  split; [reflexivity|]. split; [reflexivity|].
  intros Hle. apply (proj2 H Hle). reflexivity.
Defined.

(** ** Manual adjustment: the endpoint and its edge cases *)

(** [update_inventory] either returns a record or leaves the committed
    database alone. *)
Lemma update_inventory_outcomes :
  forall product_id u s,
    match update_inventory product_id u s with
    | (Return (Some _), _) => True
    | (_, s') => committed s' = committed s
    end.
Proof.
  intros pid u s. unfold update_inventory, bind, query.
  destruct (get_inventory_by_product_id pid (working s)) as [inv|];
    [|reflexivity].
  unfold func_now, modify, add, insert, commit, ret.
  cbn [committed working storage now].
  destruct (negb _ || _ || _); cbn [committed working storage now];
    destruct (storage s) as [|[|] rest]; cbn; trivial.
Qed.

(** X4.  Manual adjustment is all or nothing: whenever the endpoint answers
    a PATCH of a stock record with an error (unknown product, both or none
    of the fields given, no stock record, failed commit), the database is
    exactly what it was. *)
Theorem adjustment_error_writes_nothing :
  forall product_id inventory_in d st t e d',
    serve (inventory_api.update_inventory_level product_id inventory_in) d st t
    = (inl e, d') ->
    d' = d.
Proof.
  intros pid u d st t e d'.
  unfold serve, run, inventory_api.update_inventory_level, open_session.
  unfold bind at 1. unfold query at 1. cbn [working].
  destruct (get_product pid d) as [p|];
    [|cbn; intros H; injection H as _ <-; reflexivity].
  pose proof (update_inventory_outcomes pid u (mkSession d d st t)) as Hout.
  destruct (InventoryUpdate.quantity_change u) as [c|],
           (InventoryUpdate.absolute_quantity u) as [a|],
           (InventoryUpdate.low_stock_threshold u) as [n|];
    try (cbn; intros H; injection H as _ <-; reflexivity);
    unfold bind;
    destruct (update_inventory pid u (mkSession d d st t)) as [[[inv|]|ex] s'];
    cbn in Hout |- *; intros H;
    try discriminate H;
    injection H as _ <-; exact Hout.
Qed.

Lemma adjustment_error_writes_nothing_witness :
  fst (serve (inventory_api.update_inventory_level 1
                (InventoryUpdate.mk (Some 5) (Some 7) None None))
             stocked_db [] (19001, 0))
  = inl (mkHTTPException 400
           "Provide either 'quantity_change' or 'absolute_quantity', not both.")
  /\ snd (serve (inventory_api.update_inventory_level 1
                   (InventoryUpdate.mk (Some 5) (Some 7) None None))
                stocked_db [] (19001, 0))
     = stocked_db.
Proof.
  split; [reflexivity|].
  apply (adjustment_error_writes_nothing 1
           (InventoryUpdate.mk (Some 5) (Some 7) None None)
           stocked_db [] (19001, 0)
           (mkHTTPException 400
              "Provide either 'quantity_change' or 'absolute_quantity', not both.")).
  reflexivity.
Defined.

(** X5.  A threshold-only update: with neither [quantity_change] nor
    [absolute_quantity], on a record whose quantity is not negative and a
    healthy storage, [update_inventory] stores the new threshold, leaves the
    quantity as it was and writes no log entry. *)
Theorem threshold_only_update :
  forall d product_id reason n st t inv,
    get_inventory_by_product_id product_id d = Some inv ->
    0 <= Inventory.quantity inv ->
    hd true st = true ->
    exists inv' d',
      run (update_inventory product_id
             (InventoryUpdate.mk None None reason (Some n))) d st t
      = (Return (Some inv'), d')
      /\ get_inventory_by_product_id product_id d' = Some inv'
      /\ Inventory.quantity inv' = Inventory.quantity inv
      /\ Inventory.low_stock_threshold inv' = n
      /\ inventory_logs d' = inventory_logs d.
Proof.
  intros d pid reason n st t inv Hinv Hq Hst.
  pose proof (find_some_product_id _ _ _ Hinv) as Hpid.
  unfold run, update_inventory, bind, query.
  cbn [open_session working]. rewrite Hinv.
  cbn [InventoryUpdate.quantity_change InventoryUpdate.absolute_quantity
       InventoryUpdate.low_stock_threshold truthy_int].
  destruct (Z.ltb_spec (Inventory.quantity inv) 0) as [Hneg|_]; [lia|].
  rewrite Z.sub_diag. cbn [Z.eqb negb orb].
  unfold func_now, modify, commit, ret.
  cbn [committed working storage now].
  destruct st as [|[|] st]; [| |discriminate Hst];
    cbn [committed working storage now fst snd];
    do 2 eexists; (split; [reflexivity|]);
    (split; [unfold get_inventory_by_product_id; cbn;
             apply find_updated_record; [exact Hinv | exact Hpid]|]);
    repeat split.
Qed.

Lemma threshold_only_update_witness :
  exists inv' d',
    run (update_inventory 1 (InventoryUpdate.mk None None None (Some 4)))
        three_units_db [] (19001, 0)
    = (Return (Some inv'), d')
    /\ Inventory.quantity inv' = 3
    /\ Inventory.low_stock_threshold inv' = 4
    /\ inventory_logs d' = inventory_logs three_units_db.
Proof.
  destruct (threshold_only_update three_units_db 1 None 4 [] (19001, 0)
              (Inventory.mk 1 1 3 10 (19000, 0)))
    as (inv' & d' & Hrun & _ & Hq & Hn & Hlogs);
    [reflexivity | simpl; lia | reflexivity |].
  exists inv', d'. repeat split; assumption.
Defined.

(** Setting an absolute quantity on a healthy storage: what is stored and
    what is logged. *)
Lemma set_absolute_run :
  forall d product_id a reason threshold st t inv,
    get_inventory_by_product_id product_id d = Some inv ->
    0 <= a ->
    hd true st = true ->
    exists inv' d',
      run (update_inventory product_id
             (InventoryUpdate.mk None (Some a) reason threshold)) d st t
      = (Return (Some inv'), d')
      /\ get_inventory_by_product_id product_id d' = Some inv'
      /\ Inventory.quantity inv' = a
      /\ (a = Inventory.quantity inv -> inventory_logs d' = inventory_logs d)
      /\ (a <> Inventory.quantity inv ->
          exists e,
            rows (inventory_logs d') = rows (inventory_logs d) ++ [e]
            /\ InventoryLog.product_id e = product_id
            /\ InventoryLog.change_quantity e = a - Inventory.quantity inv
            /\ InventoryLog.new_quantity e = a).
Proof.
  intros d pid a reason threshold st t inv Hinv Ha Hst.
  pose proof (find_some_product_id _ _ _ Hinv) as Hpid.
  unfold run, update_inventory, bind, query.
  cbn [open_session working]. rewrite Hinv.
  cbn [InventoryUpdate.quantity_change InventoryUpdate.absolute_quantity
       truthy_int].
  destruct (Z.ltb_spec a 0) as [Hneg|_]; [lia|].
  unfold func_now, modify, add, insert, commit, ret.
  cbn [committed working storage now].
  destruct (Z.eqb_spec a (Inventory.quantity inv)) as [E|E].
  - replace (a - Inventory.quantity inv =? 0) with true
      by (symmetry; apply Z.eqb_eq; lia).
    cbn [negb orb].
    destruct st as [|[|] st]; [| |discriminate Hst];
      cbn [committed working storage now fst snd];
      do 2 eexists; (split; [reflexivity|]);
      (split; [unfold get_inventory_by_product_id; cbn;
               apply find_updated_record; [exact Hinv | exact Hpid]|]);
      (split; [reflexivity|]); (split; [reflexivity|]);
      intros Hne; contradiction.
  - replace (a - Inventory.quantity inv =? 0) with false
      by (symmetry; apply Z.eqb_neq; lia).
    cbn [negb orb].
    destruct st as [|[|] st]; [| |discriminate Hst];
      cbn [committed working storage now fst snd];
      do 2 eexists; (split; [reflexivity|]);
      (split; [unfold get_inventory_by_product_id; cbn;
               apply find_updated_record; [exact Hinv | exact Hpid]|]);
      (split; [reflexivity|]); (split; [intros Heq; contradiction|]);
      intros _; eexists; (split; [cbn; reflexivity|]); cbn; repeat split.
Qed.

(** X6.  Setting an absolute quantity is idempotent: on a healthy storage
    the first request stores exactly the quantity asked for, logging the
    difference if there is one, and repeating the same request leaves the
    quantity there and adds nothing to the log. *)
Theorem set_absolute_twice :
  forall d product_id a reason threshold t1 t2 inv,
    get_inventory_by_product_id product_id d = Some inv ->
    0 <= a ->
    exists inv1 d1 inv2 d2,
      run (update_inventory product_id
             (InventoryUpdate.mk None (Some a) reason threshold)) d [] t1
      = (Return (Some inv1), d1)
      /\ run (update_inventory product_id
                (InventoryUpdate.mk None (Some a) reason threshold)) d1 [] t2
         = (Return (Some inv2), d2)
      /\ stock product_id d1 = a
      /\ stock product_id d2 = a
      /\ inventory_logs d2 = inventory_logs d1
      /\ (a <> Inventory.quantity inv ->
          exists e,
            rows (inventory_logs d1) = rows (inventory_logs d) ++ [e]
            /\ InventoryLog.change_quantity e = a - Inventory.quantity inv
            /\ InventoryLog.new_quantity e = a).
Proof.
  intros d pid a reason threshold t1 t2 inv Hinv Ha.
  destruct (set_absolute_run d pid a reason threshold [] t1 inv Hinv Ha eq_refl)
    as (inv1 & d1 & Hrun1 & Hinv1 & Hq1 & _ & Hlog1).
  destruct (set_absolute_run d1 pid a reason threshold [] t2 inv1 Hinv1 Ha eq_refl)
    as (inv2 & d2 & Hrun2 & Hinv2 & Hq2 & Hsame & _).
  exists inv1, d1, inv2, d2.
  split; [exact Hrun1|]. split; [exact Hrun2|].
  split; [unfold stock; rewrite Hinv1; exact Hq1|].
  split; [unfold stock; rewrite Hinv2; exact Hq2|].
  split; [apply Hsame; symmetry; exact Hq1|].
  intros Hne. destruct (Hlog1 Hne) as (e & He & _ & Hc & Hn).
  exists e. repeat split; assumption.
Qed.

Lemma set_absolute_twice_witness :
  exists d1 d2,
    snd (run (update_inventory 1 (InventoryUpdate.mk None (Some 7) None None))
             three_units_db [] (19001, 0)) = d1
    /\ snd (run (update_inventory 1 (InventoryUpdate.mk None (Some 7) None None))
                d1 [] (19002, 0)) = d2
    /\ stock 1 d1 = 7 /\ stock 1 d2 = 7
    /\ inventory_logs d2 = inventory_logs d1.
Proof.
  destruct (set_absolute_twice three_units_db 1 7 None None (19001, 0)
              (19002, 0) (Inventory.mk 1 1 3 10 (19000, 0)))
    as (inv1 & d1 & inv2 & d2 & H1 & H2 & S1 & S2 & L & _);
    [reflexivity | lia |].
  exists d1, d2.
  rewrite H1. cbn [snd]. rewrite H2. cbn [snd].
  repeat split; assumption.
Defined.

(** ** Order engine: what a committed order does to the stock *)

(** How a successful [create_order] came about. *)
Lemma create_order_success :
  forall order_data d st t o d',
    run (create_order order_data) d st t = (Return o, d') ->
    exists total infos updates,
      validate_items (OrderCreate.items order_data) (0, [], [])
                     (open_session d st t)
      = (Return (total, infos, updates), open_session d st t)
      /\ o = new_order order_data total t d
      /\ d' = order_written order_data (total, infos, updates) t d.
Proof.
  intros od d st t o d' H.
  rewrite create_order_run in H.
  pose proof (validate_items_session (OrderCreate.items od) (0, [], [])
                (open_session d st t)) as Hs.
  destruct (validate_items _ _ _) as [[[[total infos] updates]|e] s'] eqn:V;
    cbn [fst snd] in H, Hs; [|discriminate H].
  subst s'. rewrite commit_order_run in H.
  exists total, infos, updates. split; [reflexivity|].
  destruct st as [|[|] [|[|] st]]; try discriminate H;
    injection H as <- <-; split; reflexivity.
Qed.

(** The whole deduction loop. *)
Lemma sales_stock :
  forall order_id t (original : OrderItemCreate.t -> Z) items d,
    NoDup (map Inventory.id (rows (inventory d))) ->
    (forall item, In item items ->
       get_inventory_by_product_id (OrderItemCreate.product_id item) d <> None) ->
    forall p,
      stock p (fold_left (sell order_id t)
                 (map (fun item => (OrderItemCreate.product_id item,
                                    OrderItemCreate.quantity item,
                                    original item)) items) d)
      = stock p d - units_ordered p items.
Proof.
  intros oid t original items.
  induction items as [|item rest IH]; intros d Hids Hrec p.
  - simpl. lia.
  - cbn [map fold_left units_ordered fold_right].
    destruct (sell_stock oid t d (OrderItemCreate.product_id item)
                (OrderItemCreate.quantity item) (original item) Hids
                (Hrec item (or_introl eq_refl)))
      as (Hids1 & Hstock1 & Hrec1).
    rewrite IH; [| exact Hids1
                 | intros x Hx; apply Hrec1, Hrec; right; exact Hx].
    rewrite Hstock1. fold (units_ordered p rest).
    destruct (OrderItemCreate.product_id item =? p); lia.
Qed.

Lemma units_ordered_once :
  forall items item,
    NoDup (map OrderItemCreate.product_id items) ->
    In item items ->
    units_ordered (OrderItemCreate.product_id item) items
    = OrderItemCreate.quantity item.
Proof.
  induction items as [|a rest IH]; intros item Hnd Hin; [destruct Hin|].
  simpl in Hnd. inversion Hnd as [|x xs Hnotin Hnd']; subst.
  cbn [units_ordered fold_right]. fold (units_ordered (OrderItemCreate.product_id item) rest).
  destruct Hin as [<-|Hin].
  - rewrite Z.eqb_refl.
    assert (Hzero : forall l, ~ In (OrderItemCreate.product_id a)
                                   (map OrderItemCreate.product_id l) ->
                              units_ordered (OrderItemCreate.product_id a) l = 0).
    { induction l as [|b l IHl]; intros Hb; [reflexivity|].
      cbn [units_ordered fold_right].
      fold (units_ordered (OrderItemCreate.product_id a) l).
      destruct (Z.eqb_spec (OrderItemCreate.product_id b)
                           (OrderItemCreate.product_id a)) as [E|E].
      - exfalso; apply Hb; left; exact E.
      - apply IHl. intros H; apply Hb; right; exact H. }
    rewrite (Hzero rest Hnotin). lia.
  - destruct (Z.eqb_spec (OrderItemCreate.product_id a)
                         (OrderItemCreate.product_id item)) as [E|E].
    + exfalso. apply Hnotin. rewrite E. apply in_map, Hin.
    + apply IH; assumption.
Qed.

(** X7.  What a committed order does to the stock.  On stock records with
    distinct primary keys, a successful [create_order] lowers every
    product's quantity by exactly the units its lines ask for, all lines
    together, and touches no other quantity.  When the lines name pairwise
    distinct products, each ordered product ends at its former quantity less
    the quantity of its line, and that is never negative. *)
Theorem order_stock_arithmetic :
  forall order_data d st t o d',
    NoDup (map Inventory.id (rows (inventory d))) ->
    run (create_order order_data) d st t = (Return o, d') ->
    (forall p, stock p d' = stock p d - units_ordered p (OrderCreate.items order_data))
    /\ (NoDup (map OrderItemCreate.product_id (OrderCreate.items order_data)) ->
        forall item,
          In item (OrderCreate.items order_data) ->
          stock (OrderItemCreate.product_id item) d'
          = stock (OrderItemCreate.product_id item) d
            - OrderItemCreate.quantity item
          /\ 0 <= stock (OrderItemCreate.product_id item) d').
Proof.
  intros od d st t o d' Hids Hrun.
  destruct (create_order_success od d st t o d' Hrun)
    as (total & infos & updates & Hval & _ & ->).
  apply validate_items_updates in Hval. cbn [app working open_session] in Hval.
  destruct Hval as [-> Hgood].
  assert (Hall : forall p,
            stock p (order_written od
                       (total, infos,
                        map (fun item => (OrderItemCreate.product_id item,
                                          OrderItemCreate.quantity item,
                                          stock (OrderItemCreate.product_id item) d))
                            (OrderCreate.items od)) t d)
            = stock p d - units_ordered p (OrderCreate.items od)).
  { intros p. unfold order_written.
    rewrite sales_stock.
    - reflexivity.
    - exact Hids.
    - intros item Hitem H. apply (Hgood item Hitem). right; left. exact H. }
  split; [exact Hall|].
  intros Hnd item Hitem. rewrite Hall, (units_ordered_once _ _ Hnd Hitem).
  split; [reflexivity|].
  pose proof (Hgood item Hitem) as Hok. unfold bad_line in Hok.
  destruct (Z.lt_ge_cases (stock (OrderItemCreate.product_id item) d)
                          (OrderItemCreate.quantity item)); [|lia].
  exfalso. apply Hok. right; right. assumption.
Qed.

Lemma order_stock_arithmetic_witness :
  stock 1 sold_db = stock 1 stocked_db - 8 /\ 0 <= stock 1 sold_db.
Proof.
  refine (proj2 (order_stock_arithmetic eight_widgets stocked_db [] (19010, 0)
                   (Order.mk 1 (19010, 0) (Some "Ada"%string) "completed" 10000)
                   sold_db _ eq_refl) _ (OrderItemCreate.mk 1 8) _).
  - repeat constructor. intros [].
  - repeat constructor. intros [].
  - left; reflexivity.
Defined.

(** The tables of a database after a validated order was written in full. *)
Lemma order_written_tables :
  forall order_data total infos updates t d,
    orders (order_written order_data (total, infos, updates) t d)
    = mkTable (rows (orders d) ++ [new_order order_data total t d])
              (next_id (orders d) + 1)
    /\ order_items (order_written order_data (total, infos, updates) t d)
       = mkTable (rows (order_items d)
                  ++ order_lines (next_id (orders d)) (next_id (order_items d))
                                 infos)
                 (next_id (order_items d) + Z.of_nat (List.length infos))
    /\ products (order_written order_data (total, infos, updates) t d)
       = products d
    /\ categories (order_written order_data (total, infos, updates) t d)
       = categories d.
Proof.
  intros od total infos updates t d. unfold order_written.
  destruct (sales_frame (next_id (orders d)) t updates
              (lines_inserted (next_id (orders d)) infos
                 (order_inserted od total t d))) as (-> & -> & -> & ->).
  repeat split.
Qed.

(** Looking up an order after one more was appended under a fresh id. *)
Lemma get_order_appended :
  forall d d' o,
    rows (orders d') = rows (orders d) ++ [o] ->
    Order.id o = next_id (orders d) ->
    (forall i, In i (map Order.id (rows (orders d))) -> i < next_id (orders d)) ->
    get_order (Order.id o) d' = Some o
    /\ (forall i, get_order i d <> None -> get_order i d' = get_order i d).
Proof.
  intros d d' o Hrows Hid Hbelow. unfold get_order. rewrite Hrows. split.
  - rewrite find_snoc, Z.eqb_refl.
    destruct (find (fun x => Order.id x =? Order.id o) (rows (orders d)))
      as [y|] eqn:E; [|reflexivity].
    exfalso. apply find_some in E. destruct E as [Hin Heq].
    apply Z.eqb_eq in Heq.
    pose proof (Hbelow (Order.id y) (in_map Order.id _ _ Hin)). lia.
  - intros i Hi. rewrite find_snoc.
    destruct (find (fun x => Order.id x =? i) (rows (orders d)));
      [reflexivity | contradiction].
Qed.

(** ** Order tables: integrity *)

Lemma order_integrity_frame :
  forall d d',
    orders d' = orders d -> order_items d' = order_items d ->
    order_integrity d -> order_integrity d'.
Proof.
  intros d d' Ho Hi [Hu Hb Hl]. constructor.
  - rewrite Ho; exact Hu.
  - rewrite Ho; exact Hb.
  - intros it Hit. unfold get_order. rewrite Ho. apply Hl.
    rewrite <- Hi. exact Hit.
Qed.

Lemma update_inventory_frame :
  forall product_id u d st t,
    orders (snd (run (update_inventory product_id u) d st t)) = orders d
    /\ order_items (snd (run (update_inventory product_id u) d st t))
       = order_items d
    /\ products (snd (run (update_inventory product_id u) d st t)) = products d
    /\ categories (snd (run (update_inventory product_id u) d st t))
       = categories d.
Proof.
  intros pid u d st t.
  unfold run, update_inventory, bind, query. cbn [open_session working].
  destruct (get_inventory_by_product_id pid d) as [inv|]; [|repeat split].
  unfold func_now, modify, add, insert, commit, ret.
  cbn [committed working storage now].
  destruct (negb _ || _ || _); cbn [committed working storage now];
    destruct st as [|[|] st]; cbn; repeat split.
Qed.

Lemma order_lines_order_id :
  forall order_id infos first_id line,
    In line (order_lines order_id first_id infos) ->
    OrderItem.order_id line = order_id.
Proof.
  intros oid infos. induction infos as [|i rest IH]; intros n line Hin.
  - destruct Hin.
  - destruct Hin as [<-|Hin]; [reflexivity | apply (IH _ _ Hin)].
Qed.

Lemma order_integrity_inserted :
  forall order_data total t d,
    order_integrity d -> order_integrity (order_inserted order_data total t d).
Proof.
  intros od total t d [Hu Hb Hl].
  destruct (get_order_appended d (order_inserted od total t d)
              (new_order od total t d) eq_refl eq_refl Hb) as [_ Hold].
  constructor; cbn [order_inserted with_orders orders order_items rows next_id].
  - rewrite map_app. apply NoDup_snoc; [exact Hu|].
    intros H. apply Hb in H. cbn in H. lia.
  - intros i Hi. rewrite map_app, in_app_iff in Hi.
    destruct Hi as [Hi|[<-|[]]]; [apply Hb in Hi; lia | cbn; lia].
  - intros it Hit. rewrite (Hold _ (Hl it Hit)). apply Hl, Hit.
Qed.

Lemma order_integrity_written :
  forall order_data total infos updates t d,
    order_integrity d ->
    order_integrity (order_written order_data (total, infos, updates) t d).
Proof.
  intros od total infos updates t d Hd.
  pose proof (order_integrity_inserted od total t d Hd) as [Hu Hb _].
  destruct Hd as [_ Hb0 Hl].
  destruct (order_written_tables od total infos updates t d)
    as (Horders & Hitems & _ & _).
  destruct (get_order_appended d (order_written od (total, infos, updates) t d)
              (new_order od total t d)) as [Hnew Hold];
    [rewrite Horders; reflexivity | reflexivity | exact Hb0 |].
  constructor.
  - rewrite Horders. exact Hu.
  - rewrite Horders. exact Hb.
  - intros it Hit. rewrite Hitems in Hit. cbn [rows] in Hit.
    apply in_app_iff in Hit. destruct Hit as [Hit|Hit].
    + rewrite (Hold _ (Hl it Hit)). apply Hl, Hit.
    + rewrite (order_lines_order_id _ _ _ _ Hit).
      cbn [new_order Order.id] in Hnew. rewrite Hnew. discriminate.
Qed.

Lemma step_order_integrity :
  forall d d', step d d' -> order_integrity d -> order_integrity d'.
Proof.
  intros d d' Hstep Hd. destruct Hstep as [d product st t|d pid u st t|d od st t].
  - rewrite create_product_run.
    destruct st as [|[|] [|[|] st]]; cbn [snd];
      try exact Hd; apply (order_integrity_frame d); trivial.
  - destruct (update_inventory_frame pid u d st t) as (Ho & Hi & _).
    apply (order_integrity_frame d); assumption.
  - rewrite create_order_run.
    destruct (fst _) as [[[total infos] updates]|e]; cbn [snd]; [|exact Hd].
    rewrite commit_order_run.
    destruct st as [|[|] [|[|] st]]; cbn [snd];
      try exact Hd;
      try (apply order_integrity_inserted; exact Hd);
      apply order_integrity_written; exact Hd.
Qed.

(** X10.  Order lines never dangle: in every state reachable from the empty
    database by [create_product], [update_inventory] and [create_order]
    calls, whatever commits fail, order ids are distinct and every order
    item belongs to an order that exists. *)
Theorem reachable_order_integrity :
  forall d, reachable d -> order_integrity d.
Proof.
  intros d H. induction H as [|d d' _ IH Hstep].
  - constructor; simpl.
    + constructor.
    + intros i [].
    + intros it [].
  - exact (step_order_integrity d d' Hstep IH).
Qed.

Lemma reachable_order_integrity_witness :
  order_integrity history_db.
Proof.
  apply reachable_order_integrity. unfold history_db.
  apply (reachable_step
           (reachable_step
              (reachable_step reachable_empty
                 (step_create_product empty_db widget [] (19000, 0)))
              (step_create_order _ eight_widgets [] (19010, 0)))
           (step_update_inventory _ 1
              (InventoryUpdate.mk (Some (-5)) None None None) [] (19020, 0))).
Defined.

(** ** Catalog and order engine together *)

(** X11.  A new product can be found and sold.  On a catalog whose product
    ids and stock records lie below the product counter, for a product whose
    category exists and whose SKU is unused, and a healthy storage, the
    creation endpoint answers with the product that [create_product]
    returns; [get_product] finds it under its id, with its initial quantity
    in stock; and an order for any quantity up to that initial quantity is
    then accepted, is priced at the product's price and leaves the rest in
    stock. *)
Theorem new_product_can_be_sold :
  forall product d t t' customer n c,
    (forall p, In p (rows (products d)) -> Product.id p < next_id (products d)) ->
    (forall i, In i (rows (inventory d)) ->
               Inventory.product_id i < next_id (products d)) ->
    get_category (ProductCreate.category_id product) d = Some c ->
    (forall sku, ProductCreate.sku product = Some sku ->
                 get_product_by_sku sku d = None) ->
    n <= ProductCreate.initial_quantity product ->
    exists p d1 o d2,
      run (create_product product) d [] t = (Return p, d1)
      /\ serve (products_api.create_product product) d [] t = (inr p, d1)
      /\ get_product (Product.id p) d1 = Some p
      /\ stock (Product.id p) d1 = ProductCreate.initial_quantity product
      /\ run (create_order
                (OrderCreate.mk customer [OrderItemCreate.mk (Product.id p) n]))
             d1 [] t'
         = (Return o, d2)
      /\ Order.total_amount o = ProductCreate.price product * n
      /\ stock (Product.id p) d2 = ProductCreate.initial_quantity product - n.
Proof.
  intros product d t t' customer n c Hproducts Hstock Hcat Hsku Hn.
  set (pid := next_id (products d)).
  set (inv := Inventory.mk (next_id (inventory d)) pid
                (ProductCreate.initial_quantity product)
                (match ProductCreate.low_stock_threshold product with
                 | Some k => k
                 | None => 10
                 end) t).
  assert (Hp : get_product pid (product_written product t d)
               = Some (new_product product t d)).
  { unfold get_product. cbn. rewrite find_snoc.
    destruct (find (fun p => Product.id p =? pid) (rows (products d)))
      as [y|] eqn:E.
    - exfalso. apply find_some in E. destruct E as [Hin Heq].
      apply Z.eqb_eq in Heq. specialize (Hproducts y Hin). unfold pid in Heq. lia.
    - cbn [new_product Product.id]. fold pid. now rewrite Z.eqb_refl. }
  assert (Hinv : get_inventory_by_product_id pid (product_written product t d)
                 = Some inv).
  { unfold get_inventory_by_product_id. cbn.
    apply (find_app_new (rows (inventory d)) inv). cbn.
    intros Hin. apply in_map_iff in Hin. destruct Hin as (i & Hi & Hin).
    specialize (Hstock i Hin). unfold pid in *. lia. }
  exists (new_product product t d), (product_written product t d).
  assert (Hval : validate_items [OrderItemCreate.mk pid n] (0, [], [])
                   (open_session (product_written product t d) [] t')
                 = (Return (0 + ProductCreate.price product * n,
                            [] ++ [mk_item_info pid n (ProductCreate.price product)
                                     (ProductCreate.price product * n)],
                            [] ++ [(pid, n, ProductCreate.initial_quantity product)]),
                    open_session (product_written product t d) [] t')).
  { cbn [validate_items OrderItemCreate.product_id OrderItemCreate.quantity].
    unfold bind, query, ret. cbn [working open_session].
    rewrite Hp. cbn [working open_session]. rewrite Hinv.
    cbn [Inventory.quantity inv new_product Product.price].
    destruct (Z.ltb_spec (ProductCreate.initial_quantity product) n); [lia|].
    reflexivity. }
  eexists. eexists.
  split; [apply create_product_run|].
  split.
  { unfold serve, run, products_api.create_product, open_session.
    unfold bind at 1. unfold query at 1. cbn [working]. rewrite Hcat.
    assert (Hexisting :
              (if truthy_str (ProductCreate.sku product)
               then match ProductCreate.sku product with
                    | Some sku => query (get_product_by_sku sku)
                    | None => ret None
                    end
               else ret None) (mkSession d d [] t)
              = (Return None, mkSession d d [] t)).
    { destruct (ProductCreate.sku product) as [sku|] eqn:E; simpl.
      - destruct (negb _); [|reflexivity].
        unfold query; cbn [working]. now rewrite (Hsku sku eq_refl).
      - reflexivity. }
    erewrite bind_Return by exact Hexisting.
    cbn beta iota.
    pose proof (create_product_run product d [] t) as Hrun.
    unfold run, open_session in Hrun. unfold bind.
    destruct (create_product product (mkSession d d [] t)) as [r s'].
    injection Hrun as Hr Hs. subst r. unfold ret. rewrite Hs. reflexivity. }
  split; [exact Hp|].
  split; [unfold stock; cbn [new_product Product.id]; fold pid; rewrite Hinv;
          reflexivity|].
  split.
  - rewrite create_order_run. cbn [OrderCreate.items new_product Product.id].
    fold pid. rewrite Hval. cbn [fst]. rewrite commit_order_run. reflexivity.
  - split; [cbn; lia|].
    cbn [new_product Product.id]. fold pid.
    unfold order_written. cbn [app fold_left].
    destruct (sell_effect
                (next_id (orders (product_written product t d))) t'
                (lines_inserted (next_id (orders (product_written product t d)))
                   [mk_item_info pid n (ProductCreate.price product)
                      (ProductCreate.price product * n)]
                   (order_inserted
                      (OrderCreate.mk customer [OrderItemCreate.mk pid n])
                      (0 + ProductCreate.price product * n) t'
                      (product_written product t d)))
                pid n (ProductCreate.initial_quantity product) inv Hinv)
      as [Hstock' _].
    exact Hstock'.
Qed.

Lemma new_product_can_be_sold_witness :
  exists p d1 o d2,
    serve (products_api.create_product
             (ProductCreate.mk "Gadget" None 400 1 (Some "G-2"%string) 5 None))
          stocked_db [] (19001, 0)
    = (inr p, d1)
    /\ Product.id p = 2
    /\ stock (Product.id p) d1 = 5
    /\ run (create_order (OrderCreate.mk None [OrderItemCreate.mk (Product.id p) 2]))
           d1 [] (19002, 0)
       = (Return o, d2)
    /\ Order.total_amount o = 800
    /\ stock (Product.id p) d2 = 3.
Proof.
  destruct (new_product_can_be_sold
              (ProductCreate.mk "Gadget" None 400 1 (Some "G-2"%string) 5 None)
              stocked_db (19001, 0) (19002, 0) None 2 tools)
    as (p & d1 & o & d2 & H1 & H2 & _ & H3 & H4 & H5 & H6).
  - intros p [<-|[]]. vm_compute. reflexivity.
  - intros i [<-|[]]. vm_compute. reflexivity.
  - reflexivity.
  - intros sku Hs. injection Hs as <-. reflexivity.
  - simpl; lia.
  - exists p, d1, o, d2.
    assert (Hid : Product.id p = 2)
      by (rewrite create_product_run in H1; injection H1 as <- _; reflexivity).
    repeat split; assumption.
Defined.

(** ** Catalog: deleting a product *)

Lemma find_filter_removed :
  forall (A : Type) (f sel : A -> bool) (l : list A),
    (forall r, In r l -> f r = true -> sel r = true) ->
    find f (filter (fun r => negb (sel r)) l) = None.
Proof.
  intros A f sel l. induction l as [|a l IH]; intros H; simpl.
  - reflexivity.
  - assert (IH' : find f (filter (fun r => negb (sel r)) l) = None)
      by (apply IH; intros r Hr; apply H; right; exact Hr).
    destruct (sel a) eqn:Es; simpl; [exact IH'|].
    destruct (f a) eqn:Ef; [|exact IH'].
    rewrite (H a (or_introl eq_refl) Ef) in Es. discriminate.
Qed.

Lemma find_filter_kept :
  forall (A : Type) (f sel : A -> bool) (l : list A),
    (forall r, In r l -> sel r = true -> f r = false) ->
    find f (filter (fun r => negb (sel r)) l) = find f l.
Proof.
  intros A f sel l. induction l as [|a l IH]; intros H; simpl.
  - reflexivity.
  - assert (IH' : find f (filter (fun r => negb (sel r)) l) = find f l)
      by (apply IH; intros r Hr; apply H; right; exact Hr).
    destruct (sel a) eqn:Es; simpl.
    + rewrite (H a (or_introl eq_refl) Es). exact IH'.
    + destruct (f a); [reflexivity | exact IH'].
Qed.

(** X12.  Deleting a product is all or nothing and never raises.  On stock
    records that are well keyed, [delete_product] always returns: either
    [None] with the database unchanged (unknown product, or a delete that
    the storage refused and that was rolled back), or the product, which is
    then gone together with its stock record while every other product and
    stock record is as before.  In both cases orders, order items, log
    entries and categories are untouched. *)
Theorem delete_product_all_or_nothing :
  forall product_id d st t,
    stock_integrity d ->
    exists r d',
      run (delete_product product_id) d st t = (Return r, d')
      /\ orders d' = orders d
      /\ order_items d' = order_items d
      /\ inventory_logs d' = inventory_logs d
      /\ categories d' = categories d
      /\ ((r = None /\ d' = d)
          \/ (exists p,
                r = Some p
                /\ get_product product_id d = Some p
                /\ get_product product_id d' = None
                /\ get_inventory_by_product_id product_id d' = None
                /\ forall q, q <> product_id ->
                     get_product q d' = get_product q d
                     /\ get_inventory_by_product_id q d'
                        = get_inventory_by_product_id q d)).
Proof.
  intros pid d st t [Hup Hui _ _].
  unfold run, delete_product, open_session.
  unfold bind at 1. unfold query at 1. cbn [working].
  destruct (get_product pid d) as [p|] eqn:Hp;
    [|do 2 eexists; split; [reflexivity|]; repeat split; left; split; reflexivity].
  assert (Hidp : Product.id p = pid).
  { unfold get_product in Hp. apply find_some in Hp. now apply Z.eqb_eq. }
  assert (Hproducts :
            find (fun x => Product.id x =? pid)
                 (filter (fun r => negb (Product.id r =? Product.id p))
                         (rows (products d))) = None
            /\ forall q, q <> pid ->
                 find (fun x => Product.id x =? q)
                      (filter (fun r => negb (Product.id r =? Product.id p))
                              (rows (products d)))
                 = find (fun x => Product.id x =? q) (rows (products d))).
  { split.
    - apply find_filter_removed. intros r _ Hr. rewrite Hidp. exact Hr.
    - intros q Hq. apply find_filter_kept. intros r _ Hr.
      apply Z.eqb_eq in Hr. apply Z.eqb_neq. congruence. }
  destruct Hproducts as [Hgone Hkept].
  unfold bind at 1. unfold query at 1. cbn [working].
  destruct (get_inventory_by_product_id pid d) as [inv|] eqn:Hinv.
  - pose proof (find_some_product_id _ _ _ Hinv) as Hpid.
    assert (Hin : In inv (rows (inventory d))).
    { unfold get_inventory_by_product_id in Hinv. apply find_some in Hinv. tauto. }
    assert (Hstock :
              find (fun i => Inventory.product_id i =? pid)
                   (filter (fun r => negb (Inventory.id r =? Inventory.id inv))
                           (rows (inventory d))) = None
              /\ forall q, q <> pid ->
                   find (fun i => Inventory.product_id i =? q)
                        (filter (fun r => negb (Inventory.id r =? Inventory.id inv))
                                (rows (inventory d)))
                   = find (fun i => Inventory.product_id i =? q)
                          (rows (inventory d))).
    { split.
      - apply find_filter_removed. intros r Hr Hmatch.
        apply Z.eqb_eq in Hmatch. apply Z.eqb_eq. f_equal.
        apply (unique_key _ Inventory.product_id (rows (inventory d)));
          try assumption. congruence.
      - intros q Hq. apply find_filter_kept. intros r Hr Hsel.
        apply Z.eqb_eq in Hsel. apply Z.eqb_neq.
        rewrite (unique_key _ Inventory.id (rows (inventory d)) r inv Hui Hr Hin Hsel).
        congruence. }
    destruct Hstock as [Hsgone Hskept].
    unfold bind, modify, try_except, commit, rollback, ret.
    cbn [committed working storage now].
    destruct st as [|[|] st]; cbn [committed working storage now fst snd];
      do 2 eexists; (split; [reflexivity|]);
      cbn [with_products with_inventory orders order_items inventory_logs
           categories];
      repeat (split; [reflexivity|]);
      try (left; split; reflexivity);
      right; exists p; (split; [reflexivity|]); (split; [reflexivity|]);
      (split; [exact Hgone|]); (split; [exact Hsgone|]);
      intros q Hq; (split; [exact (Hkept q Hq) | exact (Hskept q Hq)]).
  - unfold bind, modify, try_except, commit, rollback, ret.
    cbn [committed working storage now].
    destruct st as [|[|] st]; cbn [committed working storage now fst snd];
      do 2 eexists; (split; [reflexivity|]);
      cbn [with_products with_inventory orders order_items inventory_logs
           categories];
      repeat (split; [reflexivity|]);
      try (left; split; reflexivity);
      right; exists p; (split; [reflexivity|]); (split; [reflexivity|]);
      (split; [exact Hgone|]); (split; [exact Hinv|]);
      intros q Hq; (split; [exact (Hkept q Hq) | reflexivity]).
Qed.

Lemma delete_product_all_or_nothing_witness :
  exists r d',
    run (delete_product 1) stocked_db [] (19005, 0) = (Return r, d')
    /\ inventory_logs d' = inventory_logs stocked_db
    /\ (r <> None -> get_product 1 d' = None
                     /\ get_inventory_by_product_id 1 d' = None).
Proof.
  destruct (delete_product_all_or_nothing 1 stocked_db [] (19005, 0))
    as (r & d' & Hrun & _ & _ & Hlogs & _ & Hcases).
  - constructor; cbn.
    + repeat constructor. intros [].
    + repeat constructor. intros [].
    + intros i [<-|[]]. lia.
    + intros i [<-|[]]. lia.
  - exists r, d'. split; [exact Hrun|]. split; [exact Hlogs|].
    intros Hr. destruct Hcases as [[Hnone _]|(p & _ & _ & Hp & Hi & _)].
    + contradiction.
    + split; assumption.
Defined.

(** ** Catalog: error answers *)

(** An endpoint that starts with a query, or with a value, runs the rest on
    the same database. *)
Lemma serve_query :
  forall A B (f : Database -> A) (k : A -> M (Response B)) d st t,
    serve (bind (query f) k) d st t = serve (k (f d)) d st t.
Proof. reflexivity. Qed.

Lemma serve_ret :
  forall A B (x : A) (k : A -> M (Response B)) d st t,
    serve (bind (ret x) k) d st t = serve (k x) d st t.
Proof. reflexivity. Qed.

Lemma serve_query_ret :
  forall A B C (f : Database -> A) (g : A -> B) (k : B -> M (Response C))
         d st t,
    serve (bind (bind (query f) (fun a => ret (g a))) k) d st t
    = serve (k (g (f d))) d st t.
Proof. reflexivity. Qed.

Ltac split_cases :=
  repeat match goal with
         | |- context [match ?x with _ => _ end] =>
             lazymatch x with
             | context [match _ with _ => _ end] => fail
             | _ => destruct x eqn:?
             end
         end.

Ltac unfold_request :=
  unfold serve, run, open_session, bind, query, modify, commit, rollback, ret,
    try_except, add, insert;
  cbn [working committed storage now fst snd].

Ltac answer_unchanged :=
  let H := fresh "H" in
  intros H; first [discriminate H | injection H as _ <-; reflexivity].

(** X13.  Error answers of the catalog's write endpoints.  Whenever
    updating a product, or creating, updating or deleting a category, is
    answered with an error (not found, conflict, or a failed commit), the
    database is exactly what it was.  Deleting a product is different: its
    404 and 400 answers write nothing, but it never answers with the
    product: a delete that went through is answered 500, with the product
    gone. *)
Theorem catalog_error_answers :
  forall lower d st t e d',
    (forall product_id product_in,
        serve (products_router.update_product product_id product_in) d st t
        = (inl e, d') -> d' = d)
    /\ (forall product_id,
          (forall p, serve (products_router.delete_product product_id) d st t
                     <> (inr p, d'))
          /\ (serve (products_router.delete_product product_id) d st t
              = (inl e, d') ->
              (status_code e <> HTTP_500_INTERNAL_SERVER_ERROR -> d' = d)
              /\ (status_code e = HTTP_500_INTERNAL_SERVER_ERROR ->
                  get_product product_id d <> None
                  /\ get_product product_id d' = None)))
    /\ (forall category_in,
          serve (categories_api.create_category lower category_in) d st t
          = (inl e, d') -> d' = d)
    /\ (forall category_id category_in,
          serve (categories_api.update_category lower category_id category_in)
                d st t
          = (inl e, d') -> d' = d)
    /\ (forall category_id,
          serve (categories_api.delete_category category_id) d st t
          = (inl e, d') -> d' = d).
Proof.
  intros lower d st t e d'. split; [|split; [|split; [|split]]].
  - intros pid u. unfold products_router.update_product, update_product, func_now.
    unfold_request. split_cases; cbn [working committed storage now fst snd];
      split_cases; answer_unchanged.
  - intros pid.
    unfold products_router.delete_product,
      products_router.respond_with_deleted.
    rewrite serve_query.
    destruct (get_product pid d) as [p|] eqn:Hp.
    + assert (Hid : Product.id p = pid).
      { unfold get_product in Hp. apply find_some in Hp. apply Z.eqb_eq, Hp. }
      assert (Hgone :
        forall inv_rows,
          get_product pid
            (with_products
               (delete_rows (fun r => Product.id r =? Product.id p)
                            (products d))
               (with_inventory inv_rows d)) = None).
      { intros inv_rows. unfold get_product.
        cbn [with_products with_inventory products delete_rows rows].
        apply find_filter_removed. intros r _ Hr. rewrite Hid. exact Hr. }
      unfold serve, run, delete_product, open_session, bind, query, modify,
        try_except, commit, rollback, ret, raise.
      cbn [working committed storage now]. rewrite Hp.
      cbn [working committed storage now].
      destruct (get_inventory_by_product_id pid d) as [inv|];
        destruct st as [|[|] st]; cbn [working committed storage now fst snd];
        (split; [intros q Hq; discriminate Hq|]);
        intros H; injection H as <- <-; cbn [status_code];
        (split; [intros Hne; first [reflexivity | contradiction Hne; reflexivity]
                |intros He; first [discriminate He
                                  | split; [discriminate | apply Hgone]]]).
    + split; [intros q Hq; discriminate Hq|].
      intros H. injection H as <- <-. cbn [status_code].
      split; [reflexivity | intros He; discriminate He].
  - intros c. unfold categories_api.create_category, create_category.
    unfold_request. split_cases; cbn [working committed storage now fst snd];
      split_cases; answer_unchanged.
  - intros cid u. unfold categories_api.update_category, update_category.
    unfold_request. split_cases; cbn [working committed storage now fst snd];
      split_cases; answer_unchanged.
  - intros cid. unfold categories_api.delete_category, delete_category.
    unfold_request. split_cases; cbn [working committed storage now fst snd];
      split_cases; answer_unchanged.
Qed.

Lemma catalog_error_answers_witness :
  fst (serve (products_router.delete_product 2) unstocked_db [] (19005, 0))
  = inl (mkHTTPException 500 "Internal Server Error")
  /\ get_product 2 unstocked_db <> None
  /\ get_product 2
       (snd (serve (products_router.delete_product 2) unstocked_db []
                   (19005, 0))) = None.
Proof.
  split; [reflexivity|].
  refine (proj2 (proj2 (proj1 (proj2
            (catalog_error_answers (fun s => s) unstocked_db [] (19005, 0)
               (mkHTTPException 500 "Internal Server Error")
               _)) 2) _) _); reflexivity.
Defined.

(** ** Catalog: what the product endpoints write *)

(** The database a product request leaves behind is the old one, or the old
    one with one of the writes of [create_product], [update_product] or
    [delete_product] whose checks passed. *)
Lemma create_product_request :
  forall product_in d st t,
    snd (serve (products_api.create_product product_in) d st t) = d
    \/ ((forall sku, ProductCreate.sku product_in = Some sku ->
                     sku <> ""%string -> get_product_by_sku sku d = None)
        /\ get_category (ProductCreate.category_id product_in) d <> None
        /\ snd (serve (products_api.create_product product_in) d st t)
           = snd (run (create_product product_in) d st t)).
Proof.
  intros pc d st t.
  destruct (serve (products_api.create_product pc) d st t) as [resp d'] eqn:E.
  cbn [snd]. unfold run, open_session.
  unfold serve, run, products_api.create_product, open_session, bind, query, ret
    in E.
  cbn [working] in E.
  destruct (get_category (ProductCreate.category_id pc) d) as [c|] eqn:Hc;
    [|left; cbn in E; congruence].
  destruct (create_product pc (mkSession d d st t)) as [[p|ex] s'] eqn:Ecp.
  - destruct (ProductCreate.sku pc) as [sku|] eqn:Hsku; cbn [truthy_str] in E.
    + destruct (String.eqb_spec sku "") as [->|Hne]; cbn [negb] in E.
      * rewrite Ecp in E. right. split; [|split; [discriminate|]].
        -- intros s Hs Hn. injection Hs as <-. contradiction.
        -- cbn in E |- *. congruence.
      * cbn [working] in E.
        destruct (get_product_by_sku sku d) as [e|] eqn:He;
          [left; cbn in E; congruence|].
        rewrite Ecp in E. right. split; [|split; [discriminate|]].
        -- intros s Hs _. injection Hs as <-. exact He.
        -- cbn in E |- *. congruence.
    + rewrite Ecp in E. right. split; [|split; [discriminate|]].
      * intros s Hs. discriminate Hs.
      * cbn in E |- *. congruence.
  - destruct (ProductCreate.sku pc) as [sku|] eqn:Hsku; cbn [truthy_str] in E.
    + destruct (String.eqb_spec sku "") as [->|Hne]; cbn [negb] in E.
      * rewrite Ecp in E. right. split; [|split; [discriminate|]].
        -- intros s Hs Hn. injection Hs as <-. contradiction.
        -- cbn in E |- *. congruence.
      * cbn [working] in E.
        destruct (get_product_by_sku sku d) as [e|] eqn:He;
          [left; cbn in E; congruence|].
        rewrite Ecp in E. right. split; [|split; [discriminate|]].
        -- intros s Hs _. injection Hs as <-. exact He.
        -- cbn in E |- *. congruence.
    + rewrite Ecp in E. right. split; [|split; [discriminate|]].
      * intros s Hs. discriminate Hs.
      * cbn in E |- *. congruence.
Qed.

(** ** The catalog's integrity under the endpoints *)

Lemma update_product_session :
  forall product_id u d st t p,
    get_product product_id d = Some p ->
    committed (snd (update_product product_id u (mkSession d d st t))) = d
    \/ committed (snd (update_product product_id u (mkSession d d st t)))
       = with_products
           (update (fun r => Product.id r =? Product.id p)
                   (fun _ => touch t p (fold_left setattr u p)) (products d)) d.
Proof.
  intros pid u d st t p Hp.
  unfold update_product, bind, query, func_now, modify, commit, ret.
  cbn [working committed storage now]. rewrite Hp.
  destruct st as [|[|] st]; cbn; auto.
Qed.

Lemma update_product_served :
  forall product_id u d st t p,
    get_product product_id d = Some p ->
    snd (serve (updated_product <- update_product product_id u ;;
                ret (inr updated_product)) d st t) = d
    \/ snd (serve (updated_product <- update_product product_id u ;;
                   ret (inr updated_product)) d st t)
       = with_products
           (update (fun r => Product.id r =? Product.id p)
                   (fun _ => touch t p (fold_left setattr u p)) (products d)) d.
Proof.
  intros pid u d st t p Hp.
  pose proof (update_product_session pid u d st t p Hp) as H.
  unfold serve, run, bind, ret, open_session.
  destruct (update_product pid u (mkSession d d st t)) as [[r|e] s'];
    cbn [snd] in *; exact H.
Qed.

Lemma option_eqb_string :
  forall (a b : option string), option_eqb String.eqb a b = true -> a = b.
Proof.
  intros [a|] [b|]; cbn; try discriminate; [|reflexivity].
  intros H. apply String.eqb_eq in H. congruence.
Qed.

Lemma update_product_request :
  forall product_id u d st t,
    snd (serve (products_router.update_product product_id u) d st t) = d
    \/ exists p,
         get_product product_id d = Some p
         /\ (forall cid, field_category_id u = Some cid ->
                         cid <> Product.category_id p ->
                         get_category cid d <> None)
         /\ (forall sku e, field_sku u = Some sku -> sku <> ""%string ->
                           Some sku <> Product.sku p ->
                           get_product_by_sku sku d = Some e ->
                           Product.id e = product_id)
         /\ snd (serve (products_router.update_product product_id u) d st t)
            = with_products
                (update (fun r => Product.id r =? Product.id p)
                        (fun _ => touch t p (fold_left setattr u p))
                        (products d)) d.
Proof.
  intros pid u d st t.
  unfold products_router.update_product.
  rewrite serve_query.
  destruct (get_product pid d) as [p|] eqn:Hp; [|left; reflexivity].
  assert (Hcat :
    forall cat_ok : forall cid, field_category_id u = Some cid ->
                         cid <> Product.category_id p ->
                         get_category cid d <> None,
    forall k : M (Response (option Product.t)),
    snd (serve k d st t) = d
    \/ ((forall sku e, field_sku u = Some sku -> sku <> ""%string ->
                           Some sku <> Product.sku p ->
                           get_product_by_sku sku d = Some e ->
                           Product.id e = pid)
        /\ snd (serve k d st t)
            = with_products
                (update (fun r => Product.id r =? Product.id p)
                        (fun _ => touch t p (fold_left setattr u p))
                        (products d)) d) ->
    snd (serve k d st t) = d \/
    exists p0,
      Some p = Some p0 /\
      (forall cid, field_category_id u = Some cid ->
                         cid <> Product.category_id p0 ->
                         get_category cid d <> None) /\
      (forall sku e, field_sku u = Some sku -> sku <> ""%string ->
                           Some sku <> Product.sku p0 ->
                           get_product_by_sku sku d = Some e ->
                           Product.id e = pid) /\
      snd (serve k d st t)
            = with_products
                (update (fun r => Product.id r =? Product.id p0)
                        (fun _ => touch t p0 (fold_left setattr u p0))
                        (products d)) d).
  { intros C k [H|[S H]]; [left; exact H|].
    right. exists p. repeat split; assumption. }
  assert (Hsku :
    snd (serve
           (sku_taken <-
              match field_sku u with
              | Some sku =>
                  if truthy_str (Some sku)
                     && negb (option_eqb String.eqb (Some sku) (Product.sku p))
                  then
                    existing_product_sku <- query (get_product_by_sku sku) ;;
                    ret (match existing_product_sku with
                         | Some e => negb (Product.id e =? pid)
                         | None => false
                         end)
                  else ret false
              | None => ret false
              end ;;
            if sku_taken then
              ret (inl (mkHTTPException HTTP_400_BAD_REQUEST
                          ("Product with SKU '"
                           ++ match field_sku u with
                              | Some sku => sku
                              | None => ""
                              end
                           ++ "' already exists.")%string))
            else
              updated_product <- update_product pid u ;;
              ret (inr updated_product)) d st t) = d
    \/ ((forall sku e, field_sku u = Some sku -> sku <> ""%string ->
                       Some sku <> Product.sku p ->
                       get_product_by_sku sku d = Some e ->
                       Product.id e = pid)
        /\ snd (serve
           (sku_taken <-
              match field_sku u with
              | Some sku =>
                  if truthy_str (Some sku)
                     && negb (option_eqb String.eqb (Some sku) (Product.sku p))
                  then
                    existing_product_sku <- query (get_product_by_sku sku) ;;
                    ret (match existing_product_sku with
                         | Some e => negb (Product.id e =? pid)
                         | None => false
                         end)
                  else ret false
              | None => ret false
              end ;;
            if sku_taken then
              ret (inl (mkHTTPException HTTP_400_BAD_REQUEST
                          ("Product with SKU '"
                           ++ match field_sku u with
                              | Some sku => sku
                              | None => ""
                              end
                           ++ "' already exists.")%string))
            else
              updated_product <- update_product pid u ;;
              ret (inr updated_product)) d st t)
           = with_products
                (update (fun r => Product.id r =? Product.id p)
                        (fun _ => touch t p (fold_left setattr u p))
                        (products d)) d)).
  { destruct (field_sku u) as [sku|] eqn:Hs.
    - destruct (truthy_str (Some sku)
                && negb (option_eqb String.eqb (Some sku) (Product.sku p)))
        eqn:Ht.
      + rewrite serve_query_ret.
        destruct (get_product_by_sku sku d) as [e|] eqn:He.
        * destruct (Z.eqb_spec (Product.id e) pid) as [Hid|Hid]; cbn [negb];
            [|left; reflexivity].
          destruct (update_product_served pid u d st t p Hp) as [H|H];
            [left; exact H|right; split; [|exact H]].
          intros sku' e' Hsku' _ _ He'. congruence.
        * destruct (update_product_served pid u d st t p Hp) as [H|H];
            [left; exact H|right; split; [|exact H]].
          intros sku' e' Hsku' _ _ He'. congruence.
      + rewrite serve_ret.
        destruct (update_product_served pid u d st t p Hp) as [H|H];
          [left; exact H|right; split; [|exact H]].
        intros sku' e' Hsku' Hne Hdiff _. injection Hsku' as <-.
        apply andb_false_iff in Ht. destruct Ht as [Ht|Ht].
        * cbn in Ht. apply negb_false_iff, String.eqb_eq in Ht. contradiction.
        * apply negb_false_iff, option_eqb_string in Ht. contradiction.
    - rewrite serve_ret.
      destruct (update_product_served pid u d st t p Hp) as [H|H];
        [left; exact H|right; split; [|exact H]].
      intros sku' e' Hsku'. discriminate Hsku'. }
  destruct (field_category_id u) as [cid|] eqn:Hf.
  - destruct (Z.eqb_spec cid (Product.category_id p)) as [Heq|Hne];
      cbn [negb].
    + rewrite serve_ret. apply Hcat; [|exact Hsku].
      intros c Hc Hn. injection Hc as <-. contradiction.
    + rewrite serve_query_ret.
      destruct (get_category cid d) as [c|] eqn:Hc; [|left; reflexivity].
      apply Hcat; [|exact Hsku].
      intros c' Hc' _. injection Hc' as <-. rewrite Hc. discriminate.
  - rewrite serve_ret. apply Hcat; [|exact Hsku].
    intros c Hc. discriminate Hc.
Qed.


Lemma setattr_id :
  forall u p, Product.id (fold_left setattr u p) = Product.id p.
Proof.
  induction u as [|f u IH]; intros p; [reflexivity|].
  cbn [fold_left]. rewrite IH. destruct f; reflexivity.
Qed.

Lemma setattr_sku_from :
  forall u p acc,
    (Product.sku (fold_left setattr u p) = Product.sku p
     /\ fold_left (fun acc f => match f with set_sku v => v | _ => acc end) u acc
        = acc)
    \/ Product.sku (fold_left setattr u p)
       = fold_left (fun acc f => match f with set_sku v => v | _ => acc end)
                   u acc.
Proof.
  induction u as [|f u IH]; intros p acc; [left; split; reflexivity|].
  cbn [fold_left].
  destruct (IH (setattr p f) (match f with set_sku v => v | _ => acc end))
    as [[H1 H2]|H]; [|right; exact H].
  destruct f; cbn [setattr Product.sku] in H1;
    try (left; split; assumption).
  right. exact (eq_trans H1 (eq_sym H2)).
Qed.

Lemma setattr_sku :
  forall u p,
    Product.sku (fold_left setattr u p) = Product.sku p
    \/ Product.sku (fold_left setattr u p) = field_sku u.
Proof.
  intros u p. destruct (setattr_sku_from u p None) as [[H _]|H];
    [left|right]; exact H.
Qed.

Lemma touch_id :
  forall t p u, Product.id (touch t p (fold_left setattr u p)) = Product.id p.
Proof.
  intros t p u. unfold touch.
  destruct (Product.same_columns p (fold_left setattr u p)); [reflexivity|].
  apply setattr_id.
Qed.

Lemma touch_sku :
  forall t old new, Product.sku (touch t old new) = Product.sku new.
Proof.
  intros t old new. unfold touch.
  destruct (Product.same_columns old new) eqn:E; [|reflexivity].
  unfold Product.same_columns in E.
  apply andb_true_iff in E. destruct E as [_ E].
  apply option_eqb_string, E.
Qed.

Lemma delete_product_request :
  forall product_id d st t,
    categories (snd (serve (products_router.delete_product product_id) d st t))
    = categories d
    /\ forall r,
         In r (rows (products
                 (snd (serve (products_router.delete_product product_id)
                             d st t)))) ->
         In r (rows (products d)).
Proof.
  intros pid d st t. unfold products_router.delete_product.
  rewrite serve_query.
  destruct (get_product pid d) as [p|] eqn:Hp; [|split; [reflexivity|auto]].
  unfold serve, run, delete_product, open_session, bind, query, modify,
    try_except, commit, rollback, ret.
  cbn [working committed storage now]. rewrite Hp.
  cbn [working committed storage now].
  destruct (get_inventory_by_product_id pid d) as [inv|];
    destruct st as [|[|] st]; cbn; (split; [reflexivity|]); auto;
    intros r Hr; apply filter_In in Hr; tauto.
Qed.

Lemma get_product_by_sku_some :
  forall sku d r,
    In r (rows (products d)) -> Product.sku r = Some sku ->
    exists e, get_product_by_sku sku d = Some e
              /\ In e (rows (products d)) /\ Product.sku e = Some sku.
Proof.
  intros sku d r Hin Hsku. unfold get_product_by_sku.
  destruct (find _ (rows (products d))) as [e|] eqn:E.
  - exists e. apply find_some in E. destruct E as [He E].
    apply option_eqb_string in E. auto.
  - exfalso. apply (find_none _ _ E) in Hin. rewrite Hsku in Hin. cbn in Hin.
    rewrite String.eqb_refl in Hin. discriminate.
Qed.

Lemma sku_unique_appended :
  forall d d' p,
    sku_unique d ->
    rows (products d') = rows (products d) ++ [p] ->
    (forall sku, Product.sku p = Some sku -> sku <> ""%string ->
                 get_product_by_sku sku d = None) ->
    sku_unique d'.
Proof.
  intros d d' p Hd Hrows Hfree p1 p2 H1 H2 Ht Heq.
  rewrite Hrows in H1, H2. apply in_app_iff in H1, H2.
  assert (Hclash : forall r q, In r (rows (products d)) ->
                     truthy_str (Product.sku q) = true ->
                     Product.sku q = Product.sku p ->
                     Product.sku r = Product.sku q -> False).
  { intros r q Hr Hq Hqp Hrq.
    destruct (Product.sku q) as [sku|] eqn:Hs; [|discriminate Hq].
    cbn in Hq. apply negb_true_iff, String.eqb_neq in Hq.
    destruct (get_product_by_sku_some sku d r Hr Hrq) as [e [He _]].
    rewrite (Hfree sku (eq_sym Hqp) Hq) in He. discriminate. }
  destruct H1 as [H1|[<-|[]]], H2 as [H2|[<-|[]]].
  - apply Hd; assumption.
  - exfalso. apply (Hclash p1 p1 H1 Ht Heq eq_refl).
  - exfalso. rewrite Heq in Ht. apply (Hclash p2 p2 H2 Ht (eq_sym Heq) eq_refl).
  - reflexivity.
Qed.

Lemma sku_unique_updated :
  forall d p p',
    sku_unique d ->
    In p (rows (products d)) ->
    Product.id p' = Product.id p ->
    (Product.sku p' = Product.sku p
     \/ forall sku e, Product.sku p' = Some sku -> sku <> ""%string ->
                      get_product_by_sku sku d = Some e ->
                      Product.id e = Product.id p) ->
    sku_unique
      (with_products
         (update (fun r => Product.id r =? Product.id p) (fun _ => p')
                 (products d)) d).
Proof.
  intros d p p' Hd Hp Hid Hsku.
  assert (Hother : forall r, In r (rows (products d)) ->
                     truthy_str (Product.sku p') = true ->
                     Product.sku r = Product.sku p' ->
                     Product.id r = Product.id p).
  { intros r Hr Ht Heq. destruct Hsku as [Hsame|Hnew].
    - apply Hd; try assumption; congruence.
    - destruct (Product.sku p') as [sku|] eqn:Hs; [|discriminate Ht].
      cbn in Ht. apply negb_true_iff, String.eqb_neq in Ht.
      destruct (get_product_by_sku_some sku d r Hr Heq) as [e [He [Hin Hes]]].
      rewrite <- (Hnew sku e eq_refl Ht He).
      apply Hd; try assumption; [|congruence].
      rewrite Heq. cbn. apply negb_true_iff, String.eqb_neq, Ht. }
  intros p1 p2 H1 H2 Ht Heq.
  unfold with_products, update in H1, H2. cbn [products rows] in H1, H2.
  apply in_map_iff in H1, H2.
  destruct H1 as [r1 [E1 H1]], H2 as [r2 [E2 H2]].
  destruct (Z.eqb_spec (Product.id r1) (Product.id p)) as [I1|I1],
           (Z.eqb_spec (Product.id r2) (Product.id p)) as [I2|I2];
    subst p1 p2.
  - reflexivity.
  - rewrite Hid. symmetry. apply Hother; [assumption| |congruence].
    exact Ht.
  - rewrite Hid. apply Hother; [assumption| |congruence].
    rewrite <- Heq. exact Ht.
  - apply Hd; assumption.
Qed.

Lemma option_eqb_string_refl :
  forall a : option string, option_eqb String.eqb a a = true.
Proof. intros [a|]; cbn; [apply String.eqb_refl | reflexivity]. Qed.

Lemma get_product_found :
  forall product_id d p,
    get_product product_id d = Some p ->
    In p (rows (products d)) /\ Product.id p = product_id.
Proof.
  intros pid d p H. apply find_some in H. destruct H as [Hin H].
  apply Z.eqb_eq in H. auto.
Qed.

(** X14.  SKUs stay unique.  When no two products share a non-empty SKU, no
    request to the endpoints that create, update or delete a product, whatever
    its arguments and whether or not the storage accepts its commits, leaves
    two products with the same non-empty SKU: the endpoints' own checks are
    enough, without a uniqueness constraint of the storage. *)
Theorem sku_stays_unique :
  forall d d', sku_unique d -> product_request d d' -> sku_unique d'.
Proof.
  intros d d' Hd Hreq.
  destruct Hreq as [d product_in st t|d pid u st t|d pid st t].
  - destruct (create_product_request product_in d st t) as [->|[Hfree [_ ->]]];
      [exact Hd|].
    rewrite create_product_run.
    assert (H1 : sku_unique (product_inserted product_in t d))
      by (apply (sku_unique_appended d _ (new_product product_in t d) Hd);
          [reflexivity | exact Hfree]).
    assert (H2 : sku_unique (product_written product_in t d))
      by (apply (sku_unique_appended d _ (new_product product_in t d) Hd);
          [reflexivity | exact Hfree]).
    destruct st as [|[|] [|[|] st]]; cbn [snd]; assumption.
  - destruct (update_product_request pid u d st t)
      as [->|[p [Hp [_ [Hsku ->]]]]]; [exact Hd|].
    destruct (get_product_found pid d p Hp) as [Hin Hid].
    apply sku_unique_updated; [exact Hd | exact Hin | apply touch_id |].
    rewrite touch_sku.
    destruct (setattr_sku u p) as [H|H]; [left; exact H|].
    destruct (option_eqb String.eqb (field_sku u) (Product.sku p)) eqn:E.
    + left. rewrite H. apply option_eqb_string, E.
    + right. intros sku e Hs Hne He. rewrite Hid.
      rewrite H in Hs. apply (Hsku sku e Hs Hne); [|exact He].
      intros Heq. rewrite Hs, Heq, option_eqb_string_refl in E. discriminate.
  - destruct (delete_product_request pid d st t) as [_ Hsub].
    intros p1 p2 H1 H2. apply Hd; apply Hsub; assumption.
Qed.

Lemma sku_stays_unique_witness :
  fst (serve (products_router.update_product 2 [set_sku (Some "W-1"%string)])
             labelled_db [] (19001, 0))
  = inl (mkHTTPException 400 "Product with SKU 'W-1' already exists.")
  /\ sku_unique
       (snd (serve (products_router.update_product 2
                      [set_sku (Some "W-1"%string)])
                   labelled_db [] (19001, 0)))
  /\ option_map Product.sku
       (get_product 2
          (snd (serve (products_router.update_product 2
                         [set_sku (Some "G-3"%string)])
                      labelled_db [] (19001, 0))))
     = Some (Some "G-3"%string)
  /\ sku_unique
       (snd (serve (products_router.update_product 2
                      [set_sku (Some "G-3"%string)])
                   labelled_db [] (19001, 0))).
Proof.
  assert (H : sku_unique labelled_db).
  { intros p1 p2 H1 H2 _ Heq. cbn in H1, H2.
    destruct H1 as [<-|[<-|[]]], H2 as [<-|[<-|[]]];
      first [reflexivity | discriminate Heq]. }
  split; [reflexivity|].
  split; [apply (sku_stays_unique labelled_db _ H), request_update_product|].
  split; [reflexivity|].
  apply (sku_stays_unique labelled_db _ H), request_update_product.
Defined.

Lemma create_category_request :
  forall lower category_in d st t,
    snd (serve (categories_api.create_category lower category_in) d st t) = d
    \/ (get_category_by_name lower (CategoryCreate.name category_in) d = None
        /\ snd (serve (categories_api.create_category lower category_in) d st t)
           = with_categories
               (mkTable
                  (rows (categories d)
                   ++ [Category.mk (next_id (categories d))
                         (CategoryCreate.name category_in)
                         (CategoryCreate.description category_in)])
                  (next_id (categories d) + 1)) d).
Proof.
  intros lower cin d st t. unfold categories_api.create_category.
  rewrite serve_query.
  destruct (get_category_by_name lower (CategoryCreate.name cin) d) as [c|];
    [left; reflexivity|].
  destruct st as [|[|] st]; [right|right|left]; (split || idtac); reflexivity.
Qed.

Lemma update_category_request :
  forall lower category_id u d st t,
    snd (serve (categories_api.update_category lower category_id u) d st t) = d
    \/ exists c,
         get_category category_id d = Some c
         /\ (forall name e, field_name u = Some name -> name <> ""%string ->
                            name <> Category.name c ->
                            get_category_by_name lower name d = Some e ->
                            Category.id e = category_id)
         /\ snd (serve (categories_api.update_category lower category_id u)
                       d st t)
            = with_categories
                (update (fun r => Category.id r =? Category.id c)
                        (fun _ => fold_left set_category_attr u c)
                        (categories d)) d.
Proof.
  intros lower cid u d st t. unfold categories_api.update_category.
  rewrite serve_query.
  destruct (get_category cid d) as [c|] eqn:Hc; [|left; reflexivity].
  assert (Hwrite :
    snd (serve (updated_category <- update_category cid u ;;
                ret (inr updated_category)) d st t) = d
    \/ snd (serve (updated_category <- update_category cid u ;;
                   ret (inr updated_category)) d st t)
       = with_categories
           (update (fun r => Category.id r =? Category.id c)
                   (fun _ => fold_left set_category_attr u c)
                   (categories d)) d).
  { unfold serve, run, update_category, open_session, bind, query, modify,
      commit, ret.
    cbn [working committed storage now]. rewrite Hc.
    destruct st as [|[|] st]; cbn; auto. }
  assert (Hdone :
    forall k : M (Response (option Category.t)),
      (forall name e, field_name u = Some name -> name <> ""%string ->
                      name <> Category.name c ->
                      get_category_by_name lower name d = Some e ->
                      Category.id e = cid) ->
      snd (serve k d st t) = d
      \/ snd (serve k d st t)
         = with_categories
             (update (fun r => Category.id r =? Category.id c)
                     (fun _ => fold_left set_category_attr u c)
                     (categories d)) d ->
      snd (serve k d st t) = d
      \/ exists c0,
           Some c = Some c0
           /\ (forall name e, field_name u = Some name -> name <> ""%string ->
                              name <> Category.name c0 ->
                              get_category_by_name lower name d = Some e ->
                              Category.id e = cid)
           /\ snd (serve k d st t)
              = with_categories
                  (update (fun r => Category.id r =? Category.id c0)
                          (fun _ => fold_left set_category_attr u c0)
                          (categories d)) d).
  { intros k N [H|H]; [left; exact H|].
    right. exists c. repeat split; assumption. }
  destruct (field_name u) as [name|] eqn:Hf.
  - destruct (truthy_str (Some name) && negb (String.eqb name (Category.name c)))
      eqn:Ht.
    + rewrite serve_query_ret.
      destruct (get_category_by_name lower name d) as [e|] eqn:He.
      * destruct (Z.eqb_spec (Category.id e) cid) as [Hid|Hid]; cbn [negb];
          [|left; reflexivity].
        apply Hdone; [|exact Hwrite].
        intros name' e' Hn _ _ He'. congruence.
      * apply Hdone; [|exact Hwrite].
        intros name' e' Hn _ _ He'. congruence.
    + rewrite serve_ret. apply Hdone; [|exact Hwrite].
      intros name' e' Hn Hne Hdiff _. injection Hn as <-.
      apply andb_false_iff in Ht. destruct Ht as [Ht|Ht].
      * cbn in Ht. apply negb_false_iff, String.eqb_eq in Ht. contradiction.
      * apply negb_false_iff, String.eqb_eq in Ht. contradiction.
  - rewrite serve_ret. apply Hdone; [|exact Hwrite].
    intros name' e' Hn. discriminate Hn.
Qed.

Lemma delete_category_request :
  forall category_id d st t,
    snd (serve (categories_api.delete_category category_id) d st t) = d
    \/ exists c,
         get_category category_id d = Some c
         /\ find (fun p => Product.category_id p =? category_id)
                 (rows (products d)) = None
         /\ snd (serve (categories_api.delete_category category_id) d st t)
            = with_categories
                (delete_rows (fun r => Category.id r =? Category.id c)
                             (categories d)) d.
Proof.
  intros cid d st t. unfold categories_api.delete_category.
  rewrite serve_query.
  destruct (find _ (rows (products d))) as [p|] eqn:Hp; [left; reflexivity|].
  unfold serve, run, delete_category, open_session, bind, query, modify,
    commit, ret.
  cbn [working committed storage now].
  destruct (get_category cid d) as [c|] eqn:Hc; [|left; reflexivity].
  destruct st as [|[|] st]; cbn; [right|right|left; reflexivity];
    exists c; repeat split; reflexivity.
Qed.

Lemma set_category_attr_id :
  forall u c, Category.id (fold_left set_category_attr u c) = Category.id c.
Proof.
  induction u as [|f u IH]; intros c; [reflexivity|].
  cbn [fold_left]. rewrite IH. destruct f; reflexivity.
Qed.

Lemma set_category_attr_name_from :
  forall u c acc,
    (Category.name (fold_left set_category_attr u c) = Category.name c
     /\ fold_left
          (fun acc f => match f with set_category_name v => Some v | _ => acc end)
          u acc = acc)
    \/ fold_left
         (fun acc f => match f with set_category_name v => Some v | _ => acc end)
         u acc
       = Some (Category.name (fold_left set_category_attr u c)).
Proof.
  induction u as [|f u IH]; intros c acc; [left; split; reflexivity|].
  cbn [fold_left].
  destruct (IH (set_category_attr c f)
               (match f with set_category_name v => Some v | _ => acc end))
    as [[H1 H2]|H]; [|right; exact H].
  destruct f; cbn [set_category_attr Category.name] in H1;
    try (left; split; assumption).
  right. rewrite H2. f_equal. symmetry. exact H1.
Qed.

Lemma set_category_attr_name :
  forall u c,
    Category.name (fold_left set_category_attr u c) = Category.name c
    \/ field_name u = Some (Category.name (fold_left set_category_attr u c)).
Proof.
  intros u c. destruct (set_category_attr_name_from u c None) as [[H _]|H];
    [left|right]; exact H.
Qed.

Lemma get_category_found :
  forall category_id d c,
    get_category category_id d = Some c ->
    In c (rows (categories d)) /\ Category.id c = category_id.
Proof.
  intros cid d c H. apply find_some in H. destruct H as [Hin H].
  apply Z.eqb_eq in H. auto.
Qed.

Lemma get_category_by_name_some :
  forall lower name d r,
    In r (rows (categories d)) -> lower (Category.name r) = lower name ->
    exists e, get_category_by_name lower name d = Some e
              /\ In e (rows (categories d))
              /\ lower (Category.name e) = lower name.
Proof.
  intros lower name d r Hin Hname. unfold get_category_by_name.
  destruct (find _ (rows (categories d))) as [e|] eqn:E.
  - exists e. apply find_some in E. destruct E as [He E].
    apply String.eqb_eq in E. auto.
  - exfalso. apply (find_none _ _ E) in Hin. rewrite Hname in Hin.
    rewrite String.eqb_refl in Hin. discriminate.
Qed.

(** X15.  Category names stay unique up to case.  For a LOWER function that
    maps only the empty string to the lower-case empty string: when no two
    categories with non-empty names share a name up to case, no request to
    the endpoints that create, update or delete a category leaves two such
    categories, whatever its arguments and whatever the storage does with
    its commit. *)
Theorem category_names_stay_unique :
  forall lower d d',
    (forall s, lower s = lower ""%string -> s = ""%string) ->
    category_names_unique lower d ->
    category_request lower d d' ->
    category_names_unique lower d'.
Proof.
  intros lower d d' Hlower Hd Hreq.
  destruct Hreq as [d cin st t|d cid u st t|d cid st t].
  - destruct (create_category_request lower cin d st t) as [->|[Hfree ->]];
      [exact Hd|].
    assert (Hclash : forall r, In r (rows (categories d)) ->
                       lower (Category.name r) = lower (CategoryCreate.name cin) ->
                       False).
    { intros r Hr Hname.
      destruct (get_category_by_name_some lower _ d r Hr Hname) as [e [He _]].
      rewrite Hfree in He. discriminate. }
    intros c1 c2 H1 H2 N1 N2 Heq.
    cbn [with_categories categories rows] in H1, H2.
    apply in_app_iff in H1, H2.
    destruct H1 as [H1|[<-|[]]], H2 as [H2|[<-|[]]].
    + apply Hd; assumption.
    + exfalso. apply (Hclash c1 H1). exact Heq.
    + exfalso. apply (Hclash c2 H2). symmetry. exact Heq.
    + reflexivity.
  - destruct (update_category_request lower cid u d st t)
      as [->|[c [Hc [Hname ->]]]]; [exact Hd|].
    destruct (get_category_found cid d c Hc) as [Hin Hid].
    set (c' := fold_left set_category_attr u c).
    assert (Hid' : Category.id c' = Category.id c)
      by apply set_category_attr_id.
    assert (Hother : forall r, In r (rows (categories d)) ->
                       Category.name c' <> ""%string ->
                       Category.name r <> ""%string ->
                       lower (Category.name r) = lower (Category.name c') ->
                       Category.id r = Category.id c).
    { intros r Hr N' Nr Heq.
      destruct (string_dec (Category.name c') (Category.name c)) as [Hsame|Hdiff].
      - rewrite Hsame in *. apply Hd; assumption.
      - destruct (set_category_attr_name u c) as [H|H]; [contradiction|].
        fold c' in H.
        destruct (get_category_by_name_some lower _ d r Hr Heq)
          as [e [He [Hine Hle]]].
        rewrite Hid, <- (Hname _ e H N' Hdiff He).
        apply Hd; try assumption; [|congruence].
        intros Hempty. apply N', Hlower. rewrite <- Hle, Hempty. reflexivity. }
    intros c1 c2 H1 H2 N1 N2 Heq.
    cbn [with_categories categories rows update] in H1, H2.
    apply in_map_iff in H1, H2.
    destruct H1 as [r1 [E1 H1]], H2 as [r2 [E2 H2]].
    destruct (Z.eqb_spec (Category.id r1) (Category.id c)) as [I1|I1],
             (Z.eqb_spec (Category.id r2) (Category.id c)) as [I2|I2];
      subst c1 c2.
    + reflexivity.
    + rewrite Hid'. symmetry. apply Hother; auto.
    + rewrite Hid'. apply Hother; auto.
    + apply Hd; assumption.
  - destruct (delete_category_request cid d st t) as [->|[c [_ [_ ->]]]];
      [exact Hd|].
    intros c1 c2 H1 H2.
    cbn [with_categories categories rows delete_rows] in H1, H2.
    apply filter_In in H1, H2. apply Hd; tauto.
Qed.

Lemma category_names_stay_unique_witness :
  category_names_unique (fun s => s)
    (snd (serve (categories_api.create_category (fun s => s)
                   (CategoryCreate.mk "Toys" None))
                catalog_db [] (19000, 0))).
Proof.
  apply (category_names_stay_unique (fun s => s) catalog_db).
  - intros s H. exact H.
  - intros c1 c2 H1 H2 _ _ _. vm_compute in H1, H2.
    destruct H1 as [<-|[]], H2 as [<-|[]]. reflexivity.
  - apply request_create_category.
Defined.

Lemma setattr_category_from :
  forall u p acc,
    (Product.category_id (fold_left setattr u p) = Product.category_id p
     /\ fold_left
          (fun acc f => match f with set_category_id v => Some v | _ => acc end)
          u acc = acc)
    \/ fold_left
         (fun acc f => match f with set_category_id v => Some v | _ => acc end)
         u acc
       = Some (Product.category_id (fold_left setattr u p)).
Proof.
  induction u as [|f u IH]; intros p acc; [left; split; reflexivity|].
  cbn [fold_left].
  destruct (IH (setattr p f)
               (match f with set_category_id v => Some v | _ => acc end))
    as [[H1 H2]|H]; [|right; exact H].
  destruct f; cbn [setattr Product.category_id] in H1;
    try (left; split; assumption).
  right. rewrite H2. f_equal. symmetry. exact H1.
Qed.

Lemma setattr_category :
  forall u p,
    Product.category_id (fold_left setattr u p) = Product.category_id p
    \/ field_category_id u
       = Some (Product.category_id (fold_left setattr u p)).
Proof.
  intros u p. destruct (setattr_category_from u p None) as [[H _]|H];
    [left|right]; exact H.
Qed.

Lemma touch_category :
  forall t old new,
    Product.category_id (touch t old new) = Product.category_id new.
Proof.
  intros t old new. unfold touch.
  destruct (Product.same_columns old new) eqn:E; [|reflexivity].
  unfold Product.same_columns in E.
  apply andb_true_iff in E. destruct E as [E _].
  apply andb_true_iff in E. destruct E as [_ E].
  apply Z.eqb_eq, E.
Qed.

(** X16.  Every product keeps a category.  When every product's category
    exists, it still does after any request to the endpoints that create,
    update or delete a product or a category, whatever the arguments and
    whatever the storage does with the commits: the endpoints' own checks
    keep the reference intact. *)
Theorem products_keep_category :
  forall lower d d',
    products_have_category d ->
    product_request d d' \/ category_request lower d d' ->
    products_have_category d'.
Proof.
  intros lower d d' Hd [Hreq|Hreq].
  - destruct Hreq as [d product_in st t|d pid u st t|d pid st t].
    + destruct (create_product_request product_in d st t) as [->|[_ [Hcat ->]]];
        [exact Hd|].
      rewrite create_product_run.
      assert (Hnew : forall d1,
                categories d1 = categories d ->
                rows (products d1)
                = rows (products d) ++ [new_product product_in t d] ->
                products_have_category d1).
      { intros d1 Hc Hrows q Hq. unfold get_category. rewrite Hc.
        rewrite Hrows in Hq. apply in_app_iff in Hq.
        destruct Hq as [Hq|[<-|[]]]; [apply Hd, Hq | exact Hcat]. }
      destruct st as [|[|] [|[|] st]]; cbn [snd];
        try exact Hd; apply Hnew; reflexivity.
    + destruct (update_product_request pid u d st t)
        as [->|[p [Hp [Hcat [_ ->]]]]]; [exact Hd|].
      destruct (get_product_found pid d p Hp) as [Hin _].
      intros q Hq. cbn [with_products products rows update] in Hq.
      apply in_map_iff in Hq. destruct Hq as [r [E Hr]].
      change (get_category (Product.category_id q) d <> None).
      destruct (Product.id r =? Product.id p); subst q; [|apply Hd, Hr].
      rewrite touch_category.
      destruct (setattr_category u p) as [H|H]; [rewrite H; apply Hd, Hin|].
      destruct (Z.eq_dec (Product.category_id (fold_left setattr u p))
                         (Product.category_id p)) as [Hsame|Hdiff];
        [rewrite Hsame; apply Hd, Hin|].
      apply (Hcat _ H Hdiff).
    + destruct (delete_product_request pid d st t) as [Hc Hsub].
      intros q Hq. unfold get_category. rewrite Hc. apply Hd, Hsub, Hq.
  - destruct Hreq as [d cin st t|d cid u st t|d cid st t].
    + destruct (create_category_request lower cin d st t) as [->|[_ ->]];
        [exact Hd|].
      intros q Hq. specialize (Hd q Hq). unfold get_category in *.
      cbn [with_categories categories rows]. rewrite find_snoc.
      destruct (find _ (rows (categories d))); [discriminate|contradiction].
    + destruct (update_category_request lower cid u d st t)
        as [->|[c [Hc [_ ->]]]]; [exact Hd|].
      intros q Hq. specialize (Hd q Hq). unfold get_category in *.
      cbn [with_categories categories rows update].
      destruct (find _ (rows (categories d))) as [e|] eqn:E; [|contradiction].
      apply find_some in E. destruct E as [Hin E].
      intros Hnone.
      assert (Hf := find_none _ _ Hnone
                      (if Category.id e =? Category.id c
                       then fold_left set_category_attr u c else e)
                      (in_map _ _ e Hin)).
      cbv beta in Hf.
      destruct (Z.eqb_spec (Category.id e) (Category.id c)) as [I|I];
        [rewrite set_category_attr_id, <- I in Hf|]; congruence.
    + destruct (delete_category_request cid d st t)
        as [->|[c [Hc [Hfree ->]]]]; [exact Hd|].
      destruct (get_category_found cid d c Hc) as [_ Hid].
      intros q Hq. specialize (Hd q Hq). unfold get_category in *.
      cbn [with_categories categories rows delete_rows products] in *.
      rewrite find_filter_kept; [exact Hd|].
      intros r _ Hr. apply Z.eqb_eq in Hr. apply Z.eqb_neq.
      intros Heq. apply (find_none _ _ Hfree) in Hq.
      apply Z.eqb_neq in Hq. congruence.
Qed.

Lemma products_keep_category_witness :
  products_have_category
    (snd (serve (categories_api.delete_category 1) stocked_db [] (19001, 0))).
Proof.
  apply (products_keep_category (fun s => s) stocked_db).
  - intros q Hq. vm_compute in Hq. destruct Hq as [<-|[]].
    vm_compute. discriminate.
  - right. apply request_delete_category.
Defined.

(** A [commit_order] that returns has just committed: nothing is pending. *)
Lemma commit_order_synced :
  forall order_data validated d st t o s,
    commit_order order_data validated (open_session d st t) = (Return o, s) ->
    working s = committed s.
Proof.
  intros od [[total infos] updates] d st t o s.
  unfold commit_order, open_session.
  destruct st as [|[|] st];
    cbn [bind func_now add insert commit working committed storage now];
    try discriminate;
    (erewrite bind_Return by apply add_order_items_effect);
    (erewrite bind_Return by apply deduct_inventory_effect);
    cbn [Order.id working committed storage now];
    try (destruct st as [|[|] st]);
    cbn [bind commit ret working committed storage now];
    try discriminate; intros H; injection H as _ <-; reflexivity.
Qed.

Lemma create_order_synced :
  forall order_data d st t o s,
    create_order order_data (open_session d st t) = (Return o, s) ->
    working s = committed s.
Proof.
  intros od d st t o s. unfold create_order, bind.
  pose proof (validate_items_session (OrderCreate.items od) (0, [], [])
                (open_session d st t)) as Hs.
  destruct (validate_items _ _ _) as [[validated|e] s']; cbn [snd] in Hs;
    subst s'; [|discriminate].
  apply commit_order_synced.
Qed.

(** X17.  Reading an order back.  Whenever the order endpoint answers a
    creation with the order's details, a later [read_order] of that order's
    id on the resulting database answers with the very same details (the
    order row, its lines, and the product found for each line), and
    changes nothing. *)
Theorem read_order_round_trip :
  forall order_in d st t details d' st' t',
    serve (orders_api.create_order order_in) d st t = (inr details, d') ->
    serve (orders_router.read_order (Order.id (orders_api.order details)))
          d' st' t'
    = (inr details, d').
Proof.
  intros od d st t details d' st' t'.
  unfold serve at 1, run, orders_api.create_order, try_except, bind at 1.
  destruct (create_order od (open_session d st t)) as [[o|e] s] eqn:Ec.
  - apply create_order_synced in Ec.
    destruct s as [committed_db working_db storage_left now_t].
    cbn [working committed] in Ec. subst working_db.
    unfold bind, query, ret. cbn [working committed].
    destruct (get_order (Order.id o) committed_db) as [o'|] eqn:Eo;
      cbn [fst snd]; [|discriminate].
    intros H. injection H as <- <-.
    assert (Hid : Order.id o' = Order.id o).
    { unfold get_order in Eo. apply find_some in Eo. apply Z.eqb_eq, Eo. }
    rewrite <- Hid in Eo.
    unfold serve, run, orders_router.read_order, open_session, bind, query, ret.
    cbn [working committed orders_api.order]. rewrite Eo. reflexivity.
  - destruct e; cbn; discriminate.
Qed.

Lemma read_order_round_trip_witness :
  exists details,
    serve (orders_api.create_order eight_widgets) stocked_db [] (19010, 0)
    = (inr details, sold_db)
    /\ serve (orders_router.read_order 1) sold_db [] (19011, 0)
       = (inr details, sold_db).
Proof.
  eexists. split; [vm_compute; reflexivity|].
  exact (read_order_round_trip eight_widgets stocked_db [] (19010, 0) _ sold_db
           [] (19011, 0) eq_refl).
Defined.

(** ** The stock listing *)

Lemma insert_by_product_id_In :
  forall x y l, In y (insert_by_product_id x l) <-> y = x \/ In y l.
Proof.
  intros x y l. induction l as [|z l IH]; simpl.
  - split; intros [H|H]; auto.
  - destruct (Inventory.product_id x <=? Inventory.product_id z); simpl.
    + split; intros [H|H]; auto.
    + rewrite IH. split; intros [H|[H|H]]; auto.
Qed.

Lemma order_by_product_id_In :
  forall y l, In y (order_by_product_id l) <-> In y l.
Proof.
  intros y l. induction l as [|x l IH]; simpl; [reflexivity|].
  rewrite insert_by_product_id_In, IH. split; intros [H|H]; auto.
Qed.

Lemma insert_by_product_id_length :
  forall x l, List.length (insert_by_product_id x l) = S (List.length l).
Proof.
  intros x l. induction l as [|z l IH]; simpl; [reflexivity|].
  destruct (_ <=? _); simpl; [reflexivity | now rewrite IH].
Qed.

Lemma order_by_product_id_length :
  forall l, List.length (order_by_product_id l) = List.length l.
Proof.
  induction l as [|x l IH]; simpl; [reflexivity|].
  now rewrite insert_by_product_id_length, IH.
Qed.

Lemma insert_by_product_id_sorted :
  forall x l,
    StronglySorted (fun a b => Inventory.product_id a <= Inventory.product_id b) l ->
    StronglySorted (fun a b => Inventory.product_id a <= Inventory.product_id b)
                   (insert_by_product_id x l).
Proof.
  intros x l H. induction H as [|z l Hs IH Hz]; simpl.
  - constructor; constructor.
  - destruct (Z.leb_spec (Inventory.product_id x) (Inventory.product_id z))
      as [Hle|Hgt].
    + constructor; [constructor; assumption|].
      constructor; [exact Hle|].
      rewrite Forall_forall in *. intros b Hb. specialize (Hz b Hb). lia.
    + constructor; [exact IH|].
      rewrite Forall_forall in *. intros b Hb.
      apply insert_by_product_id_In in Hb. destruct Hb as [->|Hb];
        [lia | apply Hz, Hb].
Qed.

Lemma order_by_product_id_sorted :
  forall l,
    StronglySorted (fun a b => Inventory.product_id a <= Inventory.product_id b)
                   (order_by_product_id l).
Proof.
  induction l as [|x l IH]; simpl; [constructor|].
  apply insert_by_product_id_sorted, IH.
Qed.

Lemma In_firstn :
  forall (A : Type) n (l : list A) x, In x (firstn n l) -> In x l.
Proof.
  intros A n l x H. rewrite <- (firstn_skipn n l). apply in_or_app. now left.
Qed.

Lemma In_skipn :
  forall (A : Type) n (l : list A) x, In x (skipn n l) -> In x l.
Proof.
  intros A n l x H. rewrite <- (firstn_skipn n l). apply in_or_app. now right.
Qed.

Lemma offset_limit_In :
  forall (A : Type) offset limit (l : list A) x,
    In x (offset_limit offset limit l) -> In x l.
Proof.
  intros A offset limit l x H. unfold offset_limit in H.
  apply In_firstn, In_skipn in H. exact H.
Qed.

Lemma StronglySorted_skipn :
  forall (A : Type) (R : A -> A -> Prop) n (l : list A),
    StronglySorted R l -> StronglySorted R (skipn n l).
Proof.
  intros A R n. induction n as [|n IH]; intros l H; [exact H|].
  destruct l as [|a l]; [constructor|]. simpl. apply IH.
  inversion H; assumption.
Qed.

Lemma StronglySorted_firstn :
  forall (A : Type) (R : A -> A -> Prop) n (l : list A),
    StronglySorted R l -> StronglySorted R (firstn n l).
Proof.
  intros A R n. induction n as [|n IH]; intros l H; [constructor|].
  destruct l as [|a l]; [constructor|]. simpl.
  inversion H as [|a' l' Hs Ha]; subst. constructor; [apply IH, Hs|].
  rewrite Forall_forall in *. intros b Hb. apply Ha. apply (In_firstn _ _ _ _ Hb).
Qed.

Lemma inventory_status_query_In :
  forall low_stock product_id category_id d i,
    In i (inventory_status_query low_stock product_id category_id d)
    <-> In i (rows (inventory d))
        /\ (exists p,
              get_product (Inventory.product_id i) d = Some p
              /\ forall cid, category_id = Some cid ->
                             Product.category_id p = cid)
        /\ (forall pid, product_id = Some pid -> Inventory.product_id i = pid)
        /\ (low_stock = Some true ->
            Inventory.quantity i <= Inventory.low_stock_threshold i)
        /\ (low_stock = Some false ->
            Inventory.low_stock_threshold i < Inventory.quantity i).
Proof.
  intros low pid cid d i. unfold inventory_status_query.
  assert (Hlow :
    forall q : list Inventory.t,
      In i match low with
           | Some true =>
               filter (fun i => Inventory.quantity i
                                <=? Inventory.low_stock_threshold i) q
           | Some false =>
               filter (fun i => Inventory.low_stock_threshold i
                                <? Inventory.quantity i) q
           | None => q
           end
      <-> In i q
          /\ (low = Some true ->
              Inventory.quantity i <= Inventory.low_stock_threshold i)
          /\ (low = Some false ->
              Inventory.low_stock_threshold i < Inventory.quantity i)).
  { intros q. destruct low as [[|]|].
    - rewrite filter_In, Z.leb_le. split.
      + intros [H1 H2]. split; [exact H1|].
        split; [intros _; exact H2 | discriminate].
      + intros (H1 & H2 & _). split; [exact H1 | apply H2; reflexivity].
    - rewrite filter_In, Z.ltb_lt. split.
      + intros [H1 H2]. split; [exact H1|].
        split; [discriminate | intros _; exact H2].
      + intros (H1 & _ & H2). split; [exact H1 | apply H2; reflexivity].
    - split; [|tauto]. intros H. split; [exact H|]. split; discriminate. }
  rewrite Hlow. clear Hlow.
  assert (Hcat :
    forall q : list Inventory.t,
      In i match cid with
           | Some c =>
               filter (fun i => match get_product (Inventory.product_id i) d with
                                | Some p => Product.category_id p =? c
                                | None => false
                                end) q
           | None => q
           end
      <-> In i q
          /\ (forall p c, get_product (Inventory.product_id i) d = Some p ->
                          cid = Some c -> Product.category_id p = c)
          /\ (cid <> None -> get_product (Inventory.product_id i) d <> None)).
  { intros q. destruct cid as [c|].
    - rewrite filter_In.
      destruct (get_product (Inventory.product_id i) d) as [p|].
      + rewrite Z.eqb_eq. split.
        * intros [H1 H2]. split; [exact H1|].
          split; [intros p' c' Hp Hc; congruence | intros _; discriminate].
        * intros (H1 & H2 & _). split; [exact H1 | apply (H2 p c); reflexivity].
      + split; [intros [_ H]; discriminate H|].
        intros (_ & _ & H). exfalso. apply H; [discriminate|reflexivity].
    - split; [|tauto]. intros H. split; [exact H|].
      split; [intros p c _ Hc; discriminate Hc | intros Hn; contradiction]. }
  rewrite Hcat. clear Hcat.
  assert (Hpid :
    forall q : list Inventory.t,
      In i match pid with
           | Some p => filter (fun i => Inventory.product_id i =? p) q
           | None => q
           end
      <-> In i q /\ (forall p, pid = Some p -> Inventory.product_id i = p)).
  { intros q. destruct pid as [p|]; [rewrite filter_In, Z.eqb_eq|].
    - split; intros [H1 H2]; split; auto; congruence.
    - split; [intros H; split; [exact H|discriminate]|tauto]. }
  rewrite Hpid, filter_In. clear Hpid.
  destruct (get_product (Inventory.product_id i) d) as [p|].
  - split.
    + intros ((((H1 & _) & H2) & H3 & _) & H4 & H5).
      repeat split; try assumption.
      exists p. split; [reflexivity|]. intros c Hc. apply (H3 p c eq_refl Hc).
    + intros (H1 & (p' & Hp' & Hc) & H2 & H3 & H4).
      injection Hp' as <-.
      repeat split; try assumption; try discriminate.
      intros p' c Hp' Hc'. injection Hp' as <-. apply Hc, Hc'.
  - split.
    + intros ((((_ & H) & _) & _) & _). discriminate H.
    + intros (_ & (p' & Hp' & _) & _). discriminate Hp'.
Qed.

(** X18.  The stock listing.  For any paging and filters the listing
    endpoint answers without writing, with at most [limit] items in the
    order of their product ids; every item is a stock record of the
    database together with its product, which exists; its low-stock flag
    says whether the quantity is at or below the threshold, so that it is set
    on every item of a [low_stock=true] listing and on none of a
    [low_stock=false] listing; and every item passes the product and the
    category filter. *)
Theorem inventory_listing :
  forall skip limit low_stock product_id category_id d st t,
    exists items,
      serve (inventory_router.read_inventory_status skip limit low_stock
               product_id category_id) d st t
      = (inr items, d)
      /\ (List.length items <= Z.to_nat limit)%nat
      /\ StronglySorted
           (fun a b => Inventory.product_id a <= Inventory.product_id b)
           (map inventory_router.record items)
      /\ forall x, In x items ->
           In (inventory_router.record x) (rows (inventory d))
           /\ (exists p,
                 inventory_router.product x = Some p
                 /\ get_product
                      (Inventory.product_id (inventory_router.record x)) d
                    = Some p
                 /\ forall cid, category_id = Some cid ->
                                Product.category_id p = cid)
           /\ (inventory_router.is_low_stock x = true
               <-> Inventory.quantity (inventory_router.record x)
                   <= Inventory.low_stock_threshold (inventory_router.record x))
           /\ (low_stock = Some true -> inventory_router.is_low_stock x = true)
           /\ (low_stock = Some false -> inventory_router.is_low_stock x = false)
           /\ (forall pid, product_id = Some pid ->
                 Inventory.product_id (inventory_router.record x) = pid).
Proof.
  intros skip limit low pid cid d st t.
  eexists. split; [reflexivity|].
  rewrite length_map, map_map, map_id. cbn [inventory_router.record].
  unfold get_all_inventory_status. cbn [working open_session].
  split; [|split].
  - unfold offset_limit. apply firstn_le_length.
  - unfold offset_limit.
    apply StronglySorted_firstn, StronglySorted_skipn,
      order_by_product_id_sorted.
  - intros x Hx. apply in_map_iff in Hx. destruct Hx as [i [<- Hi]].
    apply offset_limit_In, order_by_product_id_In, inventory_status_query_In
      in Hi.
    destruct Hi as (Hin & (p & Hp & Hcat) & Hpid & Hlow & Hhigh).
    cbn [inventory_router.record inventory_router.product
         inventory_router.is_low_stock].
    split; [exact Hin|]. split; [exists p; auto|].
    rewrite Z.leb_le. split; [reflexivity|].
    split; [exact Hlow|]. split; [|exact Hpid].
    intros H. apply Z.leb_gt, Hhigh, H.
Qed.

Lemma offset_limit_all :
  forall (A : Type) limit (l : list A),
    Z.of_nat (List.length l) <= limit -> offset_limit 0 limit l = l.
Proof.
  intros A limit l H. unfold offset_limit. cbn [Z.to_nat skipn].
  apply firstn_all2. lia.
Qed.

Lemma get_all_inventory_status_all :
  forall limit low_stock product_id category_id d i,
    Z.of_nat (List.length (rows (inventory d))) <= limit ->
    In i (get_all_inventory_status 0 limit low_stock product_id category_id d)
    <-> In i (inventory_status_query low_stock product_id category_id d).
Proof.
  intros limit low pid cid d i H. unfold get_all_inventory_status.
  rewrite offset_limit_all; [apply order_by_product_id_In|].
  rewrite order_by_product_id_length.
  assert (Hle : (List.length (inventory_status_query low pid cid d)
                 <= List.length (rows (inventory d)))%nat).
  { unfold inventory_status_query.
    assert (F : forall (f : Inventory.t -> bool) q,
              (List.length (filter f q) <= List.length q)%nat)
      by (intros f q; apply filter_length_le).
    destruct low as [[|]|], pid as [p|], cid as [c|];
      repeat (etransitivity; [apply F|]); apply F || reflexivity. }
  lia.
Qed.

(** X19.  The two low-stock listings split the full one.  With no offset
    and a limit that covers the stock table, a stock record is in the
    unfiltered listing exactly when it is in the [low_stock=true] or in the
    [low_stock=false] listing, and never in both, whatever the product and
    category filters. *)
Theorem low_stock_listings_partition :
  forall limit product_id category_id d i,
    Z.of_nat (List.length (rows (inventory d))) <= limit ->
    (In i (get_all_inventory_status 0 limit None product_id category_id d)
     <-> In i (get_all_inventory_status 0 limit (Some true)
                 product_id category_id d)
         \/ In i (get_all_inventory_status 0 limit (Some false)
                    product_id category_id d))
    /\ ~ (In i (get_all_inventory_status 0 limit (Some true)
                  product_id category_id d)
          /\ In i (get_all_inventory_status 0 limit (Some false)
                     product_id category_id d)).
Proof.
  intros limit pid cid d i H.
  rewrite !get_all_inventory_status_all by exact H.
  rewrite !inventory_status_query_In. split; [split|].
  - intros (H1 & H2 & H3 & _).
    destruct (Z.le_gt_cases (Inventory.quantity i)
                            (Inventory.low_stock_threshold i)) as [Hle|Hgt].
    + left. repeat split; try assumption; try discriminate. intros _; exact Hle.
    + right. repeat split; try assumption; try discriminate. intros _; exact Hgt.
  - intros [(H1 & H2 & H3 & _)|(H1 & H2 & H3 & _)];
      repeat split; try assumption; discriminate.
  - intros [(_ & _ & _ & Hlow & _) (_ & _ & _ & _ & Hhigh)].
    specialize (Hlow eq_refl). specialize (Hhigh eq_refl). lia.
Qed.

Lemma low_stock_listings_partition_witness :
  (In (Inventory.mk 1 1 10 10 (19000, 0))
      (get_all_inventory_status 0 100 None None (Some 1) stocked_db)
   <-> In (Inventory.mk 1 1 10 10 (19000, 0))
          (get_all_inventory_status 0 100 (Some true) None (Some 1) stocked_db)
       \/ In (Inventory.mk 1 1 10 10 (19000, 0))
             (get_all_inventory_status 0 100 (Some false) None (Some 1)
                stocked_db))
  /\ ~ (In (Inventory.mk 1 1 10 10 (19000, 0))
           (get_all_inventory_status 0 100 (Some true) None (Some 1) stocked_db)
        /\ In (Inventory.mk 1 1 10 10 (19000, 0))
              (get_all_inventory_status 0 100 (Some false) None (Some 1)
                 stocked_db)).
Proof.
  apply (low_stock_listings_partition 100 None (Some 1) stocked_db).
  vm_compute. discriminate.
Defined.

(** ** The periods of the revenue summary *)

Lemma days_in_month_cases :
  forall y m,
    calendar.days_in_month y m = 28 \/ calendar.days_in_month y m = 29
    \/ calendar.days_in_month y m = 30 \/ calendar.days_in_month y m = 31.
Proof.
  intros y m. unfold calendar.days_in_month.
  destruct (m =? 2); [destruct (calendar.is_leap y); auto|].
  destruct ((m =? 4) || (m =? 6) || (m =? 9) || (m =? 11)); auto.
Qed.

Lemma tomorrow_within :
  forall y m d,
    d < calendar.days_in_month y m ->
    calendar.tomorrow (calendar.mk y m d) = Some (calendar.mk y m (d + 1)).
Proof.
  intros y m d H. unfold calendar.tomorrow.
  cbn [calendar.year calendar.month calendar.day].
  destruct (Z.ltb_spec d (calendar.days_in_month y m)); [reflexivity|lia].
Qed.

Lemma tomorrow_next_month :
  forall y m d,
    d = calendar.days_in_month y m -> m < 12 ->
    calendar.tomorrow (calendar.mk y m d) = Some (calendar.mk y (m + 1) 1).
Proof.
  intros y m d H Hm. unfold calendar.tomorrow.
  cbn [calendar.year calendar.month calendar.day].
  destruct (Z.ltb_spec d (calendar.days_in_month y m)); [lia|].
  destruct (Z.ltb_spec m 12); [reflexivity|lia].
Qed.

Lemma tomorrow_next_year :
  forall y d,
    d = 31 ->
    calendar.tomorrow (calendar.mk y 12 d)
    = if y <? calendar.MAXYEAR then Some (calendar.mk (y + 1) 1 1) else None.
Proof.
  intros y d ->. reflexivity.
Qed.

Lemma yesterday_within :
  forall y m d,
    1 < d ->
    calendar.yesterday (calendar.mk y m d) = Some (calendar.mk y m (d - 1)).
Proof.
  intros y m d H. unfold calendar.yesterday.
  cbn [calendar.year calendar.month calendar.day].
  destruct (Z.ltb_spec 1 d); [reflexivity|lia].
Qed.

Lemma yesterday_previous_month :
  forall y m,
    1 < m ->
    calendar.yesterday (calendar.mk y m 1)
    = Some (calendar.mk y (m - 1) (calendar.days_in_month y (m - 1))).
Proof.
  intros y m H. unfold calendar.yesterday.
  cbn [calendar.year calendar.month calendar.day Z.ltb Z.compare Pos.compare
       Pos.compare_cont].
  destruct (Z.ltb_spec 1 m); [reflexivity|lia].
Qed.

Lemma yesterday_previous_year :
  forall y,
    1 < y ->
    calendar.yesterday (calendar.mk y 1 1) = Some (calendar.mk (y - 1) 12 31).
Proof.
  intros y H. unfold calendar.yesterday.
  cbn [calendar.year calendar.month calendar.day Z.ltb Z.compare Pos.compare
       Pos.compare_cont].
  destruct (Z.ltb_spec 1 y); [reflexivity|lia].
Qed.

Ltac calendar_arith :=
  repeat match goal with
         | |- context [?a + 1] =>
             match a with
             | Zpos _ => let v := eval cbv in (a + 1) in change (a + 1) with v
             end
         | |- context [?a - 1] =>
             match a with
             | Zpos _ => let v := eval cbv in (a - 1) in change (a - 1) with v
             end
         end.

Ltac count_days :=
  match goal with
  | |- context [calendar.add_days ?d (- ?n)] =>
      unfold calendar.add_days;
      let b := eval cbv in (0 <=? - n) in change (0 <=? - n) with b;
      let k := eval cbv in (Z.to_nat (- - n)) in
      change (Z.to_nat (- - n)) with k;
      cbv iota
  end.

Ltac step_days :=
  repeat (cbn [calendar.repeat_day];
          first [ rewrite tomorrow_within by lia
                | rewrite tomorrow_next_month by lia
                | rewrite yesterday_within by lia
                | rewrite yesterday_previous_month by lia ];
          calendar_arith).

(** X20.  Period ends.  For a period that starts on a calendar date, the
    revenue summary's monthly period ends on the last day of that month and
    its annual period on 31 December of that year, whatever the day of the
    start; a daily period ends on the day it starts.  The one exception is
    December of the last year of the calendar, where the date arithmetic of
    the monthly case overflows. *)
Theorem period_end_of_month :
  forall ps,
    calendar.valid ps ->
    period_end "monthly" ps
    = (if (calendar.year ps =? calendar.MAXYEAR) && (calendar.month ps =? 12)
       then None
       else Some (calendar.mk (calendar.year ps) (calendar.month ps)
                    (calendar.days_in_month (calendar.year ps)
                                            (calendar.month ps))))
    /\ period_end "annually" ps = Some (calendar.mk (calendar.year ps) 12 31)
    /\ period_end "daily" ps = Some ps.
Proof.
  intros [y m d] (Hy & Hm & Hd).
  cbn [calendar.year calendar.month calendar.day] in *.
  split; [|split; reflexivity].
  unfold period_end. cbn [String.eqb Ascii.eqb Bool.eqb].
  cbn [calendar.year calendar.month calendar.day].
  unfold calendar.add_days at 1.
  change (0 <=? 4) with true. change (Z.to_nat 4) with 4%nat. cbv iota.
  destruct (Z.eq_dec m 12) as [->|Hnot12].
  - assert (E : calendar.days_in_month y 12 = 31) by reflexivity.
    rewrite E.
    rewrite Z.eqb_refl, andb_true_r.
    step_days. cbn [calendar.repeat_day].
    rewrite tomorrow_next_year by reflexivity.
    unfold calendar.MAXYEAR in *.
    destruct (Z.ltb_spec y 9999) as [Hlt|Hge].
    + replace (y =? 9999) with false by (symmetry; apply Z.eqb_neq; lia).
      cbn [calendar.day]. count_days. cbn [calendar.repeat_day].
      rewrite yesterday_previous_year by lia.
      f_equal. f_equal. lia.
    + replace (y =? 9999) with true by (symmetry; apply Z.eqb_eq; lia).
      reflexivity.
  - replace (m =? 12) with false by (symmetry; apply Z.eqb_neq; lia).
    rewrite andb_false_r.
    pose proof (days_in_month_cases y (m + 1)) as Hnext.
    assert (Hback : calendar.mk y (m + 1 - 1)
                      (calendar.days_in_month y (m + 1 - 1))
                    = calendar.mk y m (calendar.days_in_month y m))
      by (replace (m + 1 - 1) with m by lia; reflexivity).
    destruct (days_in_month_cases y m) as [E|[E|[E|E]]];
      step_days; cbn [calendar.repeat_day calendar.day]; count_days;
      step_days; cbn [calendar.repeat_day]; rewrite Hback; reflexivity.
Qed.

Lemma period_end_of_month_witness :
  period_end "monthly" (calendar.mk 2024 2 1) = Some (calendar.mk 2024 2 29)
  /\ period_end "annually" (calendar.mk 2024 2 1) = Some (calendar.mk 2024 12 31)
  /\ period_end "daily" (calendar.mk 2024 2 1) = Some (calendar.mk 2024 2 1).
Proof.
  apply (period_end_of_month (calendar.mk 2024 2 1)).
  unfold calendar.valid, calendar.MAXYEAR. vm_compute. intuition discriminate.
Defined.

(** ** Stock never goes negative *)

Lemma careful_step_step : forall d d', careful_step d d' -> step d d'.
Proof. intros d d' H. destruct H; constructor. Qed.

Lemma careful_history_sound : forall d, careful_history d -> sound d.
Proof.
  intros d H. induction H as [|d d' _ IH Hstep].
  - exact empty_db_sound.
  - apply (step_sound d d' (careful_step_step d d' Hstep) IH).
Qed.

Lemma create_product_rows :
  forall product d st t inv,
    In inv (rows (inventory (snd (run (create_product product) d st t)))) ->
    In inv (rows (inventory d))
    \/ Inventory.quantity inv = ProductCreate.initial_quantity product.
Proof.
  intros product d st t inv. rewrite create_product_run.
  destruct st as [|[|] [|[|] st]]; cbn [snd]; auto;
    unfold product_written, product_inserted;
    cbn [with_inventory_logs with_inventory with_products inventory rows];
    auto; intros H; apply in_app_iff in H;
    destruct H as [H|[<-|[]]]; auto.
Qed.

Lemma update_inventory_rows :
  forall product_id u d st t inv,
    In inv (rows (inventory
                    (snd (run (update_inventory product_id u) d st t)))) ->
    In inv (rows (inventory d)) \/ 0 <= Inventory.quantity inv.
Proof.
  intros pid u d st t r.
  unfold run, update_inventory, bind, query. cbn [open_session working].
  destruct (get_inventory_by_product_id pid d) as [inv|]; [|auto].
  set (target := match InventoryUpdate.quantity_change u with
                 | Some c => Inventory.quantity inv + c
                 | None => match InventoryUpdate.absolute_quantity u with
                           | Some a => a
                           | None => Inventory.quantity inv
                           end
                 end).
  assert (Hclamp : 0 <= (if target <? 0 then 0 else target))
    by (destruct (Z.ltb_spec target 0); lia).
  set (new_quantity := if target <? 0 then 0 else target) in *.
  destruct (negb (new_quantity - Inventory.quantity inv =? 0) || _ || _);
    unfold func_now, modify, add, insert, commit, ret;
    (destruct st as [|[|] st]);
    cbn [committed working storage now fst snd with_inventory
         with_inventory_logs inventory update rows];
    auto; intros H; apply in_map_iff in H; destruct H as [x [<- Hx]];
    (destruct (Inventory.id x =? Inventory.id inv); [right; exact Hclamp|auto]).
Qed.

Lemma units_ordered_absent :
  forall items p,
    ~ In p (map OrderItemCreate.product_id items) -> units_ordered p items = 0.
Proof.
  induction items as [|a rest IH]; intros p H; [reflexivity|].
  cbn [units_ordered fold_right]. fold (units_ordered p rest).
  destruct (Z.eqb_spec (OrderItemCreate.product_id a) p) as [E|E].
  - exfalso. apply H. left. exact E.
  - apply IH. intros Hin. apply H. right. exact Hin.
Qed.

Lemma stock_of_record :
  forall d inv,
    NoDup (map Inventory.product_id (rows (inventory d))) ->
    In inv (rows (inventory d)) ->
    stock (Inventory.product_id inv) d = Inventory.quantity inv.
Proof.
  intros d inv Hnd Hin. unfold stock, get_inventory_by_product_id.
  destruct (find _ (rows (inventory d))) as [r|] eqn:E.
  - apply find_some in E. destruct E as [Hr E]. apply Z.eqb_eq in E.
    rewrite (unique_key _ Inventory.product_id _ r inv Hnd Hr Hin E).
    reflexivity.
  - apply (find_none _ _ E) in Hin. rewrite Z.eqb_refl in Hin. discriminate.
Qed.

Lemma stock_not_negative :
  forall d p, no_negative_stock d -> 0 <= stock p d.
Proof.
  intros d p H. unfold stock, get_inventory_by_product_id.
  destruct (find _ (rows (inventory d))) as [r|] eqn:E; [|lia].
  apply find_some in E. apply H, E.
Qed.

Lemma create_order_outcomes :
  forall order_data d st t,
    inventory (snd (run (create_order order_data) d st t)) = inventory d
    \/ exists o,
         run (create_order order_data) d st t
         = (Return o, snd (run (create_order order_data) d st t)).
Proof.
  intros od d st t. rewrite create_order_run.
  destruct (fst _) as [[[total infos] updates]|e]; [|left; reflexivity].
  rewrite commit_order_run.
  destruct st as [|[|] [|[|] st]]; cbn [snd];
    try (left; reflexivity); right; eexists; reflexivity.
Qed.

Lemma careful_step_no_negative_stock :
  forall d d',
    careful_step d d' -> sound d -> no_negative_stock d ->
    no_negative_stock d'.
Proof.
  intros d d' Hstep Hsound Hd.
  pose proof (step_sound d d' (careful_step_step d d' Hstep) Hsound)
    as [[_ Hint'] _].
  destruct Hstep as [d product st t Hinit|d pid u st t|d od st t Hlines];
    intros inv Hin.
  - apply create_product_rows in Hin. destruct Hin as [Hin | ->];
      [apply Hd, Hin | exact Hinit].
  - apply update_inventory_rows in Hin. destruct Hin as [Hin|Hin];
      [apply Hd, Hin | exact Hin].
  - destruct (create_order_outcomes od d st t) as [Hsame|[o Hrun]].
    + rewrite Hsame in Hin. apply Hd, Hin.
    + rewrite <- (stock_of_record _ inv (unique_product_id Hint') Hin).
      set (p := Inventory.product_id inv).
      destruct (create_order_success od d st t o _ Hrun)
        as (total & infos & updates & Hval & _ & Hd').
      rewrite Hd'.
      apply validate_items_updates in Hval.
      cbn [app working open_session] in Hval. destruct Hval as [-> Hgood].
      unfold order_written. rewrite sales_stock.
      * cbn [stock]. 
        change (stock p (lines_inserted (next_id (orders d)) infos
                           (order_inserted od total t d)))
          with (stock p d).
        pose proof (stock_not_negative d p Hd) as Hp.
        destruct (in_dec Z.eq_dec p
                    (map OrderItemCreate.product_id (OrderCreate.items od)))
          as [Hline|Hnone].
        -- apply in_map_iff in Hline. destruct Hline as [item [Hitem Hinl]].
           subst p. rewrite <- Hitem.
           rewrite (units_ordered_once _ _ Hlines Hinl).
           pose proof (Hgood item Hinl) as Hok. unfold bad_line in Hok.
           rewrite <- Hitem in Hp.
           destruct (Z.le_gt_cases (OrderItemCreate.quantity item)
                       (stock (OrderItemCreate.product_id item) d)); [lia|].
           exfalso. apply Hok. right. right. lia.
        -- rewrite (units_ordered_absent _ _ Hnone). lia.
      * destruct Hsound as [_ Hint]. exact (unique_inventory_id Hint).
      * intros item Hitem H. apply (Hgood item Hitem). right; left. exact H.
Qed.

(** X21.  Stock never goes negative in a careful history.  Starting from
    the empty database, through any calls of [create_product] with an
    initial quantity that is not negative, of [update_inventory] with any
    arguments, and of [create_order] whose lines name pairwise distinct
    products (any commit failing along the way), no stock record ever
    holds a negative quantity, and so no product's stock is negative. *)
Theorem stock_never_negative :
  forall d,
    careful_history d ->
    no_negative_stock d /\ forall p, 0 <= stock p d.
Proof.
  intros d H.
  assert (Hrows : no_negative_stock d).
  { induction H as [|d d' Hd IH Hstep].
    - intros inv [].
    - apply (careful_step_no_negative_stock d d' Hstep);
        [apply careful_history_sound, Hd | exact IH]. }
  split; [exact Hrows|]. intros p. apply stock_not_negative, Hrows.
Qed.

Lemma stock_never_negative_witness :
  no_negative_stock history_db /\ forall p, 0 <= stock p history_db.
Proof.
  apply (stock_never_negative history_db). unfold history_db.
  apply (careful_next
           (careful_next
              (careful_next careful_empty
                 (careful_create_product empty_db widget [] (19000, 0)
                    ltac:(vm_compute; discriminate)))
              (careful_create_order _ eight_widgets [] (19010, 0)
                 ltac:(repeat constructor; intros [])))
           (careful_update_inventory _ 1
              (InventoryUpdate.mk (Some (-5)) None None None) [] (19020, 0))).
Defined.
